(** * Aggregation statistics of wndcharm's FeatureSpacePredictionExperiment

    Shallow embedding of [src/wndcharm/FeatureSpacePredictionExperiment.py]:
    the base-class [GenerateStats] (ground-truth/predicted value aggregation
    and feature-weight statistics), the classification and regression
    subclasses' [GenerateStats], the confidence interval selected by the
    classification [Print], and both [PerSampleStatistics].

    Conventions of the embedding:
    - Python/numpy floats are modelled as rationals [Q]; [sqrt] is taken in [R]
      (through [Q2R]).  The confidence interval of the classification
      [Print], whose branch and [math.sqrt] depend on rounding, is computed
      in IEEE binary64 (Rocq's primitive [float]), as Python does.
    - A float attribute that numpy may leave NaN or infinite ([std_err]) is a
      [py_real].
    - A raised exception is [Err e] of the error monad [result].
    - Python 2 dicts are association lists in insertion order for their
      contents; the order in which a dict is iterated is a separate function
      [dict_order] of the key insertion sequence (CPython 2 iterates by hash
      slot, see [py2_dict_order]). *)

From Stdlib Require Import Floats.
From Stdlib Require Uint63.
From Stdlib Require Import List String Ascii Bool Arith ZArith QArith Qreals Reals Lia Lra
  Qminmax Qround Qabs Permutation Sorted.
From Stdlib Require Lqa.
Import ListNotations.

Open Scope list_scope.

(* ------------------------------------------------------------------ *)
(** ** Exceptions and the error monad *)

Inductive exn : Type :=
| ZeroDivisionError
| ValueError
| FloatingPointError.

Inductive result (A : Type) : Type :=
| Ok (a : A)
| Err (e : exn).
Arguments Ok {A} a.
Arguments Err {A} e.

Definition bind {A B : Type} (r : result A) (f : A -> result B) : result B :=
  match r with
  | Ok a => f a
  | Err e => Err e
  end.

Notation "x <- m ;; k" := (bind m (fun x => k))
  (at level 61, m at next level, right associativity).

Fixpoint foldM {A B : Type} (f : A -> B -> result A) (l : list B) (a : A) : result A :=
  match l with
  | [] => Ok a
  | x :: l' => bind (f a x) (foldM f l')
  end.

Fixpoint mapM {A B : Type} (f : A -> result B) (l : list A) : result (list B) :=
  match l with
  | [] => Ok []
  | x :: l' => y <- f x ;; ys <- mapM f l' ;; Ok (y :: ys)
  end.

(** Python's float division [x / y] (and [x /= y]): [ZeroDivisionError] on a
    zero divisor. *)
Definition py_fdiv (x y : Q) : result Q :=
  if Qeq_bool y 0 then Err ZeroDivisionError else Ok (x / y).

Definition Q_of_nat (n : nat) : Q := inject_Z (Z.of_nat n).

(* ------------------------------------------------------------------ *)
(** ** Dicts as association lists *)

Section Dict.
Context {K V : Type} (eqk : K -> K -> bool).

(** [d.get(k, dflt)], also the read of a [defaultdict]. *)
Fixpoint dget (dflt : V) (k : K) (d : list (K * V)) : V :=
  match d with
  | [] => dflt
  | (k', v) :: d' => if eqk k' k then v else dget dflt k d'
  end.

Fixpoint dlookup (k : K) (d : list (K * V)) : option V :=
  match d with
  | [] => None
  | (k', v) :: d' => if eqk k' k then Some v else dlookup k d'
  end.

(** [d[k] = v]: overwrite in place, or append a new key. *)
Fixpoint dset (k : K) (v : V) (d : list (K * V)) : list (K * V) :=
  match d with
  | [] => [(k, v)]
  | (k', v') :: d' => if eqk k' k then (k', v) :: d' else (k', v') :: dset k v d'
  end.
End Dict.

Definition pair_eqb (a b : string * string) : bool :=
  String.eqb (fst a) (fst b) && String.eqb (snd a) (snd b).

(** A dict of dicts [m[row][col]] (a [defaultdict(lambda: defaultdict(...))])
    is kept as its cells, keyed by [(row, col)]. *)
Definition Matrix (V : Type) := list ((string * string) * V).

Definition mget {V} (dflt : V) (k : string * string) (m : Matrix V) : V :=
  dget pair_eqb dflt k m.
Definition mset {V} (k : string * string) (v : V) (m : Matrix V) : Matrix V :=
  dset pair_eqb k v m.

(** [m[row][col] += c] on a defaultdict of ints / floats. *)
Definition madd_nat (k : string * string) (c : nat) (m : Matrix nat) : Matrix nat :=
  mset k (mget 0%nat k m + c)%nat m.
Definition madd_Q (k : string * string) (c : Q) (m : Matrix Q) : Matrix Q :=
  mset k (mget 0 k m + c) m.

(** [d[k] += c] on a [defaultdict(int)] keyed by class name. *)
Definition cadd (k : string) (c : nat) (d : list (string * nat)) : list (string * nat) :=
  dset String.eqb k (dget String.eqb 0%nat k d + c)%nat d.

(** Python 2 [sorted] on a list of [str]: bytewise order, stable. *)
Fixpoint insert_str (s : string) (l : list string) : list string :=
  match l with
  | [] => [s]
  | t :: l' => if String.leb s t then s :: t :: l' else t :: insert_str s l'
  end.
Definition sorted_strings (l : list string) : list string := fold_right insert_str [] l.

(** Python's [==] on two lists of strings. *)
Fixpoint str_list_eqb (l1 l2 : list string) : bool :=
  match l1, l2 with
  | [], [] => true
  | a :: l1', b :: l2' => String.eqb a b && str_list_eqb l1' l2'
  | _, _ => false
  end.

(* ------------------------------------------------------------------ *)
(** ** Data model *)

(** A SingleSamplePrediction (classification and regression fields). *)
Record Sample : Type := {
  source_filepath : string;
  ground_truth_class_name : string;
  predicted_class_name : string;
  ground_truth_value : Q;
  predicted_value : Q;
  marginal_probabilities : list Q
}.

(** A batch (one split), a FeatureSpaceClassification or FeatureSpaceRegression
    whose own [GenerateStats] has already run (NewShuffleSplit calls it before
    appending the batch). [feature_weights] is [None] when absent, else the
    pairs [zip(feature_names, values)]; an empty [tiled_results] stands for a
    falsy one. *)
Record Batch : Type := {
  b_individual_results : list Sample;
  b_tiled_results : list Sample;
  b_ground_truth_values : list Q;
  b_predicted_values : list Q;
  b_tiled_ground_truth_values : list Q;
  b_tiled_predicted_values : list Q;
  b_feature_weights : option (list (string * Q));
  b_average_class_probability_matrix : Matrix Q
}.

(** Modelled from the spec: [len(batch_result)] of a FeatureSpacePrediction
    (defined outside src/), the number of its Sample Predictions. *)
Definition batch_len (b : Batch) : nat := List.length (b_individual_results b).

(** Modelled from the spec: the per-batch confusion matrix of
    FeatureSpaceClassification (computed by its GenerateStats, outside src/):
    [batch_result.confusion_matrix[g][p]] counts the batch's Sample
    Predictions with ground-truth class [g] and predicted class [p]; a pair
    that never occurs is absent, which GenerateStats reads as 0. *)
Definition batch_count (b : Batch) (g p : string) : nat :=
  List.length (filter (fun s => String.eqb (ground_truth_class_name s) g
                           && String.eqb (predicted_class_name s) p)
                 (b_individual_results b)).

(** One entry of [feature_weight_statistics]:
    [(mean, count, std, min, max, name)]. *)
Record FwStat : Type := {
  fw_mean : Q;
  fw_count : nat;
  fw_std : R;
  fw_min : Q;
  fw_max : Q;
  fw_name : string
}.

(** Attributes written by [GenerateStats] of the classification subclass. *)
Record ClsStats : Type := {
  num_correct_classifications : option nat;
  classification_accuracy : option Q;
  num_classifications_per_class : list (string * nat);
  num_correct_classifications_per_class : list (string * nat);
  confusion_matrix : Matrix nat;
  average_class_probability_matrix : Matrix Q;
  similarity_matrix : option (Matrix Q)
}.

(** A Python float that may be NaN or infinite. *)
Inductive py_real : Type :=
| PyNum (r : R)
| PyNaN
| PyInf.

Record Experiment : Type := {
  individual_results : list Batch;
  test_class_names : list string;
  training_class_names : list string;
  num_classifications : nat;
  ground_truth_values : list Q;
  predicted_values : list Q;
  feature_weight_statistics : option (list FwStat);
  cls : ClsStats;
  std_err : option py_real;
  use_error_bars : bool
}.

Definition set_base (e : Experiment) (n : nat) (gt pv : list Q)
  (fws : option (list FwStat)) : Experiment :=
  {| individual_results := individual_results e;
     test_class_names := test_class_names e;
     training_class_names := training_class_names e;
     num_classifications := n;
     ground_truth_values := gt;
     predicted_values := pv;
     feature_weight_statistics := fws;
     cls := cls e;
     std_err := std_err e;
     use_error_bars := use_error_bars e |}.

Definition set_cls (e : Experiment) (n : nat) (c : ClsStats) : Experiment :=
  {| individual_results := individual_results e;
     test_class_names := test_class_names e;
     training_class_names := training_class_names e;
     num_classifications := n;
     ground_truth_values := ground_truth_values e;
     predicted_values := predicted_values e;
     feature_weight_statistics := feature_weight_statistics e;
     cls := c;
     std_err := std_err e;
     use_error_bars := use_error_bars e |}.

Definition set_std_err (e : Experiment) (r : py_real) : Experiment :=
  {| individual_results := individual_results e;
     test_class_names := test_class_names e;
     training_class_names := training_class_names e;
     num_classifications := num_classifications e;
     ground_truth_values := ground_truth_values e;
     predicted_values := predicted_values e;
     feature_weight_statistics := feature_weight_statistics e;
     cls := cls e;
     std_err := Some r;
     use_error_bars := use_error_bars e |}.

(* ------------------------------------------------------------------ *)
(** ** numpy reductions used on the feature-weight arrays *)

Definition Qsum (l : list Q) : Q := fold_right Qplus 0 l.

(** [np.mean]; only applied to non-empty arrays here. *)
Definition np_mean (l : list Q) : Q := Qsum l / Q_of_nat (List.length l).

(** [np.std] (population standard deviation, [ddof = 0]). *)
Definition np_std (l : list Q) : R :=
  sqrt (Q2R (np_mean (map (fun x => (x - np_mean l) * (x - np_mean l)) l))).

(** [np.min] / [np.max]; only applied to non-empty arrays here. *)
Definition np_min (l : list Q) : Q :=
  match l with [] => 0 | x :: l' => fold_left Qmin l' x end.
Definition np_max (l : list Q) : Q :=
  match l with [] => 0 | x :: l' => fold_left Qmax l' x end.

(* ------------------------------------------------------------------ *)
(** ** [FeatureSpacePredictionExperiment.GenerateStats] (base class) *)

(** The batch's [(classification_results, ground_truth_values,
    predicted_values)], tiled ones when [tiled_results] is truthy. *)
Definition classification_results_of (b : Batch) : list Sample * list Q * list Q :=
  match b_tiled_results b with
  | [] => (b_individual_results b, b_ground_truth_values b, b_predicted_values b)
  | _ :: _ => (b_tiled_results b, b_tiled_ground_truth_values b, b_tiled_predicted_values b)
  end.

(** First loop: the sum of [len(classification_results)] and the lists
    [lists_of_ground_truths], [lists_of_predicted_values] (non-empty ones). *)
Fixpoint scrape_values (bs : list Batch) : nat * list (list Q) * list (list Q) :=
  match bs with
  | [] => (0%nat, [], [])
  | b :: bs' =>
      let '(cr, gt, pv) := classification_results_of b in
      let '(n, gts, pvs) := scrape_values bs' in
      ((List.length cr + n)%nat,
       match gt with [] => gts | _ :: _ => gt :: gts end,
       match pv with [] => pvs | _ :: _ => pv :: pvs end)
  end.

(** [feature_weight_lists[name].append(weight)], creating the list first. *)
Fixpoint fw_append (name : string) (w : Q) (d : list (string * list Q))
  : list (string * list Q) :=
  match d with
  | [] => [(name, [w])]
  | (k, ws) :: d' =>
      if String.eqb k name then (k, ws ++ [w]) :: d' else (k, ws) :: fw_append name w d'
  end.

(** Second loop: [feature_weight_lists], keys in insertion (discovery) order. *)
Definition collect_feature_weights (bs : list Batch) : list (string * list Q) :=
  fold_left (fun d b =>
               match b_feature_weights b with
               | None => d
               | Some fw => fold_left (fun d nw => fw_append (fst nw) (snd nw) d) fw d
               end) bs [].

(** The tuple built for one feature [fname] with weights [fwl], out of
    [nb = len(self.individual_results)] batches.  Assigning the [count]
    weights to [np.zeros(nb)[0:count]] fails (numpy cannot broadcast) when
    [count > nb]. *)
Definition fw_stat (nb : nat) (fname : string) (fwl : list Q) : result FwStat :=
  let count := List.length fwl in
  if Nat.ltb nb count then Err ValueError
  else
    let fwl_w_zeros := fwl ++ repeat 0 (nb - count) in
    Ok {| fw_mean := np_mean fwl_w_zeros;
          fw_count := count;
          fw_std := np_std fwl;
          fw_min := np_min fwl;
          fw_max := np_max fwl;
          fw_name := fname |}.

(** [sorted(stats, key=lambda a: a[0], reverse=True)]: Python's sort is
    stable also with [reverse=True], so the result is the unique list sorted
    by non-increasing mean in which entries of equal mean keep their input
    order; insertion sort computes it. *)
Fixpoint insert_desc (x : FwStat) (l : list FwStat) : list FwStat :=
  match l with
  | [] => [x]
  | y :: l' => if Qle_bool (fw_mean y) (fw_mean x) then x :: y :: l' else y :: insert_desc x l'
  end.
Definition sort_by_mean_desc (l : list FwStat) : list FwStat := fold_right insert_desc [] l.

Section BaseStats.
(** The order in which a Python 2 dict whose keys were inserted in the
    given order is iterated. *)
Variable dict_order : list string -> list string.

Definition base_GenerateStats (e : Experiment) : result Experiment :=
  let '(n, gts, pvs) := scrape_values (individual_results e) in
  let gt := match gts with [] => ground_truth_values e | _ :: _ => List.concat gts end in
  let pv := match pvs with [] => predicted_values e | _ :: _ => List.concat pvs end in
  let d := collect_feature_weights (individual_results e) in
  let nb := List.length (individual_results e) in
  stats <- mapM (fun fname => fw_stat nb fname (dget String.eqb [] fname d))
                (dict_order (map fst d)) ;;
  Ok (set_base e (num_classifications e + n)%nat gt pv
               (Some (sort_by_mean_desc stats))).
End BaseStats.

(* ------------------------------------------------------------------ *)
(** ** [FeatureSpaceClassificationExperiment.GenerateStats] *)

(** The accumulators of the loop over the splits. *)
Record Tally : Type := {
  t_confusion_matrix : Matrix nat;
  t_average_class_probability_matrix : Matrix Q;
  t_num_correct : nat;
  t_num_per_class : list (string * nat);
  t_num_correct_per_class : list (string * nat);
  t_num_classifications : nat
}.

Definition tally0 : Tally :=
  {| t_confusion_matrix := []; t_average_class_probability_matrix := [];
     t_num_correct := 0; t_num_per_class := []; t_num_correct_per_class := [];
     t_num_classifications := 0 |}.

(** Body of the innermost loop, for one [(gt_class, pred_class)] cell. *)
Definition cell_step (b : Batch) (g : string) (t : Tally) (p : string) : Tally :=
  let count := batch_count b g p in
  {| t_confusion_matrix := madd_nat (g, p) count (t_confusion_matrix t);
     t_num_per_class := cadd g count (t_num_per_class t);
     t_num_correct := if String.eqb g p then (t_num_correct t + count)%nat
                      else t_num_correct t;
     t_num_correct_per_class := if String.eqb g p then cadd g count (t_num_correct_per_class t)
                                else t_num_correct_per_class t;
     t_average_class_probability_matrix :=
       madd_Q (g, p) (mget 0 (g, p) (b_average_class_probability_matrix b))
              (t_average_class_probability_matrix t);
     t_num_classifications := t_num_classifications t |}.

Definition add_classifications (k : nat) (t : Tally) : Tally :=
  {| t_confusion_matrix := t_confusion_matrix t;
     t_average_class_probability_matrix := t_average_class_probability_matrix t;
     t_num_correct := t_num_correct t;
     t_num_per_class := t_num_per_class t;
     t_num_correct_per_class := t_num_correct_per_class t;
     t_num_classifications := (t_num_classifications t + k)%nat |}.

(** One split: [num_classifications += len(batch_result)], then the rows in
    the test set's class order and the columns in the training set's. *)
Definition batch_step (test train : list string) (t : Tally) (b : Batch) : Tally :=
  fold_left (fun t g => fold_left (cell_step b g) train t) test
            (add_classifications (batch_len b) t).

Definition tally_batches (test train : list string) (bs : list Batch) : Tally :=
  fold_left (batch_step test train) bs tally0.

(** [m[row][col] /= len(self)] over the sorted class names. *)
Definition finalize_avg (nb : nat) (rows cols : list string) (m : Matrix Q)
  : result (Matrix Q) :=
  foldM (fun m row =>
           foldM (fun m col => v <- py_fdiv (mget 0 (row, col) m) (Q_of_nat nb) ;;
                               Ok (mset (row, col) v m)) cols m) rows m.

(** One row of the similarity matrix: divide by [denom = m[row][row]], read
    once before the columns are updated. *)
Definition similarity_row (cols : list string) (m : Matrix Q) (row : string)
  : result (Matrix Q) :=
  let denom := mget 0 (row, row) m in
  foldM (fun m col => v <- py_fdiv (mget 0 (row, col) m) denom ;;
                      Ok (mset (row, col) v m)) cols m.

Definition similarity (rows cols : list string) (m : Matrix Q) : result (Matrix Q) :=
  foldM (similarity_row cols) rows m.

Section ClassificationStats.
Variable dict_order : list string -> list string.

Definition cls_GenerateStats (e : Experiment) : result Experiment :=
  e0 <- base_GenerateStats dict_order e ;;
  let test := test_class_names e0 in
  let train := training_class_names e0 in
  let t := tally_batches test train (individual_results e0) in
  acpm <- finalize_avg (List.length (individual_results e0))
                       (sorted_strings test) (sorted_strings train)
                       (t_average_class_probability_matrix t) ;;
  sim <- (if str_list_eqb test train
          then s <- similarity test train acpm ;; Ok (Some s)
          else Ok (similarity_matrix (cls e0))) ;;
  acc <- py_fdiv (Q_of_nat (t_num_correct t)) (Q_of_nat (t_num_classifications t)) ;;
  Ok (set_cls e0 (t_num_classifications t)
        {| num_correct_classifications := Some (t_num_correct t);
           classification_accuracy := Some acc;
           num_classifications_per_class := t_num_per_class t;
           num_correct_classifications_per_class := t_num_correct_per_class t;
           confusion_matrix := t_confusion_matrix t;
           average_class_probability_matrix := acpm;
           similarity_matrix := sim |}).
End ClassificationStats.

(* ------------------------------------------------------------------ *)
(** ** [FeatureSpaceRegressionExperiment.GenerateStats] *)

(** [np.array(a) - np.array(b)] on 1-D arrays: equal lengths, or one side of
    length 1 broadcast; other shapes raise [ValueError]. *)
Definition np_sub (a b : list Q) : result (list Q) :=
  if Nat.eqb (List.length a) (List.length b) then Ok (map (fun xy => fst xy - snd xy) (combine a b))
  else match a, b with
       | [x], _ => Ok (map (fun y => x - y) b)
       | _, [y] => Ok (map (fun x => x - y) a)
       | _, _ => Err ValueError
       end.

(** Python's [x > y] on floats. *)
Definition Qgt_bool (x y : Q) : bool := negb (Qle_bool x y).

(** [math.sqrt( err_sum / n )] for the numpy float [err_sum] and the int
    [n] under numpy's error mode ([np_raise]: [np.seterr(all='raise')]).
    A zero [n] raises numpy's [FloatingPointError] in raise mode; in the
    default (warn) mode [0.0/0] is NaN and [x/0] is an infinity with the
    sign of [x], which [math.sqrt] returns for NaN and [inf] and rejects with
    [ValueError] for [-inf], as it rejects any negative argument. *)
Definition rms_std_err (np_raise : bool) (err_sum : Q) (n : nat) : result py_real :=
  if Nat.eqb n 0 then
    if np_raise then Err FloatingPointError
    else if Qeq_bool err_sum 0 then Ok PyNaN
    else if Qgt_bool err_sum 0 then Ok PyInf
    else Err ValueError
  else
    let q := err_sum / Q_of_nat n in
    if Qgt_bool 0 q then Err ValueError else Ok (PyNum (sqrt (Q2R q))).

(** [try: ... except FloatingPointError: ( 0, 1 )] around [spearmanr]. *)
Definition catch_fpe (r : result unit) : result unit :=
  match r with
  | Err FloatingPointError => Ok tt
  | _ => r
  end.

Section RegressionStats.
Variable dict_order : list string -> list string.
(** [scipy.stats.linregress] and [scipy.stats.spearmanr] (outside the
    repository) on the ground-truth and predicted values, under numpy's
    divide/invalid error mode ([true]: raise; underflow is ignored around
    them): [Ok tt] when they return, [Err e] for the exception they raise.
    What they return goes to attributes the model does not keep. *)
Variable linregress : bool -> list Q -> list Q -> result unit.
Variable spearmanr : bool -> list Q -> list Q -> result unit.

(** Regression [GenerateStats()] entered with numpy's error mode
    [np_raise]; it returns the experiment and the mode it leaves, raise
    ([np.seterr(all='raise')] is its last statement).  The values are
    numpy floats. *)
Definition reg_GenerateStats (np_raise : bool) (e : Experiment) : result (Experiment * bool) :=
  e0 <- base_GenerateStats dict_order e ;;
  diffs <- np_sub (ground_truth_values e0) (predicted_values e0) ;;
  let err_sum := Qsum (map (fun d => d * d) diffs) in
  se <- rms_std_err np_raise err_sum (num_classifications e0) ;;
  let e1 := set_std_err e0 se in
  _ <- linregress np_raise (ground_truth_values e1) (predicted_values e1) ;;
  _ <- catch_fpe (spearmanr np_raise (ground_truth_values e1) (predicted_values e1)) ;;
  Ok (e1, true).
End RegressionStats.

(* ------------------------------------------------------------------ *)
(** ** Confidence interval of [FeatureSpaceClassificationExperiment.Print] *)

Inductive interval_kind : Type := NormalApprox | WilsonScore.

(** Python's [float(k)] for an int [k] of magnitude below 2^63 (exact below
    2^53, otherwise rounded to nearest even, as Python does). *)
Definition float_of_Z (k : Z) : float :=
  match k with
  | Zneg p => (- of_uint63 (Uint63Axioms.of_Z (Zpos p)))%float
  | _ => of_uint63 (Uint63Axioms.of_Z k)
  end.

Definition float_of_nat (k : nat) : float := float_of_Z (Z.of_nat k).

(** The Python float of a ratio [p / q] held as the rational [p # q]:
    [float(p) / float(q)], one rounded division.  This is how
    [classification_accuracy = float(nc) / float(n)] is computed. *)
Definition float_of_Q (x : Q) : float :=
  (float_of_Z (Qnum x) / float_of_Z (Zpos (Qden x)))%float.

(** Python's [x / k] for a float [x] and an int [k]: [k] is converted to a
    float, and a zero divisor raises [ZeroDivisionError]. *)
Definition py_div_int (x : float) (k : nat) : result float :=
  if Nat.eqb k 0 then Err ZeroDivisionError else Ok (x / float_of_nat k)%float.

(** Python's [x / y] on floats: [ZeroDivisionError] when [y == 0.0]. *)
Definition py_div_float (x y : float) : result float :=
  if (y =? 0)%float then Err ZeroDivisionError else Ok (x / y)%float.

(** [math.sqrt(x)]: [ValueError] for [x < 0] (NaN and [-0.0] are returned
    as they are). *)
Definition py_sqrt (x : float) : result float :=
  if (x <? 0)%float then Err ValueError else Ok (PrimFloat.sqrt x).

Local Set Warnings "-inexact-float".
Definition z : float := 1.95996%float.
Definition z2 : float := 3.84144%float.
Local Set Warnings "+inexact-float".

(** The rule-of-thumb test [((n * acc) > 5) and ((n * (1 - acc)) > 5)]:
    [n * acc] is [float(n) * acc], compared with the int [5] exactly. *)
Definition normal_approx_ok (n : nat) (acc : float) : bool :=
  ((5 <? float_of_nat n * acc) && (5 <? float_of_nat n * (1 - acc)))%float.

(** The figures Print reports for accuracy [acc] over [n] classifications
    when [use_error_bars] is set: which interval, the accuracy shown and the
    half-width of the 95% interval.  Python evaluates [coeff * z * sqrt(..)]
    as [(coeff * z) * sqrt(..)] and [4*n**2] on ints. *)
Definition print_interval (n : nat) (acc : float) : result (interval_kind * float * float) :=
  if normal_approx_ok n acc then
    v <- py_div_int (acc * (1 - acc))%float n ;;
    std_error_of_mean <- py_sqrt v ;;
    let conf_interval := (z * std_error_of_mean)%float in
    Ok (NormalApprox, acc, conf_interval)
  else
    t <- py_div_int z2 n ;;
    coeff <- py_div_float 1 (1 + t)%float ;;
    let raw_acc := acc in
    h <- py_div_int z2 (2 * n) ;;
    let acc' := (coeff * (raw_acc + h))%float in
    v <- py_div_int (raw_acc * (1 - raw_acc))%float n ;;
    w <- py_div_int z2 (4 * (n * n)) ;;
    s <- py_sqrt (v + w)%float ;;
    let conf_interval := (coeff * z * s)%float in
    Ok (WilsonScore, acc', conf_interval).

(** Signs of binary64 values, read on their [spec_float] form: [sf_signed
    s x] says that [x] has sign [s] or is NaN; [sf_pos x] that [x] is a
    positive finite number or [+inf]. *)
Definition sf_signed (s : bool) (x : spec_float) : Prop :=
  match x with
  | S754_zero s' | S754_infinity s' | S754_finite s' _ _ => s' = s
  | S754_nan => True
  end.

Definition sf_pos (x : spec_float) : Prop :=
  match x with
  | S754_finite false _ _ | S754_infinity false => True
  | _ => False
  end.

(* ------------------------------------------------------------------ *)
(** ** [PerSampleStatistics] (classification and regression) *)

(** Python 2 compares a list and an int as unequal: [self.individual_results
    == 0] is [False] for every list. *)
Definition py_list_eq_int {A : Type} (l : list A) (n : Z) : bool := false.

(** [accumulated_individual_results[result.source_filepath].append(result)]
    over all batches, keys in insertion order. *)
Fixpoint acc_append (r : Sample) (d : list (string * list Sample))
  : list (string * list Sample) :=
  match d with
  | [] => [(source_filepath r, [r])]
  | (k, rs) :: d' =>
      if String.eqb k (source_filepath r) then (k, rs ++ [r]) :: d'
      else (k, rs) :: acc_append r d'
  end.

Definition accumulate (bs : list Batch) : list (string * list Sample) :=
  fold_left (fun d b => fold_left (fun d r => acc_append r d) (b_individual_results b) d) bs [].

(** The [mp_totals] loop: the first truthy (non-empty) probability list, then
    element-wise sums with [zip]. *)
Definition mp_totals_of (rs : list Sample) : list Q :=
  fold_left (fun tot r =>
               match tot with
               | [] => marginal_probabilities r
               | _ :: _ => map (fun xy => fst xy + snd xy) (combine tot (marginal_probabilities r))
               end) rs [].

(** The body of the [mp_totals] loop, for one Sample Prediction. *)
Definition mp_step (tot : list Q) (r : Sample) : list Q :=
  match tot with
  | [] => marginal_probabilities r
  | _ :: _ => map (fun xy => fst xy + snd xy) (combine tot (marginal_probabilities r))
  end.

(** [(len(vals), vals.count(gt_class) / len(vals), mp_avgs, gt_class)]. *)
Definition cls_sample_stat (rs : list Sample) : nat * Q * list Q * string :=
  let n := List.length rs in
  let gt_class := match rs with [] => EmptyString | r :: _ => ground_truth_class_name r end in
  let vals := map predicted_class_name rs in
  let hits := List.length (filter (fun v => String.eqb v gt_class) vals) in
  (n, Q_of_nat hits / Q_of_nat n,
   map (fun t => t / Q_of_nat n) (mp_totals_of rs), gt_class).

(** The attributes the classification PerSampleStatistics assigns (the
    printing that follows is not modelled). *)
Record ClsPerSample : Type := {
  cps_ground_truth_values : list string;
  cps_accumulated_individual_results : list (string * list Sample);
  cps_individual_stats : list (string * (nat * Q * list Q * string))
}.

(** Regression: [(len(vals), np.min(vals), np.mean(vals), np.max(vals),
    np.std(vals))] of the predicted values of one sample. *)
Definition reg_sample_stat (rs : list Sample) : nat * Q * Q * Q * R :=
  let vals := map predicted_value rs in
  (List.length vals, np_min vals, np_mean vals, np_max vals, np_std vals).

Record RegPerSample : Type := {
  rps_ground_truth_values : list Q;
  rps_predicted_values : list Q;
  rps_accumulated_individual_results : list (string * list Sample);
  rps_individual_stats : list (string * (nat * Q * Q * Q * R))
}.

Section PerSample.
Variable dict_order : list string -> list string.

Definition cls_PerSampleStatistics (e : Experiment) : result ClsPerSample :=
  if py_list_eq_int (individual_results e) 0 then Err ValueError
  else
    let acc := accumulate (individual_results e) in
    let files := dict_order (map fst acc) in
    Ok {| cps_ground_truth_values :=
            map (fun f => match dget String.eqb [] f acc with
                          | [] => EmptyString
                          | r :: _ => ground_truth_class_name r end) files;
          cps_accumulated_individual_results := acc;
          cps_individual_stats :=
            map (fun f => (f, cls_sample_stat (dget String.eqb [] f acc))) files |}.

Definition reg_PerSampleStatistics (e : Experiment) : result RegPerSample :=
  if py_list_eq_int (individual_results e) 0 then Err ValueError
  else
    let acc := accumulate (individual_results e) in
    let files := dict_order (map fst acc) in
    Ok {| rps_ground_truth_values :=
            map (fun f => match dget String.eqb [] f acc with
                          | [] => 0
                          | r :: _ => ground_truth_value r end) files;
          rps_predicted_values :=
            map (fun f => np_mean (map predicted_value (dget String.eqb [] f acc))) files;
          rps_accumulated_individual_results := acc;
          rps_individual_stats :=
            map (fun f => (f, reg_sample_stat (dget String.eqb [] f acc))) files |}.
End PerSample.

(* ------------------------------------------------------------------ *)
(** ** Iteration order of a CPython 2.7 dict with [str] keys *)

(** Arithmetic of the C [long] / [size_t] values: 64-bit words. *)
Definition w64 : Z := (2 ^ 64)%Z.

(** [string_hash] of Objects/stringobject.c (no hash randomisation:
    prefix = suffix = 0), as an unsigned 64-bit word:
    [x = p[0] << 7; x = (1000003 * x) ^ p[i] for each byte; x ^= len];
    [-1] becomes [-2]. *)
Definition py2_str_hash (s : string) : Z :=
  match list_ascii_of_string s with
  | [] => 0
  | c0 :: rest =>
      let cs := c0 :: rest in
      let x0 := Z.shiftl (Z.of_N (N_of_ascii c0)) 7 in
      let x := fold_left (fun x c => Z.lxor ((1000003 * x) mod w64)%Z (Z.of_N (N_of_ascii c)))
                         cs x0 in
      let x := Z.lxor x (Z.of_nat (String.length s)) in
      if Z.eqb x (w64 - 1)%Z then (w64 - 2)%Z else x
  end.

(** The hash table: [ma_table] slots, each empty or holding a key. *)
Record PyDict : Type := {
  ma_table : list (option string);
  ma_used : nat;
  ma_fill : nat
}.

Definition slot_empty (tbl : list (option string)) (i : Z) : bool :=
  match nth_error tbl (Z.to_nat i) with Some None => true | _ => false end.

(** The probe loop [i = (i << 2) + i + perturb + 1; perturb >>= 5] looking
    for a free slot ([lookdict_string] on a new key, [insertdict_clean]).
    Once [perturb] is 0 (after 13 shifts) the recurrence [i = 5i + 1] visits
    every slot of the power-of-two table, so [64 + size] steps always
    suffice. *)
Fixpoint probe (fuel : nat) (tbl : list (option string)) (mask i perturb : Z) : option Z :=
  match fuel with
  | O => None
  | S f =>
      let i' := ((i * 5 + perturb + 1) mod w64)%Z in
      if slot_empty tbl (Z.land i' mask) then Some (Z.land i' mask)
      else probe f tbl mask i' (Z.shiftr perturb 5)
  end.

Definition free_slot (tbl : list (option string)) (h : Z) : option Z :=
  let mask := (Z.of_nat (List.length tbl) - 1)%Z in
  let i := Z.land h mask in
  if slot_empty tbl i then Some i else probe (64 + List.length tbl) tbl mask i h.

Fixpoint list_set {A : Type} (n : nat) (x : A) (l : list A) : list A :=
  match l, n with
  | [], _ => []
  | _ :: l', O => x :: l'
  | y :: l', S n' => y :: list_set n' x l'
  end.

Definition put_key (tbl : list (option string)) (k : string) : list (option string) :=
  match free_slot tbl (py2_str_hash k) with
  | Some i => list_set (Z.to_nat i) (Some k) tbl
  | None => tbl
  end.

(** [dictresize]: the smallest power of two [>= PyDict_MINSIZE = 8] above
    [minused]; the old entries are re-inserted in slot order. *)
Fixpoint new_size (fuel size minused : nat) : nat :=
  match fuel with
  | O => size
  | S f => if Nat.ltb minused size then size else new_size f (2 * size) minused
  end.

Definition table_keys (tbl : list (option string)) : list string :=
  fold_right (fun o ks => match o with Some k => k :: ks | None => ks end) [] tbl.

Definition dictresize (d : PyDict) (minused : nat) : PyDict :=
  let size := new_size 64 8 minused in
  {| ma_table := fold_left put_key (table_keys (ma_table d)) (repeat None size);
     ma_used := ma_used d; ma_fill := ma_used d |}.

(** [PyDict_SetItem] of a key not yet present, then the growth check
    [ma_fill * 3 >= (ma_mask + 1) * 2], resizing to [4 * ma_used]. *)
Definition dict_insert_new (d : PyDict) (k : string) : PyDict :=
  let d' := {| ma_table := put_key (ma_table d) k;
               ma_used := S (ma_used d); ma_fill := S (ma_fill d) |} in
  if Nat.leb (2 * List.length (ma_table d')) (3 * ma_fill d')
  then dictresize d' (4 * ma_used d') else d'.

Definition py_dict0 : PyDict := {| ma_table := repeat None 8; ma_used := 0; ma_fill := 0 |}.

(** Iteration order of a fresh dict into which the distinct keys [ks] were
    inserted in order: the occupied slots, in slot order. *)
Definition py2_dict_order (ks : list string) : list string :=
  table_keys (ma_table (fold_left dict_insert_new ks py_dict0)).

(* ------------------------------------------------------------------ *)
(** ** Exceptions of the remaining code *)

(** The exceptions of [exn], and those the rest of the two modules can
    raise besides them. *)
Inductive py_exn : Type :=
| PyErr (e : exn)
| AttributeError
| NameError
| TypeError
| IndexError
| KeyError.

Inductive presult (A : Type) : Type :=
| POk (a : A)
| PErr (e : py_exn).
Arguments POk {A} a.
Arguments PErr {A} e.

Definition pbind {A B : Type} (r : presult A) (f : A -> presult B) : presult B :=
  match r with
  | POk a => f a
  | PErr e => PErr e
  end.

Definition lift {A : Type} (r : result A) : presult A :=
  match r with
  | Ok a => POk a
  | Err e => PErr (PyErr e)
  end.

(** Python 2 [range(start, stop, step)] / [xrange(...)] on ints:
    [ValueError] for a zero step, else [start, start + step, ...] up to,
    excluding, [stop]; the length is CPython's [get_len_of_range]. *)
Definition py_range (start stop step : Z) : result (list Z) :=
  if Z.eqb step 0 then Err ValueError
  else
    let len := if Z.ltb 0 step then Z.max 0 ((stop - start + step - 1) / step)
               else Z.max 0 ((start - stop - step - 1) / (- step)) in
    Ok (map (fun i => start + Z.of_nat i * step)%Z (seq 0 (Z.to_nat len))).

(** [enumerate(l, start)]. *)
Fixpoint enumerate_from {A : Type} (start : nat) (l : list A) : list (nat * A) :=
  match l with
  | [] => []
  | x :: l' => (start, x) :: enumerate_from (S start) l'
  end.

(** The slice [l[:d]]: a negative [d] counts from the end. *)
Definition py_slice_to {A : Type} (l : list A) (d : Z) : list A :=
  if Z.leb 0 d then firstn (Z.to_nat d) l
  else firstn (Z.to_nat (Z.of_nat (List.length l) + d)) l.

(* ------------------------------------------------------------------ *)
(** ** [FeatureWeightsGridSearch] *)

(** The loop's variables [best_exp], [max_classification_accuracy] and
    [features_accuracy_dict]. *)
Record GridState : Type := {
  gs_best_exp : option Experiment;
  gs_max_classification_accuracy : Q;
  gs_features_accuracy_dict : list (Z * option Q)
}.

Definition grid_state0 : GridState :=
  {| gs_best_exp := None; gs_max_classification_accuracy := 0;
     gs_features_accuracy_dict := [] |}.

Section GridSearch.
Variable dict_order : list string -> list string.
(** [cls.NewShuffleSplit( **kwargs )] at the [i]-th pass of the loop: the
    arguments do not depend on [n_features]; it returns an experiment or
    raises. *)
Variable new_shuffle_split : nat -> result Experiment.

(** [exp = cls.NewShuffleSplit( **kwargs ).GenerateStats()] at pass [i]. *)
Definition grid_pass (i : nat) : result Experiment :=
  e0 <- new_shuffle_split i ;; cls_GenerateStats dict_order e0.

(** The [try] body from pass [i] on: the state reached and the exception
    that ended the loop, if any.  [None > x] is [False] in Python 2. *)
Fixpoint grid_loop (i : nat) (ns : list Z) (s : GridState) : GridState * option py_exn :=
  match ns with
  | [] => (s, None)
  | n_features :: ns' =>
      match grid_pass i with
      | Err err => (s, Some (PyErr err))
      | Ok exp =>
          let acc := classification_accuracy (cls exp) in
          let d := dset Z.eqb n_features acc (gs_features_accuracy_dict s) in
          let s' :=
            match acc with
            | Some a =>
                if Qgt_bool a (gs_max_classification_accuracy s)
                then {| gs_best_exp := Some exp; gs_max_classification_accuracy := a;
                        gs_features_accuracy_dict := d |}
                else {| gs_best_exp := gs_best_exp s;
                        gs_max_classification_accuracy := gs_max_classification_accuracy s;
                        gs_features_accuracy_dict := d |}
            | None =>
                {| gs_best_exp := gs_best_exp s;
                   gs_max_classification_accuracy := gs_max_classification_accuracy s;
                   gs_features_accuracy_dict := d |}
            end in
          grid_loop (S i) ns' s'
      end
  end.

(** [start]/[stop] are [None] when left at their default; [xrange] with a
    [None] bound raises [TypeError].  The [finally] clause assigns
    [best_exp.features_accuracy_dict], which raises [AttributeError] on
    [None] and then replaces any exception of the [try] body.  The result
    is [best_exp] with its new attribute. *)
Definition FeatureWeightsGridSearch (start stop : option Z) (step : Z)
  : presult (Experiment * list (Z * option Q)) :=
  let '(s, err) :=
    match start, stop with
    | Some a, Some b =>
        match py_range a b step with
        | Ok ns => grid_loop 0 ns grid_state0
        | Err e => (grid_state0, Some (PyErr e))
        end
    | _, _ => (grid_state0, Some TypeError)
    end in
  match gs_best_exp s with
  | None => PErr AttributeError
  | Some best =>
      match err with
      | Some e => PErr e
      | None => POk (best, gs_features_accuracy_dict s)
      end
  end.
End GridSearch.

(* ------------------------------------------------------------------ *)
(** ** Argument checks of [NewShuffleSplit] *)

(** [features_size]: a [float], an [int] (a [bool] is an [int]), or a value
    of another type. *)
Inductive features_size_arg : Type :=
| FSFloat (q : Q)
| FSInt (k : Z)
| FSOther.

(** [random_state]: [True], an [int], a [numpy.random.RandomState], a falsy
    value of another type ([None], [False], ...), or a truthy value of
    another type. *)
Inductive random_state_arg : Type :=
| RSTrue
| RSInt (k : Z)
| RSRandomState
| RSFalsy
| RSOtherTruthy.

(** Python 2 [int(round(x))]: [round] rounds half away from zero, [int]
    truncates the integral float. *)
Definition py2_int_round (x : Q) : Z :=
  if Qle_bool 0 x then Qfloor (x + (1 # 2)) else (- Qfloor (- x + (1 # 2)))%Z.

(** [num_features] from [features_size] and [feature_space.num_features]. *)
Definition shuffle_split_num_features (features_size : features_size_arg) (nf : Z)
  : result Z :=
  match features_size with
  | FSFloat q =>
      if Qgt_bool 0 q || Qgt_bool q 1 then Err ValueError
      else Ok (py2_int_round (q * inject_Z nf))
  | FSInt k =>
      if Z.ltb k 0 || Z.ltb nf k then Err ValueError else Ok k
  | FSOther => Err ValueError
  end.

(** [experiment.use_error_bars] from [random_state] ([if random_state:]
    then the type dispatch). *)
Definition shuffle_split_error_bars (random_state : random_state_arg) : result bool :=
  match random_state with
  | RSTrue => Ok true
  | RSInt k => if Z.eqb k 0 then Ok false else Ok true
  | RSRandomState => Ok true
  | RSFalsy => Ok false
  | RSOtherTruthy => Err ValueError
  end.

(** What [NewShuffleSplit] settles before its split loop:
    [(num_features, use_error_bars)], [features_size] checked first. *)
Definition NewShuffleSplit_args (features_size : features_size_arg) (nf : Z)
  (random_state : random_state_arg) : result (Z * bool) :=
  k <- shuffle_split_num_features features_size nf ;;
  u <- shuffle_split_error_bars random_state ;;
  Ok (k, u).

(* ------------------------------------------------------------------ *)
(** ** The feature-weight tables of the two [Print] methods *)

(** Classification [Print]: [display] after the [if
    self.feature_weight_statistics:] block ([False], i.e. 0, when the list
    is [None] or empty), and the rows [enumerate(fws[:display], 1)] printed
    under [if display:]; [None] when no table is printed. *)
Definition print_fw_table (fws : option (list FwStat)) (display : Z)
  : option (Z * list (nat * FwStat)) :=
  match fws with
  | None | Some [] => None
  | Some l =>
      let n := Z.of_nat (List.length l) in
      let display' := if Z.leb n display then (if Z.ltb 0 n then n else display) else display in
      if Z.eqb display' 0 then None
      else Some (display', enumerate_from 1 (py_slice_to l display'))
  end.

Section ClassificationPrint.
Variable dict_order : list string -> list string.
(** [self.ConfusionMatrix()], [self.SimilarityMatrix()] and
    [self.AvgClassProbMatrix()] (FeatureSpacePrediction, outside src/). *)
Variable print_matrices : Experiment -> result unit.

(** Classification [Print( display )]: the interval it reports (when
    [use_error_bars]) and its feature-weight table.  [n * acc] with [acc =
    None] raises [TypeError]. *)
Definition cls_Print (e : Experiment) (display : Z)
  : presult (option (interval_kind * float * float) * option (Z * list (nat * FwStat))) :=
  pbind (match classification_accuracy (cls e) with
         | None => lift (cls_GenerateStats dict_order e)
         | Some _ => POk e
         end) (fun e' =>
  let table := print_fw_table (feature_weight_statistics e') display in
  pbind (if use_error_bars e' then
           match classification_accuracy (cls e') with
           | Some acc => lift (r <- print_interval (num_classifications e') (float_of_Q acc) ;; Ok (Some r))
           | None => PErr TypeError
           end
         else
           match classification_accuracy (cls e') with
           | Some _ => POk None
           | None => PErr TypeError
           end) (fun iv =>
  pbind (lift (print_matrices e')) (fun _ =>
  POk (iv, table)))).
End ClassificationPrint.

(** The regression [Print] loop [for count, fw_stat in enumerate(fws, 1):
    print ...; if count >= 50: break]: the rows printed. *)
Fixpoint print_upto_50 (count : nat) (l : list FwStat) : list (nat * FwStat) :=
  match l with
  | [] => []
  | x :: l' => (count, x) :: (if Nat.leb 50 count then [] else print_upto_50 (S count) l')
  end.

Section RegressionPrint.
Variable dict_order : list string -> list string.
Variable linregress : bool -> list Q -> list Q -> result unit.
Variable spearmanr : bool -> list Q -> list Q -> result unit.

(** Regression [Print()] under numpy's error mode [np_raise]: the
    feature-weight rows; [enumerate(None, 1)] raises [TypeError].  The
    Pearson figures printed before it are attributes of scipy's results
    (not modelled). *)
Definition reg_Print (np_raise : bool) (e : Experiment) : presult (list (nat * FwStat)) :=
  pbind (match std_err e with
         | None => lift (r <- reg_GenerateStats dict_order linregress spearmanr np_raise e ;;
                         Ok (fst r))
         | Some _ => POk e
         end) (fun e' =>
  match feature_weight_statistics e' with
  | None => PErr TypeError
  | Some l => POk (print_upto_50 1 l)
  end).
End RegressionPrint.

(* ------------------------------------------------------------------ *)
(** ** [visualization.py]: [PredictedValuesGraph] *)

(** The inner loop of [PredictedValuesGraph.__init__] for class
    [class_index]: [coords[0] == self.class_values[class_index]] (an
    [IndexError] past its end), appending the matching coordinates. *)
Fixpoint group_class (class_values : list Q) (class_index : nat) (class_name : string)
  (whole_list : list (Q * Q)) (d : list (string * list (Q * Q)))
  : presult (list (string * list (Q * Q))) :=
  match whole_list with
  | [] => POk d
  | coords :: rest =>
      match nth_error class_values class_index with
      | None => PErr IndexError
      | Some v =>
          let d' := if Qeq_bool (fst coords) v
                    then dset String.eqb class_name
                           (dget String.eqb [] class_name d ++ [coords]) d
                    else d in
          group_class class_values class_index class_name rest d'
      end
  end.

(** The outer loop over [enumerate(self.classnames_list)], starting each
    class with [self.grouped_coords[class_name] = []]. *)
Fixpoint group_loop (class_values : list Q) (class_index : nat) (names : list string)
  (whole_list : list (Q * Q)) (d : list (string * list (Q * Q)))
  : presult (list (string * list (Q * Q))) :=
  match names with
  | [] => POk d
  | class_name :: names' =>
      pbind (group_class class_values class_index class_name whole_list
               (dset String.eqb class_name [] d)) (fun d' =>
      group_loop class_values (S class_index) names' whole_list d')
  end.

(** [self.grouped_coords] built by [PredictedValuesGraph.__init__] from the
    test set's [classnames_list] and [interpolation_coefficients] and the
    (rank-order-sorted) values of the result; [zip] truncates. *)
Definition PredictedValuesGraph_grouped_coords (classnames_list : list string)
  (class_values : list Q) (ground_truth_values predicted_values : list Q)
  : presult (list (string * list (Q * Q))) :=
  group_loop class_values 0 classnames_list (combine ground_truth_values predicted_values) [].

(** The points [RankOrderedPredictedValuesGraph] scatters, one
    [(x_vals, predicted_vals)] per class: [zip( *[] )] has nothing to unpack
    ([ValueError]); a missing class is a [KeyError]. *)
Fixpoint rank_ordered_points (grouped_coords : list (string * list (Q * Q)))
  (abscissa_index : Z) (names : list string) : presult (list (list Z * list Q)) :=
  match names with
  | [] => POk []
  | class_name :: names' =>
      match dlookup String.eqb class_name grouped_coords with
      | None => PErr KeyError
      | Some [] => PErr (PyErr ValueError)
      | Some coords =>
          let ground_truth_vals := map fst coords in
          let predicted_vals := map snd coords in
          let x_vals := map (fun i => Z.of_nat i + abscissa_index)%Z
                            (seq 0 (List.length ground_truth_vals)) in
          pbind (rank_ordered_points grouped_coords
                   (abscissa_index + Z.of_nat (List.length ground_truth_vals))%Z names') (fun rest =>
          POk ((x_vals, predicted_vals) :: rest))
      end
  end.

Definition RankOrderedPredictedValuesGraph_points (classnames_list : list string)
  (grouped_coords : list (string * list (Q * Q))) : presult (list (list Z * list Q)) :=
  rank_ordered_points grouped_coords 1 classnames_list.

(* ------------------------------------------------------------------ *)
(** ** [visualization.py]: [AccuracyVersusNumFeaturesGraph.__init__] *)

Section AccuracyVersusNumFeatures.
(** The imports and the two [FeatureSpaceRegressionExperiment]
    constructions before the loop. *)
Variable make_experiments : presult unit.
(** [feature_weights.Threshold(n)], [training_set.FeatureReduce(...)] and,
    unless [quiet], [reduced_fw.Print()]: the start of the loop body. *)
Variable threshold_reduce : Z -> presult unit.
(** The matplotlib imports, [plt.figure] and [add_subplot] after the loop. *)
Variable plot_setup : presult unit.

(** The loop over [x_vals], accumulating [ls_yvals]: the call
    [NewLeastSquares(..., quiet=my_quiet)] evaluates the name [my_quiet],
    defined nowhere in the module, so the first pass ends there and there
    is no second one. *)
Definition avnf_loop (x_vals : list Z) (ls_yvals : list R) : presult (list R) :=
  match x_vals with
  | [] => POk ls_yvals
  | n :: _ => pbind (threshold_reduce n) (fun _ => PErr NameError)
  end.

(** [__init__( training_set, feature_weights, min_num_features,
    max_num_features, step )] up to [min(ls_yvals)] ([ValueError] on an
    empty list); [n_weights] is [len(feature_weights)]. *)
Definition AccuracyVersusNumFeaturesGraph_init (n_weights min_num_features : Z)
  (max_num_features : option Z) (step : Z) : presult unit :=
  pbind make_experiments (fun _ =>
  let max_nf := match max_num_features with Some m => m | None => n_weights end in
  pbind (lift (py_range min_num_features (max_nf + 1) step)) (fun x_vals =>
  pbind (avnf_loop x_vals []) (fun ls_yvals =>
  pbind plot_setup (fun _ =>
  match ls_yvals with
  | [] => PErr (PyErr ValueError)
  | _ :: _ => POk tt
  end)))).
End AccuracyVersusNumFeatures.

(* ------------------------------------------------------------------ *)
(** ** Concrete inputs *)

Local Open Scope string_scope.

Definition mk_sample (name g p : string) (gv pv : Q) : Sample :=
  {| source_filepath := name; ground_truth_class_name := g; predicted_class_name := p;
     ground_truth_value := gv; predicted_value := pv; marginal_probabilities := [] |}.

Definition mk_batch (ss : list Sample) (gt pv : list Q) (fw : option (list (string * Q)))
  (acpm : Matrix Q) : Batch :=
  {| b_individual_results := ss; b_tiled_results := [];
     b_ground_truth_values := gt; b_predicted_values := pv;
     b_tiled_ground_truth_values := []; b_tiled_predicted_values := [];
     b_feature_weights := fw; b_average_class_probability_matrix := acpm |}.

Definition cls_stats0 : ClsStats :=
  {| num_correct_classifications := None; classification_accuracy := None;
     num_classifications_per_class := []; num_correct_classifications_per_class := [];
     confusion_matrix := []; average_class_probability_matrix := [];
     similarity_matrix := None |}.

Definition mk_experiment (bs : list Batch) (test train : list string) : Experiment :=
  {| individual_results := bs; test_class_names := test; training_class_names := train;
     num_classifications := 0; ground_truth_values := []; predicted_values := [];
     feature_weight_statistics := None; cls := cls_stats0; std_err := None;
     use_error_bars := true |}.

Definition acpm_AB : Matrix Q :=
  [(("A", "A"), 3 # 4); (("A", "B"), 1 # 4); (("B", "A"), 1 # 4); (("B", "B"), 3 # 4)].

(** The spec's scenario: three splits of two samples over classes A and B;
    feature "f1" weighted 4 and 6 in the first two splits. *)
Definition ex_three_splits : Experiment :=
  mk_experiment
    [mk_batch [mk_sample "s1" "A" "A" 0 0; mk_sample "s2" "B" "B" 1 1] [] []
              (Some [("f1", 4)]) acpm_AB;
     mk_batch [mk_sample "s1" "A" "A" 0 0; mk_sample "s2" "B" "B" 1 1] [] []
              (Some [("f1", 6)]) acpm_AB;
     mk_batch [mk_sample "s1" "A" "B" 0 0; mk_sample "s2" "B" "B" 1 1] [] []
              None acpm_AB]
    ["A"; "B"] ["A"; "B"].

Definition ex_no_batches : Experiment := mk_experiment [] ["A"; "B"] ["A"; "B"].

(** Same class names, listed in different orders by test and training set. *)
Definition ex_swapped_names : Experiment :=
  mk_experiment
    [mk_batch [mk_sample "s1" "A" "A" 0 0; mk_sample "s2" "B" "B" 1 1] [] [] None acpm_AB]
    ["A"; "B"] ["B"; "A"].

(** Two features of equal weight, "b" discovered before "a". *)
Definition ex_tied_features : Experiment :=
  mk_experiment
    [mk_batch [mk_sample "s1" "A" "A" 0 0] [] [] (Some [("b", 1); ("a", 1)]) []]
    ["A"] ["A"].

(** A regression split of three samples predicted exactly: ground truth
    and predictions [1, 2, 3]. *)
Definition ex_exact_regression : Experiment :=
  mk_experiment
    [mk_batch [mk_sample "s1" "" "" 1 1; mk_sample "s2" "" "" 2 2; mk_sample "s3" "" "" 3 3]
              [1; 2; 3] [1; 2; 3] None []] [] [].

(** A regression split of three samples, the last prediction off by 1
    (ground truth [1, 2, 3], predictions [1, 2, 4]); feature "f1" weighted
    4. *)
Definition ex_inexact_regression : Experiment :=
  mk_experiment
    [mk_batch [mk_sample "s1" "" "" 1 1; mk_sample "s2" "" "" 2 2; mk_sample "s3" "" "" 3 4]
              [1; 2; 3] [1; 2; 4] (Some [("f1", 4)]) []] [] [].

(** scipy's [linregress] or [spearmanr] returning, as they do on
    [1, 2, 3] against [1, 2, 4] in either numpy mode (non-constant data, a
    correlation below 1); [spearmanr] may instead raise the
    [FloatingPointError] that [GenerateStats] catches. *)
Definition scipy_returns (np_raise : bool) (x y : list Q) : result unit := Ok tt.

(** One split whose average class probability matrix has a zero diagonal
    entry for class A. *)
Definition ex_zero_diagonal : Experiment :=
  mk_experiment
    [mk_batch [mk_sample "s1" "A" "B" 0 0; mk_sample "s2" "B" "B" 1 1] [] [] None
              [(("A", "A"), 0); (("A", "B"), 1); (("B", "A"), 0); (("B", "B"), 1)]]
    ["A"; "B"] ["A"; "B"].

(** Two feature-weight entries, largest mean first. *)
Definition ex_fw_stats : list FwStat :=
  [{| fw_mean := 2; fw_count := 1; fw_std := 0%R; fw_min := 2; fw_max := 2; fw_name := "f1" |};
   {| fw_mean := 1; fw_count := 1; fw_std := 0%R; fw_min := 1; fw_max := 1; fw_name := "f2" |}].

(** Every split after the first fails. *)
Definition nss_fail_second (i : nat) : result Experiment :=
  match i with O => Ok ex_three_splits | S _ => Err ZeroDivisionError end.

(** A regression split with two ground-truth values and three predictions. *)
Definition ex_broadcast_mismatch : Experiment :=
  mk_experiment [mk_batch [mk_sample "s1" "" "" 1 3] [1; 2] [3; 4; 5] None []] [] [].

(** One split that gives feature "f" two weights. *)
Definition ex_extra_weights : Experiment :=
  mk_experiment [mk_batch [mk_sample "s1" "A" "A" 0 0] [] [] (Some [("f", 1); ("f", 2)]) []]
    ["A"] ["A"].

Definition mk_mp_sample (name : string) (mps : list Q) : Sample :=
  {| source_filepath := name; ground_truth_class_name := "A"; predicted_class_name := "A";
     ground_truth_value := 0; predicted_value := 0; marginal_probabilities := mps |}.

(** Two predictions of one file, with two marginal probabilities each. *)
Definition ex_mp_samples : list Sample :=
  [mk_mp_sample "s1" [1 # 4; 3 # 4]; mk_mp_sample "s1" [1 # 2; 1 # 2]].

Local Close Scope string_scope.

(* ------------------------------------------------------------------ *)
(** ** Vocabulary of the properties *)

(** Two class-name lists name the same set of classes. *)
Definition same_class_set (l1 l2 : list string) : Prop := forall x, In x l1 <-> In x l2.

(** Position of the first occurrence of [s] in [l] ([length l] if absent). *)
Fixpoint str_index (s : string) (l : list string) : nat :=
  match l with
  | [] => 0
  | t :: l' => if String.eqb t s then 0 else S (str_index s l')
  end.

(** Entries of equal mean appear in the order their names occur in [keys]. *)
Definition ties_follow (keys : list string) (stats : list FwStat) : Prop :=
  forall i j si sj, (i < j)%nat -> nth_error stats i = Some si -> nth_error stats j = Some sj ->
    fw_mean si == fw_mean sj -> (str_index (fw_name si) keys < str_index (fw_name sj) keys)%nat.

(** Non-increasing in mean. *)
Definition mean_desc (x y : FwStat) : Prop := fw_mean y <= fw_mean x.

(** Feature names in the order the batch iteration first meets them. *)
Definition discovery_order (bs : list Batch) : list string :=
  map fst (collect_feature_weights bs).

(** Total [len(classification_results)] over the batches, as counted by the
    base-class GenerateStats. *)
Definition total_results (bs : list Batch) : nat :=
  fold_right (fun b n => (List.length (fst (fst (classification_results_of b))) + n)%nat) 0%nat bs.

(** Sum of the cells of a count matrix whose key satisfies [f]. *)
Definition msum (f : string * string -> bool) (m : Matrix nat) : nat :=
  fold_right (fun kv acc => ((if f (fst kv) then snd kv else 0) + acc)%nat) 0%nat m.

(** Sum of the diagonal cells (ground-truth name = predicted name). *)
Definition diag_sum (m : Matrix nat) : nat := msum (fun k => String.eqb (fst k) (snd k)) m.

(** Sum of all cells. *)
Definition cell_total (m : Matrix nat) : nat := msum (fun _ => true) m.

(** Diagonal count of one split over the declared class names. *)
Definition batch_correct (test train : list string) (b : Batch) : nat :=
  list_sum (map (fun g => list_sum (map (fun p =>
    if String.eqb g p then batch_count b g p else 0%nat) train)) test).

(** The weights a split gives to feature [name] (none when the split has no
    feature weights). *)
Definition batch_weights (name : string) (b : Batch) : list Q :=
  match b_feature_weights b with
  | None => []
  | Some fw => map snd (filter (fun nw => String.eqb (fst nw) name) fw)
  end.

(** The weights of feature [name] over the splits that used it, in split order. *)
Definition weights_of (name : string) (bs : list Batch) : list Q :=
  flat_map (batch_weights name) bs.

(** Whether a split used feature [name]. *)
Definition uses_feature (name : string) (b : Batch) : bool :=
  match b_feature_weights b with
  | None => false
  | Some fw => existsb (fun nw => String.eqb (fst nw) name) fw
  end.

(** Number of splits that used feature [name]. *)
Definition batches_using (name : string) (bs : list Batch) : nat :=
  List.length (filter (uses_feature name) bs).

(** The coordinates [PredictedValuesGraph] groups under the class at
    [class_index]: those whose ground truth equals its class value. *)
Definition matching_coords (class_values : list Q) (class_index : nat)
  (whole_list : list (Q * Q)) : list (Q * Q) :=
  match nth_error class_values class_index with
  | Some v => filter (fun coords => Qeq_bool (fst coords) v) whole_list
  | None => []
  end.

(** The [features_size] values [NewShuffleSplit] accepts. *)
Definition features_size_valid (features_size : features_size_arg) (nf : Z) : Prop :=
  match features_size with
  | FSFloat q => 0 <= q <= 1
  | FSInt k => (0 <= k <= nf)%Z
  | FSOther => False
  end.

(** The accuracy a successful pass of the grid search reads ([None] is
    below every number in Python 2). *)
Definition pass_accuracy (e : Experiment) : option Q := classification_accuracy (cls e).

(** All Sample Predictions of the splits, in split order. *)
Definition all_samples (bs : list Batch) : list Sample := flat_map b_individual_results bs.

(** What the loop state records after the passes [0 .. m-1] all ran. *)
Definition grid_inv (ord : list string -> list string) (nss : nat -> result Experiment)
  (m : nat) (s : GridState) : Prop :=
  (forall j, (j < m)%nat -> exists e, grid_pass ord nss j = Ok e)
  /\ (gs_best_exp s = None ->
        gs_max_classification_accuracy s = 0
        /\ forall j e q, (j < m)%nat -> grid_pass ord nss j = Ok e ->
             pass_accuracy e = Some q -> q <= 0)
  /\ (forall b, gs_best_exp s = Some b ->
        exists k, (k < m)%nat /\ grid_pass ord nss k = Ok b
          /\ pass_accuracy b = Some (gs_max_classification_accuracy s)
          /\ 0 < gs_max_classification_accuracy s
          /\ forall j e q, (j < m)%nat -> grid_pass ord nss j = Ok e ->
               pass_accuracy e = Some q ->
               q <= gs_max_classification_accuracy s
               /\ ((j < k)%nat -> q < gs_max_classification_accuracy s)).

(* ================================================================== *)
(** * Properties *)

(** ** General lemmas *)

Lemma bind_Ok {A B} (a : A) (f : A -> result B) : bind (Ok a) f = f a.
Proof. reflexivity. Qed.

Lemma bind_Err {A B} (e : exn) (f : A -> result B) : bind (Err e) f = Err e.
Proof. reflexivity. Qed.

Lemma insert_str_not_nil s l : insert_str s l <> [].
Proof. destruct l; simpl; [discriminate|]. destruct (String.leb s s0); discriminate. Qed.

Lemma sorted_strings_nil l : sorted_strings l = [] <-> l = [].
Proof.
  split; [|intros ->; reflexivity].
  destruct l as [|x l]; [auto|]. simpl. intros H. exfalso; exact (insert_str_not_nil _ _ H).
Qed.

Lemma Q_of_nat_pos n : (0 < n)%nat -> 0 < Q_of_nat n.
Proof. intros H. unfold Q_of_nat, Qlt. simpl. lia. Qed.

Lemma Q_of_nat_nonzero n : (0 < n)%nat -> Qeq_bool (Q_of_nat n) 0 = false.
Proof.
  intros H. apply Bool.not_true_iff_false. intros E. apply Qeq_bool_eq in E.
  pose proof (Q_of_nat_pos n H) as P. rewrite E in P. apply (Qlt_irrefl 0); exact P.
Qed.

Lemma py_fdiv_zero x : py_fdiv x (Q_of_nat 0) = Err ZeroDivisionError.
Proof. reflexivity. Qed.

Lemma mapM_fw_stat_ok nb ks (g : string -> list Q) :
  (forall k, In k ks -> (List.length (g k) <= nb)%nat) ->
  exists stats, mapM (fun k => fw_stat nb k (g k)) ks = Ok stats
           /\ map fw_name stats = ks.
Proof.
  induction ks as [|k ks IH]; intros H; [exists []; split; reflexivity|].
  destruct IH as [stats [Hs Hn]]; [intros; apply H; right; assumption|].
  assert (Hk : Nat.ltb nb (List.length (g k)) = false)
    by (apply Nat.ltb_ge, H; left; reflexivity).
  eexists. simpl. unfold fw_stat at 1. rewrite Hk. simpl. rewrite Hs. simpl.
  split; [reflexivity|]. simpl. rewrite Hn. reflexivity.
Qed.

Lemma base_GenerateStats_no_batches ord e :
  individual_results e = [] ->
  exists stats, base_GenerateStats ord e
                = Ok (set_base e (num_classifications e + 0) (ground_truth_values e)
                               (predicted_values e) (Some (sort_by_mean_desc stats))).
Proof.
  intros Hb. unfold base_GenerateStats. rewrite Hb. simpl.
  destruct (mapM_fw_stat_ok 0 (ord []) (fun _ => []))
    as [stats [Hs _]]; [intros; simpl; lia|].
  exists stats. rewrite Hs. reflexivity.
Qed.

(** ** C10: classification GenerateStats on an empty batch list *)

(** C10: with no batches, the classification [GenerateStats] raises
    [ZeroDivisionError]: the average-class-probability finalisation divides
    by [len(self) = 0], and when there is no cell to finalise the accuracy
    divides by [num_classifications = 0]. *)
Theorem cls_GenerateStats_no_batches ord e :
  individual_results e = [] -> cls_GenerateStats ord e = Err ZeroDivisionError.
Proof.
  intros Hb. unfold cls_GenerateStats.
  destruct (base_GenerateStats_no_batches ord e Hb) as [stats ->]. rewrite bind_Ok.
  cbn [test_class_names training_class_names individual_results set_base cls].
  rewrite Hb. unfold tally_batches. cbn [fold_left List.length].
  destruct (sorted_strings (test_class_names e)) as [|r rows] eqn:Hr.
  - (* no row to finalise *)
    apply (proj1 (sorted_strings_nil _)) in Hr. rewrite Hr. simpl.
    destruct (training_class_names e); reflexivity.
  - destruct (sorted_strings (training_class_names e)) as [|c cols] eqn:Hc.
    + apply (proj1 (sorted_strings_nil _)) in Hc. rewrite Hc.
      unfold finalize_avg. simpl foldM at 2.
      assert (Hf : forall rows' m, foldM (fun m row => foldM
                    (fun m col => v <- py_fdiv (mget 0 (row, col) m) (Q_of_nat 0) ;;
                                  Ok (mset (row, col) v m)) [] m) rows' m = Ok m).
      { induction rows'; intros; simpl; auto. }
      simpl. rewrite Hf. rewrite bind_Ok.
      destruct (str_list_eqb (test_class_names e) []) eqn:He.
      * destruct (test_class_names e); [reflexivity|discriminate].
      * reflexivity.
    + reflexivity.
Qed.

(** ** C7: PerSampleStatistics and an empty batch list *)

(** C7 (as the code behaves): the guard [self.individual_results == 0]
    compares a list with an int, which is never equal, so neither
    PerSampleStatistics ever raises [ValueError]; with no batches they
    return normally with empty statistics. *)
Theorem PerSampleStatistics_no_ValueError ord e :
  cls_PerSampleStatistics ord e <> Err ValueError
  /\ reg_PerSampleStatistics ord e <> Err ValueError
  /\ cls_PerSampleStatistics py2_dict_order ex_no_batches
     = Ok {| cps_ground_truth_values := []; cps_accumulated_individual_results := [];
             cps_individual_stats := [] |}
  /\ reg_PerSampleStatistics py2_dict_order ex_no_batches
     = Ok {| rps_ground_truth_values := []; rps_predicted_values := [];
             rps_accumulated_individual_results := []; rps_individual_stats := [] |}.
Proof.
  unfold cls_PerSampleStatistics, reg_PerSampleStatistics, py_list_eq_int.
  repeat split; try discriminate; reflexivity.
Qed.

(** ** C6: choice of the confidence interval in Print *)

Lemma Qgt_bool_iff x y : Qgt_bool x y = true <-> y < x.
Proof.
  unfold Qgt_bool. rewrite Bool.negb_true_iff. split.
  - intros H. apply Qnot_le_lt. intros Hle. apply Qle_bool_iff in Hle. congruence.
  - intros H. apply Bool.not_true_iff_false. intros Hle. apply Qle_bool_iff in Hle.
    apply (Qlt_not_le _ _ H Hle).
Qed.

Lemma round_aux_signed prec emax s m e l :
  sf_signed s (binary_round_aux prec emax s m e l).
Proof.
  unfold binary_round_aux.
  destruct (shr_fexp _ _ _ _ _) as [r1 e1].
  destruct (shr_fexp _ _ _ _ _) as [r2 e2].
  destruct (shr_m r2); simpl; auto. destruct (Z.leb _ _); reflexivity.
Qed.

Lemma float_of_nat_signed k : sf_signed false (Prim2SF (float_of_nat k)).
Proof.
  unfold float_of_nat, float_of_Z.
  destruct (Z.of_nat k) as [|p|p] eqn:K; [| |lia];
    rewrite of_uint63_spec;
    pose proof (Uint63.to_Z_bounded (Uint63Axioms.of_Z (Z.of_nat k))) as B; rewrite K in B;
    destruct (Uint63Axioms.to_Z _) as [|q|q]; simpl; try reflexivity; try lia;
    unfold binary_round; destruct (shl_align _ _ _); apply round_aux_signed.
Qed.

Lemma float_of_nat_0 : Prim2SF (float_of_nat 0) = S754_zero false.
Proof. vm_compute. reflexivity. Qed.

Lemma mul_pos_inv x y :
  sf_signed false x -> sf_pos (SF64mul x y) -> sf_pos x /\ sf_pos y.
Proof.
  unfold SF64mul.
  destruct x as [sx|sx| |sx mx ex]; destruct y as [sy|sy| |sy my ey]; simpl; intros Hx H;
    try contradiction; subst; simpl in *; try (split; [exact I|]);
    try (destruct sy; simpl in *; tauto).
  pose proof (round_aux_signed prec emax sy (Zpos (mx * my)) (ex + ey) loc_Exact) as R.
  destruct (binary_round_aux _ _ _ _ _ _) as [s|s| |s m e]; simpl in *; try contradiction;
    subst; destruct sy; simpl in *; tauto.
Qed.

Lemma mul_pos_signed x y : sf_pos x -> sf_pos y -> sf_signed false (SF64mul x y).
Proof.
  unfold SF64mul.
  destruct x as [sx|sx| |sx mx ex]; destruct y as [sy|sy| |sy my ey]; simpl; intros Hx Hy;
    try contradiction; destruct sx; try contradiction; destruct sy; try contradiction;
    simpl; try reflexivity.
  apply round_aux_signed.
Qed.

Lemma div_signed_pos x y : sf_signed false x -> sf_pos y -> sf_signed false (SF64div x y).
Proof.
  unfold SF64div.
  destruct x as [sx|sx| |sx mx ex]; destruct y as [sy|sy| |sy my ey]; simpl; intros Hx Hy;
    try contradiction; subst; destruct sy; try contradiction; simpl; try exact I; try reflexivity.
  destruct (SFdiv_core_binary _ _ _ _ _ _) as [[mz ez] lz]. apply round_aux_signed.
Qed.

Lemma ltb_five_pos y : SFltb (Prim2SF 5%float) y = true -> sf_pos y.
Proof.
  vm_compute (Prim2SF 5%float). unfold SFltb, SFcompare.
  destruct y as [sy|sy| |sy my ey]; try discriminate; destruct sy; try discriminate; simpl; tauto.
Qed.

Lemma signed_not_neg x : sf_signed false x -> SFltb x (Prim2SF 0%float) = false.
Proof.
  vm_compute (Prim2SF 0%float). unfold SFltb, SFcompare.
  destruct x as [sx|sx| |sx mx ex]; simpl; intros H; subst; reflexivity.
Qed.

Lemma mul_zero_not_pos y : ~ sf_pos (SF64mul (S754_zero false) y).
Proof. unfold SF64mul. destruct y as [sy|sy| |sy my ey]; simpl; tauto. Qed.

(** The rule-of-thumb test fails for [n = 0], and when it holds, [n > 0]
    and the radicand [acc (1 - acc) / n] is not negative. *)
Lemma normal_approx_ok_0 acc : normal_approx_ok 0 acc = false.
Proof.
  unfold normal_approx_ok. destruct (5 <? float_of_nat 0 * acc)%float eqn:E; [|reflexivity].
  exfalso. rewrite ltb_spec, mul_spec, float_of_nat_0 in E.
  exact (mul_zero_not_pos _ (ltb_five_pos _ E)).
Qed.

Lemma normal_radicand_nonneg n acc :
  normal_approx_ok n acc = true ->
  (0 < n)%nat /\ (acc * (1 - acc) / float_of_nat n <? 0)%float = false.
Proof.
  intros H. split.
  - destruct n; [rewrite normal_approx_ok_0 in H; discriminate|lia].
  - unfold normal_approx_ok in H. apply andb_true_iff in H as [H1 H2].
    rewrite ltb_spec, mul_spec in H1, H2.
    destruct (mul_pos_inv _ _ (float_of_nat_signed n) (ltb_five_pos _ H1)) as [Hn Ha].
    destruct (mul_pos_inv _ _ (float_of_nat_signed n) (ltb_five_pos _ H2)) as [_ Hb].
    rewrite ltb_spec, div_spec, mul_spec. apply signed_not_neg.
    apply div_signed_pos; [apply mul_pos_signed|]; assumption.
Qed.

Lemma print_interval_normal n acc :
  normal_approx_ok n acc = true ->
  print_interval n acc
  = Ok (NormalApprox, acc, (z * PrimFloat.sqrt (acc * (1 - acc) / float_of_nat n))%float).
Proof.
  intros H. destruct (normal_radicand_nonneg n acc H) as [Hn Hr].
  unfold print_interval. rewrite H. unfold py_div_int.
  destruct (Nat.eqb_spec n 0) as [|_]; [lia|]. rewrite bind_Ok.
  unfold py_sqrt. rewrite Hr. reflexivity.
Qed.

Lemma print_interval_wilson n acc r :
  (0 < n)%nat -> normal_approx_ok n acc = false ->
  print_interval n acc = r ->
  let coeff := (1 / (1 + z2 / float_of_nat n))%float in
  let rad := (acc * (1 - acc) / float_of_nat n + z2 / float_of_nat (4 * (n * n)))%float in
  (r = Err ZeroDivisionError /\ (1 + z2 / float_of_nat n =? 0)%float = true)
  \/ (r = Err ValueError /\ (1 + z2 / float_of_nat n =? 0)%float = false /\ (rad <? 0)%float = true)
  \/ (r = Ok (WilsonScore, (coeff * (acc + z2 / float_of_nat (2 * n)))%float,
              (coeff * z * PrimFloat.sqrt rad)%float)
      /\ (1 + z2 / float_of_nat n =? 0)%float = false /\ (rad <? 0)%float = false).
Proof.
  intros Hn Hok <- coeff rad. unfold print_interval. rewrite Hok. unfold py_div_int.
  destruct (Nat.eqb_spec n 0) as [|_]; [lia|]. rewrite bind_Ok.
  unfold py_div_float.
  destruct (1 + z2 / float_of_nat n =? 0)%float eqn:Z0; [left; split; reflexivity|right].
  rewrite bind_Ok.
  destruct (Nat.eqb_spec (2 * n) 0) as [|_]; [lia|]. rewrite bind_Ok.
  destruct (Nat.eqb_spec (4 * (n * n)) 0) as [|_]; [nia|]. rewrite !bind_Ok.
  unfold py_sqrt. fold rad.
  destruct (rad <? 0)%float eqn:R0; [left; repeat split; reflexivity|right].
  repeat split; reflexivity.
Qed.

(** C6: with error bars, Print takes the normal approximation
    ([z * sqrt(acc (1 - acc) / n)], [z = 1.95996]) exactly when the test
    [n acc > 5 and n (1 - acc) > 5] holds (evaluated in binary64 as Python
    does); that branch always returns.  Otherwise it takes the Wilson score
    branch ([z2 = 3.84144]), which returns the Wilson centre and half-width
    or raises ([math.sqrt] rejects a negative radicand, e.g. for [n = 1],
    [acc = 4]).  For [n = 8], [acc = 0.9] it takes the Wilson branch. *)
Theorem print_interval_choice (n : nat) (acc : float) :
  (0 < n)%nat ->
  (forall k a ci, print_interval n acc = Ok (k, a, ci) ->
     (k = NormalApprox <-> normal_approx_ok n acc = true))
  /\ (normal_approx_ok n acc = true ->
      print_interval n acc
      = Ok (NormalApprox, acc, (z * PrimFloat.sqrt (acc * (1 - acc) / float_of_nat n))%float))
  /\ (normal_approx_ok n acc = false ->
      let coeff := (1 / (1 + z2 / float_of_nat n))%float in
      print_interval n acc
      = Ok (WilsonScore, (coeff * (acc + z2 / float_of_nat (2 * n)))%float,
            (coeff * z * PrimFloat.sqrt (acc * (1 - acc) / float_of_nat n
                                         + z2 / float_of_nat (4 * (n * n))))%float)
      \/ print_interval n acc = Err ValueError
      \/ print_interval n acc = Err ZeroDivisionError)
  /\ (exists a ci, print_interval 8 (float_of_Q (9 # 10)) = Ok (WilsonScore, a, ci))
  /\ print_interval 1 (float_of_nat 4) = Err ValueError.
Proof.
  intros Hn. split; [|split; [apply print_interval_normal|split; [|split]]].
  - intros k a ci H. destruct (normal_approx_ok n acc) eqn:E.
    + rewrite (print_interval_normal n acc E) in H. injection H as <- _ _. split; reflexivity.
    + destruct (print_interval_wilson n acc _ Hn E eq_refl)
        as [[R _]|[[R _]|[R _]]]; rewrite H in R; try discriminate.
      injection R as -> _ _. split; discriminate.
  - intros E coeff.
    destruct (print_interval_wilson n acc _ Hn E eq_refl) as [[R _]|[[R _]|[R _]]];
      [right; right|right; left|left]; exact R.
  - do 2 eexists. vm_compute. reflexivity.
  - vm_compute. reflexivity.
Qed.

Lemma print_interval_choice_witness :
  (0 < 8)%nat
  /\ exists a ci, print_interval 8 (float_of_Q (9 # 10)) = Ok (WilsonScore, a, ci).
Proof.
  split; [lia|].
  exact (proj1 (proj2 (proj2 (proj2 (print_interval_choice 8 (float_of_Q (9 # 10)) ltac:(lia)))))).
Defined.

Lemma cls_GenerateStats_no_batches_witness :
  individual_results ex_no_batches = []
  /\ cls_GenerateStats py2_dict_order ex_no_batches = Err ZeroDivisionError.
Proof.
  split; [reflexivity|]. apply (cls_GenerateStats_no_batches py2_dict_order ex_no_batches).
  reflexivity.
Defined.

(** ** C5: the similarity matrix and set-equal class names *)

(** C5, as stated, fails: the similarity matrix is computed only when the two
    class-name lists are equal as lists; test names [A; B] with training
    names [B; A] are set-equal, yet GenerateStats leaves the similarity
    matrix uncomputed. *)
Lemma similarity_set_equal_counterexample :
  ~ (forall ord e e',
       same_class_set (test_class_names e) (training_class_names e) ->
       cls_GenerateStats ord e = Ok e' ->
       exists sim, similarity_matrix (cls e') = Some sim
              /\ forall c, In c (test_class_names e) -> mget 0 (c, c) sim == 1).
Proof.
  intros H.
  assert (Hs : same_class_set (test_class_names ex_swapped_names)
                              (training_class_names ex_swapped_names))
    by (intro x; simpl; tauto).
  destruct (cls_GenerateStats py2_dict_order ex_swapped_names) as [e'|err] eqn:E;
    [|cbv -[sqrt Q2R] in E; discriminate].
  destruct (H py2_dict_order ex_swapped_names e' Hs E) as [sim [Hsim _]].
  cbv -[sqrt Q2R] in E. injection E as <-. discriminate Hsim.
Qed.

(** ** C4: order of equal means in the feature-weight ranking *)

(** C4, as stated, fails: equal means are ordered by the CPython 2 dict's
    iteration (hash-slot) order, not by discovery.  Features "b" then "a",
    both of weight 1, are ranked "a" first ("a" hashes to slot 0, "b" to
    slot 3). *)
Lemma ties_discovery_order_counterexample :
  ~ (forall e e' stats,
       base_GenerateStats py2_dict_order e = Ok e' ->
       feature_weight_statistics e' = Some stats ->
       Sorted mean_desc stats /\ ties_follow (discovery_order (individual_results e)) stats).
Proof.
  intros H.
  destruct (base_GenerateStats py2_dict_order ex_tied_features) as [e'|err] eqn:E;
    [|cbv -[sqrt Q2R] in E; discriminate].
  destruct (feature_weight_statistics e') as [stats|] eqn:F;
    [|cbv -[sqrt Q2R] in E; injection E as <-; discriminate F].
  destruct (H ex_tied_features e' stats E F) as [_ Ht].
  cbv -[sqrt Q2R] in E. injection E as <-. simpl in F. injection F as <-.
  specialize (Ht 0%nat 1%nat _ _ ltac:(lia) eq_refl eq_refl).
  vm_compute in Ht. specialize (Ht eq_refl). lia.
Qed.

(** ** C9: GenerateStats of the regression subclass called twice *)

(** C9, as stated, fails: when every prediction is exact the residual sum is
    0, so the RMS [std_err] is [sqrt 0] after both calls although
    [num_classifications] doubles.  The split predicts [1, 2, 3] exactly;
    scipy's [linregress] returns there in either numpy mode (the x values
    are not constant, [r] is clamped to 1 and [t] is regularised by a tiny
    constant), and [spearmanr] returns or raises the caught
    [FloatingPointError]. *)
Lemma regression_twice_counterexample :
  ~ (forall linregress spearmanr,
       (forall b, linregress b [1; 2; 3] [1; 2; 3] = Ok tt) ->
       (forall b, spearmanr b [1; 2; 3] [1; 2; 3] = Ok tt
                  \/ spearmanr b [1; 2; 3] [1; 2; 3] = Err FloatingPointError) ->
       forall ord np0 e e1 e2 np1 np2,
       num_classifications e = 0%nat ->
       reg_GenerateStats ord linregress spearmanr np0 e = Ok (e1, np1) ->
       reg_GenerateStats ord linregress spearmanr np1 e1 = Ok (e2, np2) ->
       num_classifications e2 = (2 * total_results (individual_results e))%nat
       /\ std_err e2 <> std_err e1).
Proof.
  intros H.
  destruct (reg_GenerateStats py2_dict_order scipy_returns scipy_returns false ex_exact_regression)
    as [[e1 np1]|err] eqn:E1; [|cbv -[sqrt Q2R] in E1; discriminate].
  destruct (reg_GenerateStats py2_dict_order scipy_returns scipy_returns np1 e1)
    as [[e2 np2]|err] eqn:E2;
    [|cbv -[sqrt Q2R] in E1; injection E1 as <- <-; cbv -[sqrt Q2R] in E2; discriminate].
  destruct (H scipy_returns scipy_returns (fun _ => eq_refl) (fun _ => or_introl eq_refl)
               py2_dict_order false ex_exact_regression e1 e2 np1 np2 eq_refl E1 E2) as [_ Hne].
  apply Hne.
  cbv -[sqrt Q2R] in E1. injection E1 as <- <-. cbv -[sqrt Q2R] in E2. injection E2 as <- <-.
  simpl. do 3 f_equal. apply Qeq_eqR. reflexivity.
Qed.

(** ** Sums over lists *)

Lemma list_sum_map_plus {A} (f g : A -> nat) l :
  list_sum (map (fun x => f x + g x)%nat l) = (list_sum (map f l) + list_sum (map g l))%nat.
Proof. induction l; simpl; lia. Qed.

Lemma list_sum_map_ext {A} (f g : A -> nat) l :
  (forall x, In x l -> f x = g x) -> list_sum (map f l) = list_sum (map g l).
Proof.
  induction l as [|x l IH]; intros H; simpl; [reflexivity|].
  rewrite (H x (or_introl eq_refl)), IH; [reflexivity|]. intros; apply H; right; assumption.
Qed.

Lemma list_sum_map_le {A} (f g : A -> nat) l :
  (forall x, In x l -> f x <= g x)%nat -> (list_sum (map f l) <= list_sum (map g l))%nat.
Proof.
  induction l as [|x l IH]; intros H; simpl; [lia|].
  specialize (H x (or_introl eq_refl)) as Hx. specialize (IH (fun y Hy => H y (or_intror Hy))). lia.
Qed.

Lemma list_sum_map_zero {A} (f : A -> nat) l :
  (forall x, In x l -> f x = 0%nat) -> list_sum (map f l) = 0%nat.
Proof.
  intros H. rewrite (list_sum_map_ext f (fun _ => 0%nat)) by assumption.
  clear H. induction l as [|x l IH]; simpl; [reflexivity|]. rewrite IH. reflexivity.
Qed.

Lemma list_sum_swap {A B} (h : A -> B -> nat) la lb :
  list_sum (map (fun a => list_sum (map (fun b => h a b) lb)) la)
  = list_sum (map (fun b => list_sum (map (fun a => h a b) la)) lb).
Proof.
  induction la as [|a la IH]; simpl.
  - symmetry. apply list_sum_map_zero. reflexivity.
  - rewrite IH. symmetry. apply (list_sum_map_plus (fun b => h a b)).
Qed.

Lemma length_filter_sum {A} (f : A -> bool) l :
  List.length (filter f l) = list_sum (map (fun x => if f x then 1 else 0)%nat l).
Proof. induction l as [|x l IH]; simpl; [reflexivity|]. destruct (f x); simpl; lia. Qed.

(** Summing an indicator of [x = y] over a duplicate-free list. *)
Lemma list_sum_indicator (x : string) l :
  NoDup l ->
  list_sum (map (fun y => if String.eqb x y then 1 else 0)%nat l) = if in_dec string_dec x l then 1%nat else 0%nat.
Proof.
  induction 1 as [|y l Hy Hnd IH]; simpl; [reflexivity|].
  destruct (String.eqb_spec x y) as [->|Hne].
  - rewrite (list_sum_map_zero _ l).
    + destruct (string_dec y y); [|congruence]. reflexivity.
    + intros z Hz. destruct (String.eqb_spec y z); [subst; contradiction|reflexivity].
  - rewrite IH. destruct (in_dec string_dec x l); destruct (string_dec y x); subst;
      try congruence; simpl; reflexivity.
Qed.

Lemma list_sum_select (f : string -> nat) x l :
  NoDup l ->
  list_sum (map (fun y => if String.eqb x y then f y else 0)%nat l)
  = if in_dec string_dec x l then f x else 0%nat.
Proof.
  induction 1 as [|y l Hy Hnd IH]; simpl; [reflexivity|].
  destruct (String.eqb_spec x y) as [->|Hne].
  - rewrite (list_sum_map_zero _ l).
    + destruct (string_dec y y); [|congruence]. lia.
    + intros z Hz. destruct (String.eqb_spec y z); [subst; contradiction|reflexivity].
  - rewrite IH. destruct (in_dec string_dec x l); destruct (string_dec y x); subst;
      try congruence; simpl; reflexivity.
Qed.

(** ** Count matrices *)

Lemma pair_eqb_eq k k' : pair_eqb k k' = true <-> k = k'.
Proof.
  destruct k as [a b], k' as [c d]. unfold pair_eqb. simpl.
  rewrite Bool.andb_true_iff, !String.eqb_eq. split; [intros [-> ->]; reflexivity|].
  intros H; injection H as -> ->; auto.
Qed.

Lemma msum_madd f k c m :
  msum f (madd_nat k c m) = (msum f m + if f k then c else 0)%nat.
Proof.
  unfold madd_nat, mset, mget. induction m as [|[k' v] m IH]; simpl.
  - destruct (f k); lia.
  - destruct (pair_eqb k' k) eqn:E.
    + apply pair_eqb_eq in E. subst k'. simpl. destruct (f k); lia.
    + simpl. rewrite IH. lia.
Qed.

Lemma mget_madd k' k c m :
  mget 0%nat k' (madd_nat k c m) = (mget 0%nat k' m + if pair_eqb k k' then c else 0)%nat.
Proof.
  unfold madd_nat, mset, mget. induction m as [|[k'' v] m IH]; simpl.
  - destruct (pair_eqb k k'); lia.
  - destruct (pair_eqb k'' k) eqn:E.
    + apply pair_eqb_eq in E. subst k''. simpl.
      destruct (pair_eqb k k'); lia.
    + simpl. destruct (pair_eqb k'' k') eqn:E'.
      * apply pair_eqb_eq in E'. subst k''. destruct (pair_eqb k k') eqn:E2; [|lia].
        apply pair_eqb_eq in E2. subst. rewrite (proj2 (pair_eqb_eq k' k') eq_refl) in E. discriminate.
      * rewrite IH. reflexivity.
Qed.

Lemma dlookup_madd_present k' k c m :
  (k = k' \/ dlookup pair_eqb k' m <> None) -> dlookup pair_eqb k' (madd_nat k c m) <> None.
Proof.
  unfold madd_nat, mset, mget. induction m as [|[k'' v] m IH]; simpl; intros H.
  - destruct H as [->|H]; [|exfalso; apply H; reflexivity].
    rewrite (proj2 (pair_eqb_eq k' k') eq_refl). discriminate.
  - destruct (pair_eqb k'' k') eqn:E2; destruct (pair_eqb k'' k) eqn:E; simpl;
      rewrite ?E2; try discriminate.
    + destruct H as [->|H]; [congruence|exact H].
    + apply IH. exact H.
Qed.

Lemma dlookup_mget k m :
  dlookup pair_eqb k m <> None -> dlookup pair_eqb k m = Some (mget 0%nat k m).
Proof.
  unfold mget. induction m as [|[k' v] m IH]; simpl; [congruence|].
  destruct (pair_eqb k' k); auto.
Qed.

(** ** The loop over splits, rows and columns *)

Lemma fold_left_additive {A S} (step : S -> A -> S) (M : S -> nat) (d : A -> nat) l s :
  (forall s a, M (step s a) = (M s + d a)%nat) ->
  M (fold_left step l s) = (M s + list_sum (map d l))%nat.
Proof.
  intros H. revert s. induction l as [|a l IH]; intros s; simpl; [lia|].
  rewrite IH, H. lia.
Qed.

Lemma fold_left_inv {A S} (step : S -> A -> S) (P : S -> Prop) l s :
  (forall s a, P s -> P (step s a)) -> P s -> P (fold_left step l s).
Proof. intros H. revert s. induction l; intros s Hs; simpl; auto. Qed.

Lemma fold_left_establish {A S} (step : S -> A -> S) (P : S -> Prop) a0 l s :
  (forall s a, P s -> P (step s a)) -> (forall s, P (step s a0)) -> In a0 l ->
  P (fold_left step l s).
Proof.
  intros Hp He. revert s. induction l as [|a l IH]; intros s Hin; [destruct Hin|].
  simpl. destruct Hin as [->|Hin].
  - apply fold_left_inv; auto.
  - apply IH; auto.
Qed.

(** The three nested loops, for a measure of the tally that each cell
    increases by [d g p] and each split by [k b]. *)
Lemma tally_additive (M : Tally -> nat) (d : Batch -> string -> string -> nat)
  (k : Batch -> nat) test train bs t :
  (forall t b g p, M (cell_step b g t p) = (M t + d b g p)%nat) ->
  (forall t b, M (add_classifications (batch_len b) t) = (M t + k b)%nat) ->
  M (fold_left (batch_step test train) bs t)
  = (M t + list_sum (map (fun b => k b + list_sum (map (fun g =>
           list_sum (map (fun p => d b g p) train)) test)) bs))%nat.
Proof.
  intros Hc Hk. apply fold_left_additive. intros t' b. unfold batch_step.
  rewrite (fold_left_additive _ M (fun g => list_sum (map (fun p => d b g p) train))).
  - rewrite Hk. lia.
  - intros t'' g. apply fold_left_additive. intros; apply Hc.
Qed.

Lemma tally_num_correct test train bs :
  t_num_correct (tally_batches test train bs)
  = list_sum (map (fun b => batch_correct test train b) bs).
Proof.
  unfold tally_batches.
  rewrite (tally_additive t_num_correct
             (fun b g p => if String.eqb g p then batch_count b g p else 0%nat)
             (fun _ => 0%nat)).
  - reflexivity.
  - intros t b g p. simpl. destruct (String.eqb g p); lia.
  - intros t b. simpl. lia.
Qed.

Lemma tally_diag_sum test train bs :
  diag_sum (t_confusion_matrix (tally_batches test train bs))
  = list_sum (map (fun b => batch_correct test train b) bs).
Proof.
  unfold tally_batches, diag_sum.
  rewrite (tally_additive (fun t => msum (fun k => String.eqb (fst k) (snd k)) (t_confusion_matrix t))
             (fun b g p => if String.eqb g p then batch_count b g p else 0%nat)
             (fun _ => 0%nat)).
  - reflexivity.
  - intros t b g p. simpl. rewrite msum_madd. reflexivity.
  - intros t b. simpl. lia.
Qed.

Lemma tally_num_classifications test train bs :
  t_num_classifications (tally_batches test train bs) = list_sum (map batch_len bs).
Proof.
  unfold tally_batches.
  rewrite (tally_additive t_num_classifications (fun _ _ _ => 0%nat) batch_len).
  - simpl. apply list_sum_map_ext. intros b _.
    rewrite (list_sum_map_zero (fun g => list_sum (map (fun _ => 0%nat) train))); [lia|].
    intros g _. apply list_sum_map_zero. reflexivity.
  - intros. simpl. lia.
  - intros. reflexivity.
Qed.

Lemma tally_cell test train bs kk :
  mget 0%nat kk (t_confusion_matrix (tally_batches test train bs))
  = list_sum (map (fun b => list_sum (map (fun g => list_sum (map (fun p =>
      if pair_eqb (g, p) kk then batch_count b g p else 0%nat) train)) test)) bs).
Proof.
  unfold tally_batches.
  rewrite (tally_additive (fun t => mget 0%nat kk (t_confusion_matrix t))
             (fun b g p => if pair_eqb (g, p) kk then batch_count b g p else 0%nat)
             (fun _ => 0%nat)).
  - reflexivity.
  - intros t b g p. simpl. apply mget_madd.
  - intros t b. simpl. lia.
Qed.

Lemma tally_total test train bs :
  cell_total (t_confusion_matrix (tally_batches test train bs))
  = list_sum (map (fun b => list_sum (map (fun g => list_sum (map (fun p =>
      batch_count b g p) train)) test)) bs).
Proof.
  unfold tally_batches, cell_total.
  rewrite (tally_additive (fun t => msum (fun _ => true) (t_confusion_matrix t))
             (fun b g p => batch_count b g p) (fun _ => 0%nat)).
  - reflexivity.
  - intros t b g p. simpl. rewrite msum_madd. reflexivity.
  - intros t b. simpl. lia.
Qed.

Lemma tally_present test train bs g p :
  In g test -> In p train -> bs <> [] ->
  dlookup pair_eqb (g, p) (t_confusion_matrix (tally_batches test train bs)) <> None.
Proof.
  intros Hg Hp Hbs. destruct bs as [|b bs]; [congruence|].
  unfold tally_batches. simpl.
  set (P := fun t : Tally => dlookup pair_eqb (g, p) (t_confusion_matrix t) <> None).
  assert (Hcell : forall t b' g' p', P t -> P (cell_step b' g' t p')).
  { intros t b' g' p' H. unfold P. simpl. apply dlookup_madd_present. right. exact H. }
  apply (fold_left_inv _ P).
  - intros t b' H. unfold batch_step. apply (fold_left_inv _ P); [|exact H].
    intros t' g' H'. apply (fold_left_inv _ P); [|exact H']. intros; apply Hcell; assumption.
  - unfold batch_step.
    apply (fold_left_establish _ P g); [| |exact Hg].
    + intros t' g' H'. apply (fold_left_inv _ P); [|exact H']. intros; apply Hcell; assumption.
    + intros t'. apply (fold_left_establish _ P p); [intros; apply Hcell; assumption| |exact Hp].
      intros t''. unfold P. simpl. apply dlookup_madd_present. left. reflexivity.
Qed.

(** ** Counting the Sample Predictions of one split *)

Lemma batch_count_sum b g p :
  batch_count b g p
  = list_sum (map (fun s => if String.eqb (ground_truth_class_name s) g
                                && String.eqb (predicted_class_name s) p then 1 else 0)%nat
                  (b_individual_results b)).
Proof. unfold batch_count. apply length_filter_sum. Qed.

Lemma batch_correct_le test train b :
  NoDup test -> NoDup train -> (batch_correct test train b <= batch_len b)%nat.
Proof.
  intros Ht Htr. unfold batch_correct.
  rewrite (list_sum_map_ext _ (fun g => if in_dec string_dec g train then batch_count b g g else 0%nat))
    by (intros g _; apply (list_sum_select (fun p => batch_count b g p)); exact Htr).
  eapply Nat.le_trans.
  { apply (list_sum_map_le _ (fun g => batch_count b g g)).
    intros g _. destruct (in_dec string_dec g train); lia. }
  rewrite (list_sum_map_ext (fun g => batch_count b g g) _ test (fun g _ => batch_count_sum b g g)).
  rewrite (list_sum_swap (fun g s => if String.eqb (ground_truth_class_name s) g
                                        && String.eqb (predicted_class_name s) g then 1 else 0)%nat).
  unfold batch_len. rewrite <- (length_map (fun _ => 1%nat)).
  assert (Hl : forall l : list Sample, List.length (map (fun _ => 1%nat) l) = list_sum (map (fun _ => 1%nat) l))
    by (induction l; simpl; lia).
  rewrite Hl. apply list_sum_map_le. intros s _.
  eapply Nat.le_trans.
  { apply (list_sum_map_le _ (fun g => if String.eqb (ground_truth_class_name s) g then 1 else 0)%nat).
    intros g _. destruct (String.eqb (ground_truth_class_name s) g);
      destruct (String.eqb (predicted_class_name s) g); simpl; lia. }
  rewrite list_sum_indicator by exact Ht. destruct (in_dec _ _ _); lia.
Qed.

Lemma batch_cell_select test train b g0 p0 :
  NoDup test -> NoDup train -> In g0 test -> In p0 train ->
  list_sum (map (fun g => list_sum (map (fun p =>
     if pair_eqb (g, p) (g0, p0) then batch_count b g p else 0%nat) train)) test)
  = batch_count b g0 p0.
Proof.
  intros Ht Htr Hg Hp.
  rewrite (list_sum_map_ext _ (fun g => if String.eqb g0 g then
             list_sum (map (fun p => if String.eqb p0 p then batch_count b g p else 0%nat) train)
             else 0%nat)).
  - rewrite (list_sum_select (fun g => list_sum (map (fun p =>
               if String.eqb p0 p then batch_count b g p else 0%nat) train))) by exact Ht.
    destruct (in_dec string_dec g0 test); [|contradiction].
    rewrite (list_sum_select (fun p => batch_count b g0 p)) by exact Htr.
    destruct (in_dec string_dec p0 train); [reflexivity|contradiction].
  - intros g _. unfold pair_eqb. simpl. rewrite (String.eqb_sym g g0).
    destruct (String.eqb g0 g); simpl.
    + apply list_sum_map_ext. intros p _. rewrite (String.eqb_sym p p0). reflexivity.
    + apply list_sum_map_zero. reflexivity.
Qed.

Lemma batch_cells_total test train b :
  NoDup test -> NoDup train ->
  (forall s, In s (b_individual_results b) ->
     In (ground_truth_class_name s) test /\ In (predicted_class_name s) train) ->
  list_sum (map (fun g => list_sum (map (fun p => batch_count b g p) train)) test) = batch_len b.
Proof.
  intros Ht Htr Hs.
  rewrite (list_sum_map_ext _ (fun g => list_sum (map (fun s =>
             list_sum (map (fun p => if String.eqb (ground_truth_class_name s) g
                                       && String.eqb (predicted_class_name s) p then 1 else 0)%nat
                           train)) (b_individual_results b)))).
  2:{ intros g _. rewrite (list_sum_map_ext (fun p => batch_count b g p) _ train
                            (fun p _ => batch_count_sum b g p)).
      apply (list_sum_swap (fun p s => if String.eqb (ground_truth_class_name s) g
                                          && String.eqb (predicted_class_name s) p then 1 else 0)%nat). }
  rewrite (list_sum_swap (fun g s => list_sum (map (fun p =>
             if String.eqb (ground_truth_class_name s) g
                && String.eqb (predicted_class_name s) p then 1 else 0)%nat train))).
  unfold batch_len.
  assert (Hl : forall l : list Sample, (forall s, In s l ->
             In (ground_truth_class_name s) test /\ In (predicted_class_name s) train) ->
             list_sum (map (fun s => list_sum (map (fun g => list_sum (map (fun p =>
               if String.eqb (ground_truth_class_name s) g
                  && String.eqb (predicted_class_name s) p then 1 else 0)%nat train)) test)) l)
             = List.length l).
  { induction l as [|s l IH]; intros H; simpl; [reflexivity|].
    rewrite IH by (intros; apply H; right; assumption). f_equal.
    destruct (H s (or_introl eq_refl)) as [Hg Hp].
    rewrite (list_sum_map_ext _ (fun g => if String.eqb (ground_truth_class_name s) g then 1 else 0)%nat).
    - rewrite list_sum_indicator by exact Ht. destruct (in_dec _ _ _); [reflexivity|contradiction].
    - intros g _. destruct (String.eqb (ground_truth_class_name s) g); simpl.
      + rewrite list_sum_indicator by exact Htr. destruct (in_dec _ _ _); [reflexivity|contradiction].
      + apply list_sum_map_zero. reflexivity. }
  apply Hl. exact Hs.
Qed.

(** ** What a successful classification GenerateStats computes *)

Lemma py_fdiv_Ok x y a : py_fdiv x y = Ok a -> Qeq_bool y 0 = false /\ a = x / y.
Proof.
  unfold py_fdiv. destruct (Qeq_bool y 0); intros H; [discriminate|].
  injection H as <-. auto.
Qed.

Lemma base_GenerateStats_Ok ord e e0 :
  base_GenerateStats ord e = Ok e0 ->
  individual_results e0 = individual_results e
  /\ test_class_names e0 = test_class_names e
  /\ training_class_names e0 = training_class_names e
  /\ cls e0 = cls e.
Proof.
  unfold base_GenerateStats. destruct (scrape_values (individual_results e)) as [[n gts] pvs].
  destruct (mapM _ _); simpl; intros H; [|discriminate]. injection H as <-.
  repeat split.
Qed.

Lemma cls_GenerateStats_Ok ord e e' :
  cls_GenerateStats ord e = Ok e' ->
  let test := test_class_names e in
  let train := training_class_names e in
  let t := tally_batches test train (individual_results e) in
  (0 < t_num_classifications t)%nat
  /\ num_classifications e' = t_num_classifications t
  /\ num_correct_classifications (cls e') = Some (t_num_correct t)
  /\ classification_accuracy (cls e')
     = Some (Q_of_nat (t_num_correct t) / Q_of_nat (t_num_classifications t))
  /\ confusion_matrix (cls e') = t_confusion_matrix t
  /\ test_class_names e' = test /\ training_class_names e' = train
  /\ individual_results e' = individual_results e
  /\ exists acpm, finalize_avg (List.length (individual_results e)) (sorted_strings test)
                    (sorted_strings train) (t_average_class_probability_matrix t) = Ok acpm
       /\ average_class_probability_matrix (cls e') = acpm
       /\ (str_list_eqb test train = true ->
           exists sim, similarity test train acpm = Ok sim /\ similarity_matrix (cls e') = Some sim).
Proof.
  unfold cls_GenerateStats. destruct (base_GenerateStats ord e) as [e0|err] eqn:B;
    [|discriminate].
  destruct (base_GenerateStats_Ok _ _ _ B) as (Hb & Ht & Htr & Hc).
  rewrite bind_Ok, Hb, Ht, Htr.
  set (t := tally_batches _ _ _).
  destruct (finalize_avg _ _ _ _) as [acpm|err] eqn:F; [rewrite bind_Ok|discriminate].
  destruct (str_list_eqb (test_class_names e) (training_class_names e)) eqn:Eq.
  - destruct (similarity _ _ acpm) as [sim|err] eqn:S; [rewrite bind_Ok, bind_Ok|discriminate].
    destruct (py_fdiv _ _) as [acc|err] eqn:A; [rewrite bind_Ok|discriminate].
    intros H. injection H as <-. apply py_fdiv_Ok in A as [Hz ->].
    cbv zeta. simpl. rewrite Hb, Ht, Htr.
    split; [destruct (t_num_classifications t); [discriminate|lia]|].
    do 7 (split; [reflexivity|]). exists acpm. split; [reflexivity|]. split; [reflexivity|].
    intros _. exists sim; auto.
  - rewrite bind_Ok.
    destruct (py_fdiv _ _) as [acc|err] eqn:A; [rewrite bind_Ok|discriminate].
    intros H. injection H as <-. apply py_fdiv_Ok in A as [Hz ->].
    cbv zeta. simpl. rewrite Hb, Ht, Htr.
    split; [destruct (t_num_classifications t); [discriminate|lia]|].
    do 7 (split; [reflexivity|]). exists acpm. split; [reflexivity|]. split; [reflexivity|].
    intros; discriminate.
Qed.

Lemma Q_of_nat_le a b : (a <= b)%nat -> Q_of_nat a <= Q_of_nat b.
Proof. intros H. unfold Q_of_nat, Qle. simpl. lia. Qed.

Lemma tally_correct_le test train bs :
  NoDup test -> NoDup train ->
  (t_num_correct (tally_batches test train bs)
   <= t_num_classifications (tally_batches test train bs))%nat.
Proof.
  intros Nt Ntr. rewrite tally_num_correct, tally_num_classifications.
  apply list_sum_map_le. intros b _. apply batch_correct_le; assumption.
Qed.

Ltac solve_nodup :=
  repeat (apply NoDup_cons;
          [simpl; intros Hin; repeat destruct Hin as [Hin|Hin]; try discriminate; try contradiction|]);
  apply NoDup_nil.

(** C1: after a successful classification [GenerateStats] (which has at
    least one split and at least one classification), the aggregate
    [num_correct_classifications] is the sum of the confusion-matrix cells
    whose ground-truth name equals the predicted name, the
    [classification_accuracy] is [num_correct_classifications] divided by
    [num_classifications], and it lies in [[0, 1]].  The test-set and
    training-set class-name lists are assumed duplicate-free. *)
Theorem cls_GenerateStats_accuracy ord e e' :
  NoDup (test_class_names e) -> NoDup (training_class_names e) ->
  cls_GenerateStats ord e = Ok e' ->
  individual_results e' <> [] /\ (0 < num_classifications e')%nat
  /\ exists nc acc,
       num_correct_classifications (cls e') = Some nc
       /\ nc = diag_sum (confusion_matrix (cls e'))
       /\ classification_accuracy (cls e') = Some acc
       /\ acc = Q_of_nat nc / Q_of_nat (num_classifications e')
       /\ 0 <= acc <= 1.
Proof.
  intros Nt Ntr H. apply cls_GenerateStats_Ok in H. cbv zeta in H.
  destruct H as (Hpos & Hn & Hnc & Hacc & Hcm & _ & _ & Hb & _).
  pose proof (tally_correct_le _ _ (individual_results e) Nt Ntr) as Hle.
  pose proof (tally_num_classifications (test_class_names e) (training_class_names e)
                (individual_results e)) as Hsum.
  remember (tally_batches (test_class_names e) (training_class_names e) (individual_results e))
    as t eqn:Ht.
  split.
  { rewrite Hb. intros E. rewrite E in Hsum. simpl in Hsum. lia. }
  split; [rewrite Hn; exact Hpos|].
  exists (t_num_correct t), (Q_of_nat (t_num_correct t) / Q_of_nat (t_num_classifications t)).
  split; [exact Hnc|].
  split; [rewrite Hcm, Ht, tally_diag_sum, tally_num_correct; reflexivity|].
  split; [exact Hacc|].
  split; [rewrite Hn; reflexivity|].
  pose proof (Q_of_nat_pos _ Hpos) as P. split.
  - apply Qle_shift_div_l; [exact P|]. rewrite Qmult_0_l.
    apply (Q_of_nat_le 0). lia.
  - apply Qle_shift_div_r; [exact P|]. rewrite Qmult_1_l. apply Q_of_nat_le. exact Hle.
Qed.

Lemma cls_GenerateStats_accuracy_witness :
  exists e', cls_GenerateStats py2_dict_order ex_three_splits = Ok e'
  /\ individual_results e' <> [] /\ (0 < num_classifications e')%nat
  /\ exists nc acc,
       num_correct_classifications (cls e') = Some nc
       /\ nc = diag_sum (confusion_matrix (cls e'))
       /\ classification_accuracy (cls e') = Some acc
       /\ acc = Q_of_nat nc / Q_of_nat (num_classifications e')
       /\ 0 <= acc <= 1.
Proof.
  destruct (cls_GenerateStats py2_dict_order ex_three_splits) as [e'|err] eqn:E;
    [|cbv -[sqrt Q2R] in E; discriminate].
  exists e'. split; [reflexivity|].
  apply (cls_GenerateStats_accuracy py2_dict_order ex_three_splits e');
    [simpl; solve_nodup | simpl; solve_nodup | exact E].
Defined.

(** C2: after a successful classification [GenerateStats], every pair of a
    declared test-set class [g] and a declared training-set class [p] has an
    entry in the aggregate confusion matrix, equal to the sum over the splits
    of that split's count for [(g, p)] (zero when no split produced the
    pair), and the cells add up to [num_classifications], the number of
    Sample Predictions over all splits.  The class-name lists are assumed
    duplicate-free and every sample's ground-truth (predicted) class name is
    assumed to be a declared test-set (training-set) class name. *)
Theorem cls_GenerateStats_confusion_matrix ord e e' :
  NoDup (test_class_names e) -> NoDup (training_class_names e) ->
  (forall b s, In b (individual_results e) -> In s (b_individual_results b) ->
     In (ground_truth_class_name s) (test_class_names e)
     /\ In (predicted_class_name s) (training_class_names e)) ->
  cls_GenerateStats ord e = Ok e' ->
  (forall g p, In g (test_class_names e) -> In p (training_class_names e) ->
     dlookup pair_eqb (g, p) (confusion_matrix (cls e'))
     = Some (list_sum (map (fun b => batch_count b g p) (individual_results e))))
  /\ cell_total (confusion_matrix (cls e')) = num_classifications e'
  /\ num_classifications e' = list_sum (map batch_len (individual_results e)).
Proof.
  intros Nt Ntr Hin H. apply cls_GenerateStats_Ok in H. cbv zeta in H.
  destruct H as (Hpos & Hn & _ & _ & Hcm & _ & _ & _ & _).
  rewrite Hcm, Hn, tally_num_classifications.
  rewrite tally_num_classifications in Hpos.
  split; [|split; [|reflexivity]].
  - intros g p Hg Hp.
    rewrite dlookup_mget.
    + f_equal. rewrite tally_cell. apply list_sum_map_ext. intros b _.
      apply batch_cell_select; assumption.
    + apply tally_present; [exact Hg|exact Hp|].
      intros E. rewrite E in Hpos. simpl in Hpos. lia.
  - rewrite tally_total. apply list_sum_map_ext. intros b Hb.
    apply batch_cells_total; [exact Nt|exact Ntr|]. intros s Hs. exact (Hin b s Hb Hs).
Qed.

Lemma cls_GenerateStats_confusion_matrix_witness :
  exists e', cls_GenerateStats py2_dict_order ex_three_splits = Ok e'
  /\ (forall g p, In g (test_class_names ex_three_splits) ->
        In p (training_class_names ex_three_splits) ->
        dlookup pair_eqb (g, p) (confusion_matrix (cls e'))
        = Some (list_sum (map (fun b => batch_count b g p) (individual_results ex_three_splits))))
  /\ cell_total (confusion_matrix (cls e')) = num_classifications e'
  /\ num_classifications e' = list_sum (map batch_len (individual_results ex_three_splits)).
Proof.
  destruct (cls_GenerateStats py2_dict_order ex_three_splits) as [e'|err] eqn:E;
    [|cbv -[sqrt Q2R] in E; discriminate].
  exists e'. split; [reflexivity|].
  apply (cls_GenerateStats_confusion_matrix py2_dict_order ex_three_splits e');
    [simpl; solve_nodup | simpl; solve_nodup | | exact E].
  simpl. intros b s Hb Hs.
  repeat destruct Hb as [<-|Hb]; try contradiction;
    simpl in Hs; repeat destruct Hs as [<-|Hs]; try contradiction; simpl; auto.
Defined.

(** ** The feature-weight lists collected by the base-class GenerateStats *)

Lemma dget_fw_append k n w d :
  dget String.eqb [] k (fw_append n w d)
  = if String.eqb n k then dget String.eqb [] k d ++ [w] else dget String.eqb [] k d.
Proof.
  induction d as [|[k' ws] d IH]; simpl.
  - destruct (String.eqb n k); reflexivity.
  - destruct (String.eqb_spec k' n) as [->|Hne]; simpl.
    + destruct (String.eqb n k); reflexivity.
    + rewrite IH. destruct (String.eqb_spec k' k) as [->|]; [|reflexivity].
      destruct (String.eqb_spec n k) as [->|]; [congruence|reflexivity].
Qed.

Lemma dget_fw_inner k fw d :
  dget String.eqb [] k (fold_left (fun d nw => fw_append (fst nw) (snd nw) d) fw d)
  = dget String.eqb [] k d ++ map snd (filter (fun nw => String.eqb (fst nw) k) fw).
Proof.
  revert d. induction fw as [|[n w] fw IH]; intros d; simpl; [rewrite app_nil_r; reflexivity|].
  rewrite IH, dget_fw_append. destruct (String.eqb n k); simpl; [rewrite <- app_assoc|]; reflexivity.
Qed.

Lemma dget_collect_gen k bs d :
  dget String.eqb [] k
    (fold_left (fun d b => match b_feature_weights b with
                           | None => d
                           | Some fw => fold_left (fun d nw => fw_append (fst nw) (snd nw) d) fw d
                           end) bs d)
  = dget String.eqb [] k d ++ weights_of k bs.
Proof.
  revert d. induction bs as [|b bs IH]; intros d; simpl; [rewrite app_nil_r; reflexivity|].
  rewrite IH. unfold batch_weights. destruct (b_feature_weights b) as [fw|]; simpl.
  - rewrite dget_fw_inner, app_assoc. reflexivity.
  - reflexivity.
Qed.

Lemma dget_collect k bs :
  dget String.eqb [] k (collect_feature_weights bs) = weights_of k bs.
Proof. unfold collect_feature_weights. rewrite dget_collect_gen. reflexivity. Qed.

Lemma fw_append_keys k n w d :
  In k (map fst (fw_append n w d)) <-> k = n \/ In k (map fst d).
Proof.
  induction d as [|[k' ws] d IH]; simpl; [intuition|].
  destruct (String.eqb_spec k' n) as [->|Hne]; simpl; [intuition|].
  rewrite IH. intuition.
Qed.

Lemma fw_inner_keys k fw d :
  In k (map fst d) \/ In k (map fst fw) ->
  In k (map fst (fold_left (fun d nw => fw_append (fst nw) (snd nw) d) fw d)).
Proof.
  revert d. induction fw as [|[n w] fw IH]; intros d H; simpl in *; [tauto|].
  apply IH. rewrite fw_append_keys. intuition.
Qed.

Lemma collect_keys_gen k bs d :
  In k (map fst d)
  \/ (exists b fw, In b bs /\ b_feature_weights b = Some fw /\ In k (map fst fw)) ->
  In k (map fst
    (fold_left (fun d b => match b_feature_weights b with
                           | None => d
                           | Some fw => fold_left (fun d nw => fw_append (fst nw) (snd nw) d) fw d
                           end) bs d)).
Proof.
  revert d. induction bs as [|b bs IH]; intros d H; simpl.
  - destruct H as [H|(b & fw & [] & _)]; exact H.
  - apply IH. destruct H as [H|(b' & fw & [<-|Hb] & Hfw & Hk)].
    + left. destruct (b_feature_weights b); [apply fw_inner_keys; left|]; exact H.
    + left. rewrite Hfw. apply fw_inner_keys. right. exact Hk.
    + right. exists b', fw. auto.
Qed.

Lemma collect_keys k bs :
  (exists b fw, In b bs /\ b_feature_weights b = Some fw /\ In k (map fst fw)) ->
  In k (map fst (collect_feature_weights bs)).
Proof. intros H. apply collect_keys_gen. right. exact H. Qed.

Lemma filter_name_absent (name : string) (fw : list (string * Q)) :
  ~ In name (map fst fw) -> filter (fun nw => String.eqb (fst nw) name) fw = [].
Proof.
  induction fw as [|[n w] fw IH]; intros H; simpl in *; [reflexivity|].
  destruct (String.eqb_spec n name) as [->|]; [tauto|]. apply IH. tauto.
Qed.

Lemma batch_weights_length name b :
  (forall fw, b_feature_weights b = Some fw -> NoDup (map fst fw)) ->
  List.length (batch_weights name b) = if uses_feature name b then 1%nat else 0%nat.
Proof.
  unfold batch_weights, uses_feature. destruct (b_feature_weights b) as [fw|]; [|reflexivity].
  intros H. specialize (H fw eq_refl). rewrite length_map.
  induction fw as [|[n w] fw IH]; simpl; [reflexivity|].
  inversion H as [|? ? Hn Hnd]; subst.
  destruct (String.eqb_spec n name) as [->|]; simpl.
  - rewrite filter_name_absent; [reflexivity|exact Hn].
  - apply IH. exact Hnd.
Qed.

Lemma weights_of_length name bs :
  (forall b fw, In b bs -> b_feature_weights b = Some fw -> NoDup (map fst fw)) ->
  List.length (weights_of name bs) = batches_using name bs.
Proof.
  unfold weights_of, batches_using.
  induction bs as [|b bs IH]; intros H; simpl; [reflexivity|].
  rewrite length_app, (batch_weights_length name b)
    by (intros fw Hfw; eapply H; [left; reflexivity|exact Hfw]).
  rewrite IH by (intros b' fw Hb Hfw; eapply H; [right; exact Hb|exact Hfw]). destruct (uses_feature name b); reflexivity.
Qed.

Lemma batches_using_le name bs : (batches_using name bs <= List.length bs)%nat.
Proof. unfold batches_using. apply filter_length_le. Qed.

Lemma mapM_In {A B} (f : A -> result B) ks ys k :
  mapM f ks = Ok ys -> In k ks -> exists y, f k = Ok y /\ In y ys.
Proof.
  revert ys. induction ks as [|k' ks IH]; intros ys H Hk; [destruct Hk|].
  simpl in H. destruct (f k') as [y|err] eqn:Fk; [rewrite bind_Ok in H|discriminate].
  destruct (mapM f ks) as [ys'|err]; [rewrite bind_Ok in H|discriminate].
  injection H as <-. destruct Hk as [<-|Hk].
  - exists y. split; [exact Fk|left; reflexivity].
  - destruct (IH ys' eq_refl Hk) as (y' & Hy' & Hin). exists y'. split; [exact Hy'|right; exact Hin].
Qed.

Lemma insert_desc_perm x l : Permutation (insert_desc x l) (x :: l).
Proof.
  induction l as [|y l IH]; simpl; [reflexivity|].
  destruct (Qle_bool (fw_mean y) (fw_mean x)); [reflexivity|].
  rewrite IH. apply perm_swap.
Qed.

Lemma sort_by_mean_desc_perm l : Permutation (sort_by_mean_desc l) l.
Proof.
  induction l as [|x l IH]; simpl; [reflexivity|].
  rewrite insert_desc_perm. apply perm_skip. exact IH.
Qed.

Lemma Qsum_app l l' : Qsum (l ++ l') == Qsum l + Qsum l'.
Proof.
  induction l as [|x l IH]; simpl; [ring|]. rewrite IH. ring.
Qed.

Lemma Qsum_repeat_0 k : Qsum (repeat 0 k) == 0.
Proof. induction k as [|k IH]; simpl; [reflexivity|]. rewrite IH. reflexivity. Qed.

Lemma base_GenerateStats_stats ord e stats :
  mapM (fun fname => fw_stat (List.length (individual_results e)) fname
                       (dget String.eqb [] fname (collect_feature_weights (individual_results e))))
       (ord (map fst (collect_feature_weights (individual_results e)))) = Ok stats ->
  exists e', base_GenerateStats ord e = Ok e'
        /\ feature_weight_statistics e' = Some (sort_by_mean_desc stats).
Proof.
  intros H. unfold base_GenerateStats.
  destruct (scrape_values (individual_results e)) as [[n gts] pvs].
  rewrite H, bind_Ok. eexists. split; reflexivity.
Qed.

Lemma base_GenerateStats_stats_ok ord e :
  (forall b fw, In b (individual_results e) -> b_feature_weights b = Some fw ->
     NoDup (map fst fw)) ->
  exists stats,
    mapM (fun fname => fw_stat (List.length (individual_results e)) fname
                         (dget String.eqb [] fname (collect_feature_weights (individual_results e))))
         (ord (map fst (collect_feature_weights (individual_results e)))) = Ok stats
    /\ map fw_name stats = ord (map fst (collect_feature_weights (individual_results e))).
Proof.
  intros Hnd. apply mapM_fw_stat_ok. intros k _.
  rewrite dget_collect, weights_of_length by exact Hnd. apply batches_using_le.
Qed.

(** C3: for every feature used by at least one split, the aggregated
    statistic of the feature has as mean the sum of its weights over the
    splits that used it divided by the number of splits (the absent splits
    count as zero), as count the number of splits that used it, and as
    standard deviation, minimum and maximum those of its weights over the
    splits that used it.  The dict is iterated over a permutation of its
    keys, and no split lists a feature name twice. *)
Theorem base_GenerateStats_feature_weight_stat ord e name :
  Permutation (ord (discovery_order (individual_results e)))
              (discovery_order (individual_results e)) ->
  (forall b fw, In b (individual_results e) -> b_feature_weights b = Some fw ->
     NoDup (map fst fw)) ->
  (exists b fw, In b (individual_results e) /\ b_feature_weights b = Some fw
                /\ In name (map fst fw)) ->
  let bs := individual_results e in
  let ws := weights_of name bs in
  exists e' stats st,
    base_GenerateStats ord e = Ok e'
    /\ feature_weight_statistics e' = Some stats
    /\ In st stats /\ fw_name st = name
    /\ fw_mean st == Qsum ws / Q_of_nat (List.length bs)
    /\ fw_count st = batches_using name bs
    /\ List.length ws = batches_using name bs
    /\ fw_std st = np_std ws /\ fw_min st = np_min ws /\ fw_max st = np_max ws.
Proof.
  intros Hord Hnd Hex bs ws.
  destruct (base_GenerateStats_stats_ok ord e Hnd) as (stats & Hs & _).
  destruct (base_GenerateStats_stats ord e stats Hs) as (e' & He' & Hf).
  assert (Hk : In name (ord (map fst (collect_feature_weights bs)))).
  { apply (Permutation_in _ (Permutation_sym Hord)). apply collect_keys. exact Hex. }
  destruct (mapM_In _ _ _ _ Hs Hk) as (st & Hst & Hin).
  rewrite dget_collect in Hst. fold bs ws in Hst.
  pose proof (weights_of_length name bs Hnd) as Hl. fold ws in Hl.
  pose proof (batches_using_le name bs) as Hle.
  unfold fw_stat in Hst.
  replace (Nat.ltb (List.length bs) (List.length ws)) with false in Hst
    by (symmetry; apply Nat.ltb_ge; lia).
  injection Hst as <-.
  exists e', (sort_by_mean_desc stats). eexists.
  split; [exact He'|]. split; [exact Hf|].
  split; [apply (Permutation_in _ (Permutation_sym (sort_by_mean_desc_perm stats))); exact Hin|].
  simpl. split; [reflexivity|].
  split.
  - unfold np_mean. rewrite length_app, repeat_length, Qsum_app, Qsum_repeat_0, Qplus_0_r.
    replace (List.length ws + (List.length bs - List.length ws))%nat with (List.length bs)
      by lia.
    reflexivity.
  - repeat split; exact Hl.
Qed.

Lemma base_GenerateStats_feature_weight_stat_witness :
  exists e' stats st,
    base_GenerateStats py2_dict_order ex_three_splits = Ok e'
    /\ feature_weight_statistics e' = Some stats
    /\ In st stats /\ fw_name st = "f1"%string
    /\ fw_mean st == Qsum (weights_of "f1" (individual_results ex_three_splits))
                     / Q_of_nat (List.length (individual_results ex_three_splits))
    /\ fw_mean st == 10 # 3 /\ fw_count st = 2%nat /\ fw_min st = 4 /\ fw_max st = 6.
Proof.
  destruct (base_GenerateStats_feature_weight_stat py2_dict_order ex_three_splits "f1")
    as (e' & stats & st & He & Hf & Hin & Hn & Hm & Hc & _ & _ & Hmin & Hmax).
  - vm_compute. apply Permutation_refl.
  - simpl. intros b fw Hb Hfw.
    repeat destruct Hb as [<-|Hb]; try contradiction; simpl in Hfw;
      try discriminate; injection Hfw as <-; solve_nodup.
  - eexists; eexists. split; [left; reflexivity|]. split; [reflexivity|]. left; reflexivity.
  - exists e', stats, st. do 5 (split; [assumption|]).
    split; [rewrite Hm; vm_compute; reflexivity|].
    rewrite Hc, Hmin, Hmax. vm_compute. repeat split.
Defined.

(** ** The sort of [feature_weight_statistics] *)

Lemma mapM_fw_stat_names nb ks (g : string -> list Q) stats :
  mapM (fun k => fw_stat nb k (g k)) ks = Ok stats -> map fw_name stats = ks.
Proof.
  revert stats. induction ks as [|k ks IH]; intros stats H; simpl in H.
  - injection H as <-. reflexivity.
  - unfold fw_stat at 1 in H. destruct (Nat.ltb nb (List.length (g k))); [discriminate|].
    rewrite bind_Ok in H.
    destruct (mapM _ ks) as [ys|err]; [rewrite bind_Ok in H|discriminate].
    injection H as <-. simpl. f_equal. apply IH. reflexivity.
Qed.

Lemma base_GenerateStats_Ok_stats ord e e' :
  base_GenerateStats ord e = Ok e' ->
  exists stats,
    mapM (fun fname => fw_stat (List.length (individual_results e)) fname
                         (dget String.eqb [] fname (collect_feature_weights (individual_results e))))
         (ord (map fst (collect_feature_weights (individual_results e)))) = Ok stats
    /\ feature_weight_statistics e' = Some (sort_by_mean_desc stats).
Proof.
  unfold base_GenerateStats. destruct (scrape_values (individual_results e)) as [[n gts] pvs].
  destruct (mapM _ _) as [stats|err]; [rewrite bind_Ok|discriminate].
  intros H. injection H as <-. exists stats. split; reflexivity.
Qed.

Lemma insert_desc_HdRel y x l :
  HdRel mean_desc y l -> mean_desc y x -> HdRel mean_desc y (insert_desc x l).
Proof.
  destruct l as [|z l]; intros Hh Hyx; simpl; [constructor; exact Hyx|].
  destruct (Qle_bool (fw_mean z) (fw_mean x)); constructor; [exact Hyx|].
  inversion Hh; assumption.
Qed.

Lemma insert_desc_sorted x l : Sorted mean_desc l -> Sorted mean_desc (insert_desc x l).
Proof.
  induction l as [|y l IH]; intros Hs; simpl; [repeat constructor|].
  destruct (Qle_bool (fw_mean y) (fw_mean x)) eqn:Hle.
  - constructor; [exact Hs|]. constructor. unfold mean_desc. apply Qle_bool_iff. exact Hle.
  - inversion Hs as [|? ? Hl Hh]; subst. constructor; [apply IH; exact Hl|].
    apply insert_desc_HdRel; [exact Hh|]. unfold mean_desc.
    apply Qlt_le_weak, Qnot_le_lt. intros C. apply Qle_bool_iff in C. congruence.
Qed.

Lemma sort_by_mean_desc_sorted l : Sorted mean_desc (sort_by_mean_desc l).
Proof. induction l as [|x l IH]; simpl; [constructor|]. apply insert_desc_sorted. exact IH. Qed.

Lemma insert_desc_filter_mean q x l :
  filter (fun s => Qeq_bool (fw_mean s) q) (insert_desc x l)
  = if Qeq_bool (fw_mean x) q then x :: filter (fun s => Qeq_bool (fw_mean s) q) l
    else filter (fun s => Qeq_bool (fw_mean s) q) l.
Proof.
  induction l as [|y l IH]; simpl; [reflexivity|].
  destruct (Qle_bool (fw_mean y) (fw_mean x)) eqn:Hle; simpl.
  - reflexivity.
  - rewrite IH.
    destruct (Qeq_bool (fw_mean x) q) eqn:Hx, (Qeq_bool (fw_mean y) q) eqn:Hy; try reflexivity.
    exfalso. apply Qeq_bool_iff in Hx, Hy.
    assert (C : Qle_bool (fw_mean y) (fw_mean x) = true)
      by (apply Qle_bool_iff; rewrite Hx, Hy; apply Qle_refl).
    congruence.
Qed.

Lemma sort_by_mean_desc_filter_mean q l :
  filter (fun s => Qeq_bool (fw_mean s) q) (sort_by_mean_desc l)
  = filter (fun s => Qeq_bool (fw_mean s) q) l.
Proof.
  induction l as [|x l IH]; simpl; [reflexivity|].
  rewrite insert_desc_filter_mean, IH. reflexivity.
Qed.

(** C4 (amended): after a successful base-class [GenerateStats], the
    [feature_weight_statistics] list is a rearrangement of the statistics
    built in the dict iteration order [ord] of the feature names, sorted by
    non-increasing mean, and the entries of any one mean value appear in
    that dict iteration order (Python's sort is stable).  Ties therefore
    follow the dict iteration order, which for CPython 2 is the hash order
    [py2_dict_order], not the discovery order. *)
Theorem base_GenerateStats_sorted_stable ord e e' out :
  base_GenerateStats ord e = Ok e' ->
  feature_weight_statistics e' = Some out ->
  exists stats,
    map fw_name stats = ord (discovery_order (individual_results e))
    /\ Permutation out stats
    /\ Sorted mean_desc out
    /\ forall q, filter (fun s => Qeq_bool (fw_mean s) q) out
                 = filter (fun s => Qeq_bool (fw_mean s) q) stats.
Proof.
  intros H Hout. destruct (base_GenerateStats_Ok_stats ord e e' H) as (stats & Hs & Hf).
  rewrite Hf in Hout. injection Hout as <-.
  exists stats. split; [exact (mapM_fw_stat_names _ _ _ _ Hs)|].
  split; [apply sort_by_mean_desc_perm|].
  split; [apply sort_by_mean_desc_sorted|].
  intros q. apply sort_by_mean_desc_filter_mean.
Qed.

Lemma base_GenerateStats_sorted_stable_witness :
  exists e' out stats,
    base_GenerateStats py2_dict_order ex_tied_features = Ok e'
    /\ feature_weight_statistics e' = Some out
    /\ map fw_name stats = py2_dict_order (discovery_order (individual_results ex_tied_features))
    /\ Permutation out stats
    /\ Sorted mean_desc out
    /\ (forall q, filter (fun s => Qeq_bool (fw_mean s) q) out
                  = filter (fun s => Qeq_bool (fw_mean s) q) stats)
    /\ map fw_name out = ["a"; "b"]%string.
Proof.
  destruct (base_GenerateStats py2_dict_order ex_tied_features) as [e'|err] eqn:E;
    [|cbv -[sqrt Q2R] in E; discriminate].
  destruct (feature_weight_statistics e') as [out|] eqn:F;
    [|cbv -[sqrt Q2R] in E; injection E as <-; discriminate F].
  destruct (base_GenerateStats_sorted_stable py2_dict_order ex_tied_features e' out E F)
    as (stats & Hn & Hp & Hs & Hq).
  exists e', out, stats. do 6 (split; [first [assumption|reflexivity]|]).
  cbv -[sqrt Q2R] in E. injection E as <-. simpl in F. injection F as <-. reflexivity.
Defined.

(** ** The similarity matrix *)

Lemma mget_mset {V} (d : V) k k' v m :
  mget d k (mset k' v m) = if pair_eqb k' k then v else mget d k m.
Proof.
  unfold mget, mset. induction m as [|[k1 v1] m IH]; simpl.
  - destruct (pair_eqb k' k); reflexivity.
  - destruct (pair_eqb k1 k') eqn:E1; simpl.
    + apply pair_eqb_eq in E1 as ->. destruct (pair_eqb k' k); reflexivity.
    + rewrite IH. destruct (pair_eqb k1 k) eqn:E2; [|reflexivity].
      apply pair_eqb_eq in E2. subst k1. destruct (pair_eqb k' k) eqn:E3; [|reflexivity].
      apply pair_eqb_eq in E3. subst k'.
      assert (pair_eqb k k = true) by (apply pair_eqb_eq; reflexivity). congruence.
Qed.

Lemma str_list_eqb_eq l1 l2 : str_list_eqb l1 l2 = true <-> l1 = l2.
Proof.
  revert l2. induction l1 as [|a l1 IH]; intros [|b l2]; simpl; try (split; congruence).
  rewrite Bool.andb_true_iff, String.eqb_eq, IH. split; [intros [-> ->]; reflexivity|].
  intros H. injection H as -> ->. auto.
Qed.

Lemma foldM_inv {A B} (f : A -> B -> result A) (P : A -> Prop) l a a' :
  (forall x b y, In b l -> P x -> f x b = Ok y -> P y) ->
  P a -> foldM f l a = Ok a' -> P a'.
Proof.
  revert a. induction l as [|b l IH]; intros a Hf Ha H; simpl in H.
  - injection H as <-. exact Ha.
  - destruct (f a b) as [y|err] eqn:E; [rewrite bind_Ok in H|discriminate].
    apply (IH y); [intros; eapply Hf; [right|..]; eassumption|eapply Hf; [left|..]; eauto|exact H].
Qed.

Lemma similarity_row_other cols m r m' k :
  similarity_row cols m r = Ok m' -> fst k <> r -> mget 0 k m' = mget 0 k m.
Proof.
  unfold similarity_row. intros H Hk.
  apply (foldM_inv _ (fun x => mget 0 k x = mget 0 k m) _ _ _ ) in H; [exact H| |reflexivity].
  intros x col y _ Hx E. destruct (py_fdiv _ _) as [v|err]; [rewrite bind_Ok in E|discriminate].
  injection E as <-. rewrite mget_mset.
  destruct (pair_eqb (r, col) k) eqn:Ek; [|exact Hx].
  apply pair_eqb_eq in Ek. subst k. simpl in Hk. congruence.
Qed.

Lemma similarity_row_diag_loop (D : Q) r cols m m' :
  NoDup cols -> In r cols -> mget 0 (r, r) m = D ->
  foldM (fun m col => v <- py_fdiv (mget 0 (r, col) m) D ;; Ok (mset (r, col) v m)) cols m
  = Ok m' ->
  mget 0 (r, r) m' == 1.
Proof.
  revert m. induction cols as [|c cols IH]; intros m Hnd Hin Hm H; [destruct Hin|].
  apply NoDup_cons_iff in Hnd as [Hc Hnd']. simpl in H.
  destruct (py_fdiv (mget 0 (r, c) m) D) as [v|err] eqn:Ev; [rewrite !bind_Ok in H|discriminate].
  destruct (String.eqb_spec c r) as [->|Hne].
  - apply py_fdiv_Ok in Ev as [Hz ->].
    apply (foldM_inv _ (fun x => mget 0 (r, r) x = mget 0 (r, r) m / D) _ _ _) in H.
    + rewrite H, Hm. unfold Qdiv. apply Qmult_inv_r. intros Z. apply Qeq_bool_iff in Z. congruence.
    + intros x col y Hcol Hx E. destruct (py_fdiv _ _) as [w|err]; [rewrite bind_Ok in E|discriminate].
      injection E as <-. rewrite mget_mset.
      destruct (pair_eqb (r, col) (r, r)) eqn:Ek; [|exact Hx].
      apply pair_eqb_eq in Ek. injection Ek as ->. contradiction.
    + rewrite mget_mset. replace (pair_eqb (r, r) (r, r)) with true
        by (symmetry; apply pair_eqb_eq; reflexivity). reflexivity.
  - destruct Hin as [->|Hin]; [congruence|].
    apply (IH (mset (r, c) v m) Hnd' Hin); [|exact H].
    rewrite mget_mset. destruct (pair_eqb (r, c) (r, r)) eqn:Ek; [|exact Hm].
    apply pair_eqb_eq in Ek. injection Ek as ->. congruence.
Qed.

Lemma similarity_row_diag cols m r m' :
  NoDup cols -> In r cols -> similarity_row cols m r = Ok m' -> mget 0 (r, r) m' == 1.
Proof.
  intros Hnd Hin H. unfold similarity_row in H.
  exact (similarity_row_diag_loop _ r cols m m' Hnd Hin eq_refl H).
Qed.

Lemma similarity_later_rows cols rows m sim r k :
  foldM (similarity_row cols) rows m = Ok sim -> ~ In r rows -> fst k = r ->
  mget 0 k sim = mget 0 k m.
Proof.
  intros H Hr Hk.
  apply (foldM_inv _ (fun x => mget 0 k x = mget 0 k m) _ _ _) in H; [exact H| |reflexivity].
  intros x r' y Hr' Hx E. rewrite (similarity_row_other _ _ _ _ _ E); [exact Hx|].
  subst r. intros Ek. rewrite <- Ek in Hr'. contradiction.
Qed.

Lemma similarity_diag rows cols m sim :
  NoDup rows -> NoDup cols -> (forall r, In r rows -> In r cols) ->
  similarity rows cols m = Ok sim ->
  forall c, In c rows -> mget 0 (c, c) sim == 1.
Proof.
  unfold similarity. revert m. induction rows as [|r rows IH]; intros m Hr Hc Hsub H c Hin;
    [destruct Hin|].
  inversion Hr as [|? ? Hnr Hr']; subst. simpl in H.
  destruct (similarity_row cols m r) as [m1|err] eqn:E1; [rewrite bind_Ok in H|discriminate].
  destruct Hin as [<-|Hin].
  - rewrite (similarity_later_rows cols rows m1 sim r (r, r) H Hnr eq_refl).
    apply (similarity_row_diag cols m r m1 Hc (Hsub r (or_introl eq_refl)) E1).
  - apply (IH m1 Hr' Hc (fun x Hx => Hsub x (or_intror Hx)) H c Hin).
Qed.

Lemma foldM_err {A B} (f : A -> B -> result A) l a err :
  (forall x b e, f x b = Err e -> e = ZeroDivisionError) ->
  foldM f l a = Err err -> err = ZeroDivisionError.
Proof.
  revert a. induction l as [|b l IH]; intros a Hf H; simpl in H; [discriminate|].
  destruct (f a b) as [y|e] eqn:E; [rewrite bind_Ok in H; eapply IH; eassumption|].
  injection H as <-. eapply Hf. exact E.
Qed.

Lemma similarity_err rows cols m err :
  similarity rows cols m = Err err -> err = ZeroDivisionError.
Proof.
  unfold similarity. apply foldM_err. intros x r e E. unfold similarity_row in E.
  revert E. apply foldM_err. intros y col e' E'.
  unfold py_fdiv in E'. destruct (Qeq_bool _ 0).
  - injection E' as <-. reflexivity.
  - discriminate.
Qed.

Lemma similarity_zero_diag rows cols m c :
  In c rows -> In c cols -> mget 0 (c, c) m == 0 ->
  similarity rows cols m = Err ZeroDivisionError.
Proof.
  intros Hin Hc Hz.
  destruct (similarity rows cols m) as [sim|err] eqn:E; [exfalso|apply similarity_err in E; subst; reflexivity].
  unfold similarity in E. revert m Hz E. induction rows as [|r rows IH]; intros m Hz E;
    [destruct Hin|].
  simpl in E. destruct (similarity_row cols m r) as [m1|err] eqn:E1; [rewrite bind_Ok in E|discriminate].
  destruct (String.eqb_spec r c) as [->|Hne].
  - unfold similarity_row in E1. destruct cols as [|col cols]; [destruct Hc|].
    simpl in E1. unfold py_fdiv at 1 in E1.
    replace (Qeq_bool (mget 0 (c, c) m) 0) with true in E1
      by (symmetry; apply Qeq_bool_iff; exact Hz).
    discriminate.
  - destruct Hin as [->|Hin]; [congruence|].
    apply (IH Hin m1); [|exact E].
    rewrite (similarity_row_other cols m r m1 (c, c) E1); [exact Hz|simpl; congruence].
Qed.

(** C5 (amended): the similarity matrix is computed when the test-set and
    training-set class-name lists are equal as lists (Python's [==] on
    lists, order included).  Then, with no repeated class name, a successful
    [GenerateStats] has [similarity_matrix[c][c] = 1] for every class [c];
    and if the finalized average class probability matrix has a zero
    diagonal entry for some class, [GenerateStats] raises
    [ZeroDivisionError]. *)
Theorem cls_GenerateStats_similarity ord e :
  NoDup (test_class_names e) ->
  test_class_names e = training_class_names e ->
  (forall e', cls_GenerateStats ord e = Ok e' ->
     exists sim, similarity_matrix (cls e') = Some sim
            /\ forall c, In c (test_class_names e) -> mget 0 (c, c) sim == 1)
  /\ (forall e0 acpm c,
        base_GenerateStats ord e = Ok e0 ->
        finalize_avg (List.length (individual_results e))
          (sorted_strings (test_class_names e)) (sorted_strings (training_class_names e))
          (t_average_class_probability_matrix
             (tally_batches (test_class_names e) (training_class_names e)
                (individual_results e))) = Ok acpm ->
        In c (test_class_names e) -> mget 0 (c, c) acpm == 0 ->
        cls_GenerateStats ord e = Err ZeroDivisionError).
Proof.
  intros Hnd Heq. split.
  - intros e' H. apply cls_GenerateStats_Ok in H. cbv zeta in H.
    destruct H as (_ & _ & _ & _ & _ & _ & _ & _ & acpm & _ & _ & Hsim).
    destruct Hsim as (sim & Hs & Hm); [apply str_list_eqb_eq; exact Heq|].
    exists sim. split; [exact Hm|].
    rewrite <- Heq in Hs.
    apply (similarity_diag _ _ _ _ Hnd Hnd (fun r Hr => Hr) Hs).
  - intros e0 acpm c B F Hc Hz.
    destruct (base_GenerateStats_Ok _ _ _ B) as (Hb & Ht & Htr & _).
    unfold cls_GenerateStats. rewrite B, bind_Ok, Hb, Ht, Htr, F, bind_Ok.
    replace (str_list_eqb (test_class_names e) (training_class_names e)) with true
      by (symmetry; apply str_list_eqb_eq; exact Heq).
    rewrite <- Heq, (similarity_zero_diag _ _ _ c Hc Hc Hz).
    reflexivity.
Qed.

Lemma cls_GenerateStats_similarity_witness :
  (exists e', cls_GenerateStats py2_dict_order ex_three_splits = Ok e'
         /\ exists sim, similarity_matrix (cls e') = Some sim
                   /\ forall c, In c (test_class_names ex_three_splits) -> mget 0 (c, c) sim == 1)
  /\ cls_GenerateStats py2_dict_order ex_zero_diagonal = Err ZeroDivisionError.
Proof.
  split.
  - destruct (cls_GenerateStats py2_dict_order ex_three_splits) as [e'|err] eqn:E;
      [|cbv -[sqrt Q2R] in E; discriminate].
    exists e'. split; [reflexivity|].
    refine (proj1 (cls_GenerateStats_similarity py2_dict_order ex_three_splits _ _) e' E);
      [simpl; solve_nodup|reflexivity].
  - destruct (base_GenerateStats py2_dict_order ex_zero_diagonal) as [e0|err] eqn:B;
      [|cbv -[sqrt Q2R] in B; discriminate].
    destruct (finalize_avg (List.length (individual_results ex_zero_diagonal))
                (sorted_strings (test_class_names ex_zero_diagonal))
                (sorted_strings (training_class_names ex_zero_diagonal))
                (t_average_class_probability_matrix
                   (tally_batches (test_class_names ex_zero_diagonal)
                      (training_class_names ex_zero_diagonal)
                      (individual_results ex_zero_diagonal)))) as [acpm|err] eqn:F;
      [|vm_compute in F; discriminate].
    apply (proj2 (cls_GenerateStats_similarity py2_dict_order ex_zero_diagonal
                    ltac:(simpl; solve_nodup) eq_refl) e0 acpm "A"%string B F);
      [simpl; left; reflexivity|].
    vm_compute in F. injection F as <-. vm_compute. reflexivity.
Defined.

(** ** Calling GenerateStats twice *)

Lemma scrape_values_count bs : fst (fst (scrape_values bs)) = total_results bs.
Proof.
  induction bs as [|b bs IH]; simpl; [reflexivity|].
  destruct (classification_results_of b) as [[cr gt] pv].
  destruct (scrape_values bs) as [[n gts] pvs]. simpl in *. rewrite IH. reflexivity.
Qed.

Lemma base_GenerateStats_num ord e e0 :
  base_GenerateStats ord e = Ok e0 ->
  num_classifications e0 = (num_classifications e + total_results (individual_results e))%nat.
Proof.
  unfold base_GenerateStats. rewrite <- scrape_values_count.
  destruct (scrape_values (individual_results e)) as [[n gts] pvs].
  destruct (mapM _ _); [rewrite bind_Ok|discriminate]. intros H. injection H as <-. reflexivity.
Qed.

Lemma base_GenerateStats_again ord e e0 e' e0' :
  base_GenerateStats ord e = Ok e0 ->
  base_GenerateStats ord e' = Ok e0' ->
  individual_results e' = individual_results e ->
  ground_truth_values e' = ground_truth_values e0 ->
  predicted_values e' = predicted_values e0 ->
  ground_truth_values e0' = ground_truth_values e0
  /\ predicted_values e0' = predicted_values e0.
Proof.
  unfold base_GenerateStats. intros H H' Hb Hg Hp. rewrite Hb in H'.
  destruct (scrape_values (individual_results e)) as [[n gts] pvs].
  destruct (mapM _ _); [rewrite bind_Ok in H, H'|discriminate].
  injection H as <-. injection H' as <-. simpl in *. rewrite Hg, Hp. simpl.
  destruct gts, pvs; split; reflexivity.
Qed.

Lemma reg_GenerateStats_Ok ord lr sp b e e1 b1 :
  reg_GenerateStats ord lr sp b e = Ok (e1, b1) ->
  exists e0 diffs se,
    base_GenerateStats ord e = Ok e0
    /\ np_sub (ground_truth_values e0) (predicted_values e0) = Ok diffs
    /\ rms_std_err b (Qsum (map (fun d => d * d) diffs)) (num_classifications e0) = Ok se
    /\ e1 = set_std_err e0 se
    /\ b1 = true.
Proof.
  unfold reg_GenerateStats. destruct (base_GenerateStats ord e) as [e0|err]; [rewrite bind_Ok|discriminate].
  destruct (np_sub _ _) as [diffs|err] eqn:D; [rewrite bind_Ok|discriminate].
  destruct (rms_std_err _ _ _) as [se|err] eqn:S; [rewrite bind_Ok|discriminate].
  destruct (lr _ _ _) as [[]|err]; [rewrite bind_Ok|discriminate].
  destruct (catch_fpe _) as [[]|err]; [rewrite bind_Ok|discriminate].
  intros H. injection H as <- <-. exists e0, diffs, se. repeat split; assumption.
Qed.

Lemma Qsum_squares_nonneg l : 0 <= Qsum (map (fun d => d * d) l).
Proof.
  induction l as [|d l IH]; simpl; [apply Qle_refl|].
  apply (Qplus_le_compat 0 (d * d) 0); [|exact IH].
  destruct d as [n dn]. unfold Qle, Qmult. simpl. nia.
Qed.

Lemma Q2R_Q_of_nat n : Q2R (Q_of_nat n) = INR n.
Proof. unfold Q2R, Q_of_nat, inject_Z. simpl. rewrite INR_IZR_INZ. field. Qed.

Lemma sqrt_mean_halved (S : Q) m :
  0 <= S -> (0 < m)%nat ->
  sqrt (Q2R (S / Q_of_nat (m + m))) = sqrt (Q2R (S / Q_of_nat m)) <-> S == 0.
Proof.
  intros HS Hm.
  assert (Hm' : (0 < INR m)%R) by (apply lt_0_INR; exact Hm).
  assert (Hnz : forall k, (0 < k)%nat -> ~ Q_of_nat k == 0)
    by (intros k Hk Z; pose proof (Q_of_nat_pos k Hk) as P; rewrite Z in P; apply (Qlt_irrefl 0 P)).
  rewrite !Q2R_div by (apply Hnz; lia). rewrite !Q2R_Q_of_nat, plus_INR.
  pose proof (Qle_Rle _ _ HS) as HSR. rewrite RMicromega.Q2R_0 in HSR.
  split.
  - intros E. apply sqrt_inj in E.
    + destruct (Qeq_dec S 0) as [|Hne]; [assumption|exfalso].
      assert (HSp : (0 < Q2R S)%R).
      { destruct (Rle_lt_or_eq_dec _ _ HSR) as [|E0]; [assumption|].
        exfalso. apply Hne. apply eqR_Qeq. rewrite RMicromega.Q2R_0. symmetry. exact E0. }
      assert (Q2R S / (INR m + INR m) < Q2R S / INR m)%R.
      { apply Rmult_lt_compat_l; [exact HSp|]. apply Rinv_lt_contravar; nra. }
      lra.
    + apply Rmult_le_pos; [exact HSR|]. left. apply Rinv_0_lt_compat. lra.
    + apply Rmult_le_pos; [exact HSR|]. left. apply Rinv_0_lt_compat. lra.
  - intros E. apply Qeq_eqR in E. rewrite E, RMicromega.Q2R_0. f_equal. field. lra.
Qed.

Lemma rms_std_err_num b S n :
  0 <= S -> (0 < n)%nat -> rms_std_err b S n = Ok (PyNum (sqrt (Q2R (S / Q_of_nat n)))).
Proof.
  intros HS Hn. unfold rms_std_err.
  destruct (Nat.eqb_spec n 0) as [|_]; [lia|].
  destruct (Qgt_bool 0 (S / Q_of_nat n)) eqn:G; [|reflexivity].
  apply Qgt_bool_iff in G. exfalso. apply (Qlt_not_le _ _ G).
  apply Qle_shift_div_l; [apply Q_of_nat_pos; exact Hn|]. rewrite Qmult_0_l. exact HS.
Qed.

Lemma rms_std_err_raise S n se : rms_std_err true S n = Ok se -> (0 < n)%nat.
Proof. unfold rms_std_err. destruct (Nat.eqb_spec n 0); [discriminate|lia]. Qed.

(** C9 (amended): the base-class [GenerateStats] adds to
    [num_classifications] without resetting it.  For a regression
    experiment starting from [num_classifications = 0] whose splits total
    [m] results, two successful calls (whatever numpy's error mode before
    the first and whatever scipy returns) leave [num_classifications = 2m],
    and the second [std_err] is the root of the same squared-error sum [S]
    divided by [2m] instead of [m]: it differs from the first exactly when
    [S] is not zero (a perfect fit reports 0 both times).  The
    classification [GenerateStats] resets the count, so a second call
    leaves [num_classifications] unchanged. *)
Theorem GenerateStats_twice ord linregress spearmanr np0 e :
  num_classifications e = 0%nat ->
  (forall e1 e2 np1 np2,
     reg_GenerateStats ord linregress spearmanr np0 e = Ok (e1, np1) ->
     reg_GenerateStats ord linregress spearmanr np1 e1 = Ok (e2, np2) ->
     let m := total_results (individual_results e) in
     exists diffs,
       np_sub (ground_truth_values e1) (predicted_values e1) = Ok diffs
       /\ let S := Qsum (map (fun d => d * d) diffs) in
          num_classifications e1 = m
          /\ num_classifications e2 = (m + m)%nat
          /\ std_err e1 = Some (PyNum (sqrt (Q2R (S / Q_of_nat m))))
          /\ std_err e2 = Some (PyNum (sqrt (Q2R (S / Q_of_nat (m + m)))))
          /\ (std_err e2 = std_err e1 <-> S == 0))
  /\ (forall c1 c2,
        cls_GenerateStats ord e = Ok c1 -> cls_GenerateStats ord c1 = Ok c2 ->
        num_classifications c2 = num_classifications c1).
Proof.
  intros H0. split.
  - intros e1 e2 np1 np2 H1 H2 m.
    apply reg_GenerateStats_Ok in H1 as (e0 & d0 & se0 & B0 & D0 & S0 & -> & ->).
    apply reg_GenerateStats_Ok in H2 as (e0' & d0' & se1 & B0' & D0' & S1 & -> & _).
    pose proof (base_GenerateStats_num _ _ _ B0) as Hn0.
    pose proof (base_GenerateStats_num _ _ _ B0') as Hn0'.
    destruct (base_GenerateStats_Ok _ _ _ B0) as (Hb & _).
    simpl in Hn0'. rewrite Hb, Hn0, H0 in Hn0'. rewrite H0 in Hn0. simpl in Hn0, Hn0'.
    destruct (base_GenerateStats_again _ _ _ _ _ B0 B0' Hb eq_refl eq_refl) as [Hg Hp].
    simpl in Hg, Hp. rewrite Hg, Hp, D0 in D0'. injection D0' as <-.
    fold m in Hn0, Hn0'. rewrite Hn0 in S0. rewrite Hn0' in S1.
    assert (Hm : (0 < m)%nat) by (apply rms_std_err_raise in S1; lia).
    rewrite (rms_std_err_num _ _ _ (Qsum_squares_nonneg d0) Hm) in S0.
    rewrite (rms_std_err_num _ _ (m + m) (Qsum_squares_nonneg d0) ltac:(lia)) in S1.
    injection S0 as <-. injection S1 as <-.
    exists d0. simpl. split; [exact D0|].
    rewrite Hn0, Hn0'.
    do 4 (split; [reflexivity|]).
    split.
    + intros E. injection E as E.
      apply (sqrt_mean_halved _ m (Qsum_squares_nonneg d0)); [lia|exact E].
    + intros E. do 2 f_equal. apply (sqrt_mean_halved _ m (Qsum_squares_nonneg d0)); [lia|exact E].
  - intros c1 c2 H1 H2.
    apply cls_GenerateStats_Ok in H1, H2. cbv zeta in H1, H2.
    destruct H1 as (_ & Hn1 & _ & _ & _ & Ht1 & Htr1 & Hb1 & _).
    destruct H2 as (_ & Hn2 & _).
    rewrite Hn2, Ht1, Htr1, Hb1, Hn1. reflexivity.
Qed.

Lemma GenerateStats_twice_witness :
  exists e1 e2 np1 np2,
    reg_GenerateStats py2_dict_order scipy_returns scipy_returns false ex_inexact_regression
    = Ok (e1, np1)
    /\ reg_GenerateStats py2_dict_order scipy_returns scipy_returns np1 e1 = Ok (e2, np2)
    /\ num_classifications e1 = 3%nat /\ num_classifications e2 = 6%nat
    /\ std_err e2 <> std_err e1.
Proof.
  destruct (reg_GenerateStats py2_dict_order scipy_returns scipy_returns false ex_inexact_regression)
    as [[e1 np1]|err] eqn:E1; [|cbv -[sqrt Q2R] in E1; discriminate].
  destruct (reg_GenerateStats py2_dict_order scipy_returns scipy_returns np1 e1)
    as [[e2 np2]|err] eqn:E2;
    [|cbv -[sqrt Q2R] in E1; injection E1 as <- <-; cbv -[sqrt Q2R] in E2; discriminate].
  destruct (proj1 (GenerateStats_twice py2_dict_order scipy_returns scipy_returns false
                     ex_inexact_regression eq_refl) e1 e2 np1 np2 E1 E2)
    as (diffs & D & Hn1 & Hn2 & _ & _ & Hiff).
  exists e1, e2, np1, np2. split; [reflexivity|]. split; [exact E2|].
  rewrite Hn1, Hn2. split; [reflexivity|]. split; [reflexivity|].
  intros Eq. apply Hiff in Eq.
  cbv -[sqrt Q2R] in E1. injection E1 as <- <-. cbv -[sqrt Q2R] in D. injection D as <-.
  vm_compute in Eq. discriminate.
Defined.

(* ================================================================== *)
(** * Properties of the remaining code *)

(** ** Association-list dicts *)

Section DictLemmas.
Context {K V : Type} (eqk : K -> K -> bool).
Hypothesis eqk_spec : forall a b, eqk a b = true <-> a = b.

Lemma eqk_refl a : eqk a a = true.
Proof. apply eqk_spec. reflexivity. Qed.

Lemma dlookup_dset (k k' : K) (v : V) d :
  dlookup eqk k (dset eqk k' v d) = if eqk k' k then Some v else dlookup eqk k d.
Proof.
  induction d as [|[k1 v1] d IH]; simpl.
  - destruct (eqk k' k); reflexivity.
  - destruct (eqk k1 k') eqn:E1.
    + apply eqk_spec in E1. subst k1. simpl. destruct (eqk k' k); reflexivity.
    + simpl. destruct (eqk k1 k) eqn:E2; [|exact IH].
      apply eqk_spec in E2. subst k1.
      destruct (eqk k' k) eqn:E3; [|reflexivity].
      apply eqk_spec in E3. subst k'. rewrite eqk_refl in E1. discriminate.
Qed.

Lemma dget_dlookup (dflt : V) k d :
  dget eqk dflt k d = match dlookup eqk k d with Some v => v | None => dflt end.
Proof.
  induction d as [|[k1 v1] d IH]; simpl; [reflexivity|].
  destruct (eqk k1 k); [reflexivity|exact IH].
Qed.
End DictLemmas.

(** ** [PredictedValuesGraph.__init__] *)

Lemma matching_coords_nil vals i : matching_coords vals i [] = [].
Proof. unfold matching_coords. destruct (nth_error vals i); reflexivity. Qed.

Lemma group_class_ok vals idx name whole d d' l0 :
  group_class vals idx name whole d = POk d' ->
  dlookup String.eqb name d = Some l0 ->
  forall k, dlookup String.eqb k d'
            = if String.eqb name k then Some (l0 ++ matching_coords vals idx whole)
              else dlookup String.eqb k d.
Proof.
  revert d l0. induction whole as [|c whole IH]; intros d l0 H Hl k; simpl in H.
  - injection H as <-. rewrite matching_coords_nil, app_nil_r.
    destruct (String.eqb_spec name k); [subst; exact Hl|reflexivity].
  - destruct (nth_error vals idx) as [v|] eqn:Hv; [|discriminate].
    unfold matching_coords. rewrite Hv. simpl.
    destruct (Qeq_bool (fst c) v) eqn:Ec.
    + rewrite (dget_dlookup String.eqb), Hl in H.
      specialize (IH _ (l0 ++ [c]) H).
      rewrite (dlookup_dset String.eqb String.eqb_eq), String.eqb_refl in IH.
      specialize (IH eq_refl k). rewrite IH. unfold matching_coords. rewrite Hv.
      rewrite (dlookup_dset String.eqb String.eqb_eq).
      destruct (String.eqb name k); [rewrite <- app_assoc; reflexivity|reflexivity].
    + specialize (IH _ l0 H Hl k). unfold matching_coords in IH. rewrite Hv in IH. exact IH.
Qed.

Lemma group_loop_ok vals idx names whole d d' :
  NoDup names ->
  group_loop vals idx names whole d = POk d' ->
  (forall j name, nth_error names j = Some name ->
     dlookup String.eqb name d' = Some (matching_coords vals (idx + j) whole))
  /\ (forall k, ~ In k names -> dlookup String.eqb k d' = dlookup String.eqb k d).
Proof.
  intros Hnd. revert idx d. induction Hnd as [|name names Hn Hnd IH]; intros idx d H; simpl in H.
  - injection H as <-. split; [intros [|j] name E; discriminate|reflexivity].
  - destruct (group_class vals idx name whole (dset String.eqb name [] d)) as [d2|err] eqn:G;
      simpl in H; [|discriminate].
    assert (G2 := group_class_ok _ _ _ _ _ _ [] G).
    rewrite (dlookup_dset String.eqb String.eqb_eq), String.eqb_refl in G2.
    specialize (G2 eq_refl).
    destruct (IH (S idx) d2 H) as [H1 H2].
    split.
    + intros [|j] name' E; simpl in E.
      * injection E as <-. rewrite (H2 name Hn), G2, String.eqb_refl, Nat.add_0_r. reflexivity.
      * rewrite (H1 j name' E). f_equal. f_equal. lia.
    + intros k Hk. rewrite (H2 k (fun I => Hk (or_intror I))), G2.
      destruct (String.eqb_spec name k) as [->|Hne]; [exfalso; apply Hk; left; reflexivity|].
      rewrite (dlookup_dset String.eqb String.eqb_eq).
      destruct (String.eqb_spec name k); [contradiction|reflexivity].
Qed.

Lemma group_class_result vals idx name whole d :
  match group_class vals idx name whole d with
  | POk _ => whole = [] \/ (idx < List.length vals)%nat
  | PErr e => e = IndexError /\ whole <> [] /\ (List.length vals <= idx)%nat
  end.
Proof.
  revert d. induction whole as [|c whole IH]; intros d; simpl; [left; reflexivity|].
  destruct (nth_error vals idx) as [v|] eqn:Hv.
  - specialize (IH (if Qeq_bool (fst c) v then dset String.eqb name (dget String.eqb [] name d ++ [c]) d else d)).
    destruct (group_class _ _ _ _ _).
    + right. apply nth_error_Some. rewrite Hv. discriminate.
    + destruct IH as (_ & _ & Hle). apply nth_error_None in Hle. congruence.
  - split; [reflexivity|]. split; [discriminate|]. apply nth_error_None. exact Hv.
Qed.

Lemma group_loop_result vals idx names whole d :
  match group_loop vals idx names whole d with
  | POk _ => whole = [] \/ (forall j, j < List.length names -> idx + j < List.length vals)%nat
  | PErr e => e = IndexError /\ whole <> [] /\ (List.length vals < idx + List.length names)%nat
  end.
Proof.
  revert idx d. induction names as [|name names IH]; intros idx d; simpl.
  - right. intros j Hj. simpl in Hj. lia.
  - assert (G := group_class_result vals idx name whole (dset String.eqb name [] d)).
    destruct (group_class _ _ _ _ _) as [d2|err]; simpl.
    + specialize (IH (S idx) d2).
      destruct (group_loop _ _ _ _ _).
      * destruct IH as [Hw|Hall]; [left; exact Hw|].
        destruct G as [Hw|Hlt]; [left; exact Hw|].
        right. intros [|j] Hj; [lia|]. specialize (Hall j). simpl in Hj. lia.
      * destruct IH as (-> & Hw & Hlt). split; [reflexivity|]. split; [exact Hw|]. lia.
    + destruct G as (-> & Hw & Hle). split; [reflexivity|]. split; [exact Hw|]. lia.
Qed.

(** X1: for duplicate-free class names, [grouped_coords[class_name]]
    is the list of the [(ground truth, predicted value)] pairs, in order,
    whose ground truth equals that class's value; no other key is set. *)
Theorem PredictedValuesGraph_grouped_coords_groups names vals gts pvs grouped :
  NoDup names ->
  PredictedValuesGraph_grouped_coords names vals gts pvs = POk grouped ->
  (forall i name, nth_error names i = Some name ->
     dlookup String.eqb name grouped = Some (matching_coords vals i (combine gts pvs)))
  /\ (forall k, ~ In k names -> dlookup String.eqb k grouped = None).
Proof.
  intros Hnd H. destruct (group_loop_ok _ _ _ _ _ _ Hnd H) as [H1 H2]. split.
  - intros i name E. rewrite (H1 i name E). reflexivity.
  - intros k Hk. rewrite (H2 k Hk). reflexivity.
Qed.

(** X2: the grouping raises only [IndexError], and does so exactly
    when there is at least one coordinate pair and fewer class values than
    class names. *)
Theorem PredictedValuesGraph_grouped_coords_IndexError names vals gts pvs :
  (forall e, PredictedValuesGraph_grouped_coords names vals gts pvs = PErr e -> e = IndexError)
  /\ (PredictedValuesGraph_grouped_coords names vals gts pvs = PErr IndexError
      <-> combine gts pvs <> [] /\ (List.length vals < List.length names)%nat).
Proof.
  unfold PredictedValuesGraph_grouped_coords.
  assert (R := group_loop_result vals 0 names (combine gts pvs) []).
  destruct (group_loop _ _ _ _ _) as [d|err].
  - split; [intros e E; discriminate|]. split; [intros E; discriminate|].
    intros [Hw Hlt]. destruct R as [Hn|Hall]; [contradiction|].
    specialize (Hall (List.length vals) Hlt). lia.
  - destruct R as (-> & Hw & Hlt). split; [intros e E; injection E as <-; reflexivity|].
    split; [intros _; split; [exact Hw|lia]|reflexivity].
Qed.

(** ** [RankOrderedPredictedValuesGraph] *)

Lemma map_seq_offset {A} (f : nat -> A) s n :
  map f (seq s n) = map (fun i => f (s + i)%nat) (seq 0 n).
Proof.
  revert s. induction n as [|n IH]; intros s; [reflexivity|].
  simpl. rewrite IH, Nat.add_0_r. f_equal.
  rewrite <- seq_shift, map_map. apply map_ext. intros i. f_equal. lia.
Qed.

Lemma rank_ordered_points_ok grouped a names pts :
  rank_ordered_points grouped a names = POk pts ->
  Forall2 (fun name p => exists coords, dlookup String.eqb name grouped = Some coords
             /\ coords <> [] /\ snd p = map snd coords /\ List.length (fst p) = List.length coords)
          names pts
  /\ List.concat (map fst pts)
     = map (fun i => Z.of_nat i + a)%Z (seq 0 (List.length (List.concat (map snd pts)))).
Proof.
  revert a pts. induction names as [|name names IH]; intros a pts H; simpl in H.
  - injection H as <-. split; [constructor|reflexivity].
  - destruct (dlookup String.eqb name grouped) as [[|c coords]|] eqn:L; try discriminate.
    destruct (rank_ordered_points _ _ names) as [rest|err] eqn:R; simpl in H; [|discriminate].
    injection H as <-. destruct (IH _ _ R) as [F C]. split.
    + constructor; [|exact F]. exists (c :: coords). split; [exact L|].
      split; [discriminate|]. simpl. rewrite !length_map, length_seq. split; reflexivity.
    + simpl. rewrite C, length_app, seq_app, map_app, !length_map. f_equal.
      rewrite (map_seq_offset _ (S (List.length coords))). f_equal. apply map_ext. intros i. cbn [List.length]. rewrite Nat2Z.inj_add, Nat2Z.inj_succ. lia.
Qed.

(** X3: when [RankOrderedPredictedValuesGraph] gets through its loop,
    every listed class has a non-empty group (an empty one raises), each
    class's points are its group's predicted values, and the x positions of
    all classes, in class order, are exactly [1, 2, ..., N] for the [N]
    points plotted. *)
Theorem RankOrderedPredictedValuesGraph_positions names grouped pts :
  RankOrderedPredictedValuesGraph_points names grouped = POk pts ->
  Forall2 (fun name p => exists coords, dlookup String.eqb name grouped = Some coords
             /\ coords <> [] /\ snd p = map snd coords /\ List.length (fst p) = List.length coords)
          names pts
  /\ List.concat (map fst pts) = map Z.of_nat (seq 1 (List.length (List.concat (map snd pts)))).
Proof.
  intros H. destruct (rank_ordered_points_ok _ _ _ _ H) as [F C]. split; [exact F|].
  rewrite C, <- seq_shift, map_map. apply map_ext. intros i. lia.
Qed.

(** ** [AccuracyVersusNumFeaturesGraph.__init__] *)

(** X4: [AccuracyVersusNumFeaturesGraph.__init__] never returns
    normally, whatever its arguments and whatever the calls it makes do. *)
Theorem AccuracyVersusNumFeaturesGraph_never_returns mk tr ps n_weights min_nf max_nf step :
  AccuracyVersusNumFeaturesGraph_init mk tr ps n_weights min_nf max_nf step <> POk tt.
Proof.
  unfold AccuracyVersusNumFeaturesGraph_init.
  destruct mk as [[]|e]; simpl; [|discriminate].
  destruct (py_range _ _ _) as [[|n xs]|e]; simpl; [| |discriminate].
  - destruct ps as [[]|e]; simpl; discriminate.
  - unfold avnf_loop. destruct (tr n); simpl; discriminate.
Qed.

(** X5: once the experiments are built, a non-empty range of feature
    counts whose first [Threshold]/[FeatureReduce] succeeds ends in
    [NameError]; an empty range ends in [ValueError] from [min([])]. *)
Theorem AccuracyVersusNumFeaturesGraph_errors mk tr ps n_weights min_nf max_nf step xs :
  mk = POk tt ->
  py_range min_nf (match max_nf with Some m => m | None => n_weights end + 1) step = Ok xs ->
  (forall n rest, xs = n :: rest -> tr n = POk tt ->
     AccuracyVersusNumFeaturesGraph_init mk tr ps n_weights min_nf max_nf step = PErr NameError)
  /\ (xs = [] -> ps = POk tt ->
     AccuracyVersusNumFeaturesGraph_init mk tr ps n_weights min_nf max_nf step
     = PErr (PyErr ValueError)).
Proof.
  intros Hmk Hr. unfold AccuracyVersusNumFeaturesGraph_init. rewrite Hmk. simpl. rewrite Hr. simpl.
  split.
  - intros n rest -> Ht. unfold avnf_loop. rewrite Ht. reflexivity.
  - intros -> Hp. simpl. rewrite Hp. reflexivity.
Qed.

(** ** The feature-weight tables of [Print] *)

Lemma enumerate_from_fst {A} (l : list A) s : map fst (enumerate_from s l) = seq s (List.length l).
Proof. revert s. induction l as [|x l IH]; intros s; simpl; [reflexivity|]. rewrite IH. reflexivity. Qed.

Lemma enumerate_from_snd {A} (l : list A) s : map snd (enumerate_from s l) = l.
Proof. revert s. induction l as [|x l IH]; intros s; simpl; [reflexivity|]. rewrite IH. reflexivity. Qed.

Lemma enumerate_from_length {A} (l : list A) s : List.length (enumerate_from s l) = List.length l.
Proof. revert s. induction l as [|x l IH]; intros s; simpl; [reflexivity|]. rewrite IH. reflexivity. Qed.

(** X6: for a non-negative [display], classification [Print] shows no
    feature table when there are no statistics or [display] is 0; otherwise
    it announces [min(n, display)] features and prints the first
    [display] statistics (all of them if fewer), ranked from 1. *)
Theorem print_fw_table_nonneg fws display :
  (0 <= display)%Z ->
  print_fw_table fws display
  = match fws with
    | Some ((_ :: _) as l) =>
        if Z.eqb display 0 then None
        else Some (Z.min (Z.of_nat (List.length l)) display,
                   enumerate_from 1 (firstn (Z.to_nat display) l))
    | _ => None
    end.
Proof.
  intros Hd. destruct fws as [[|x l]|]; [reflexivity| |reflexivity].
  unfold print_fw_table. set (l' := x :: l). set (n := Z.of_nat (List.length l')).
  assert (Hn : (0 < n)%Z) by (unfold n, l'; simpl; lia).
  destruct (Z.leb_spec n display) as [Hle|Hgt].
  - rewrite (proj2 (Z.ltb_lt 0 n) Hn).
    rewrite (proj2 (Z.eqb_neq n 0)) by lia. rewrite (proj2 (Z.eqb_neq display 0)) by lia.
    rewrite Z.min_l by exact Hle. unfold py_slice_to.
    rewrite (proj2 (Z.leb_le 0 n)) by lia.
    rewrite !firstn_all2; [reflexivity| |]; unfold n in *; lia.
  - rewrite Z.min_r by lia. destruct (Z.eqb display 0); [reflexivity|].
    unfold py_slice_to. rewrite (proj2 (Z.leb_le 0 display) Hd). reflexivity.
Qed.

(** X7: a negative [display] is kept as it is, so the header
    announces a negative count and the table lists every statistic but the
    last [-display] ones ([fws[:display]]). *)
Theorem print_fw_table_negative l display :
  (display < 0)%Z -> l <> [] ->
  print_fw_table (Some l) display
  = Some (display, enumerate_from 1 (firstn (List.length l - Z.to_nat (- display)) l)).
Proof.
  intros Hd Hl. destruct l as [|x l]; [contradiction|].
  unfold print_fw_table.
  rewrite (proj2 (Z.leb_gt (Z.of_nat (List.length (x :: l))) display)) by lia.
  rewrite (proj2 (Z.eqb_neq display 0)) by lia.
  unfold py_slice_to. rewrite (proj2 (Z.leb_gt 0 display)) by lia.
  assert (E : Z.to_nat (Z.of_nat (List.length (x :: l)) + display)
              = (List.length (x :: l) - Z.to_nat (- display))%nat) by (cbn [List.length]; lia).
  rewrite E. reflexivity.
Qed.

Lemma mean_desc_trans x y w : mean_desc x y -> mean_desc y w -> mean_desc x w.
Proof. unfold mean_desc. intros H1 H2. eapply Qle_trans; eassumption. Qed.

Lemma in_skipn_in {A} (l : list A) k y : In y (skipn k l) -> In y l.
Proof. intros H. rewrite <- (firstn_skipn k l). apply in_or_app. right. exact H. Qed.

Lemma sorted_firstn_skipn l k x y :
  Sorted mean_desc l -> In x (firstn k l) -> In y (skipn k l) -> mean_desc x y.
Proof.
  intros H. apply Sorted_StronglySorted in H; [|intros a b c; apply mean_desc_trans].
  revert k. induction H as [|a l Hs IH Hall]; intros k Hx Hy.
  - destruct k; simpl in Hx; contradiction.
  - destruct k as [|k]; simpl in Hx; [contradiction|].
    destruct Hx as [<-|Hx].
    + simpl in Hy. apply (proj1 (Forall_forall _ l) Hall). eapply in_skipn_in. exact Hy.
    + exact (IH k Hx Hy).
Qed.

Lemma cls_GenerateStats_fws ord e e' :
  cls_GenerateStats ord e = Ok e' ->
  exists e0, base_GenerateStats ord e = Ok e0
             /\ feature_weight_statistics e' = feature_weight_statistics e0.
Proof.
  unfold cls_GenerateStats. destruct (base_GenerateStats ord e) as [e0|err]; [rewrite bind_Ok|discriminate].
  destruct (finalize_avg _ _ _ _); [rewrite bind_Ok|discriminate].
  destruct (if str_list_eqb _ _ then _ else _); [rewrite bind_Ok|discriminate].
  destruct (py_fdiv _ _); [rewrite bind_Ok|discriminate].
  intros H. injection H as <-. exists e0. split; reflexivity.
Qed.

(** X8: when classification [Print] runs on an experiment whose
    statistics have not been generated yet and prints a feature table, the
    rows are ranked [1, 2, ...], are the first entries of the
    [feature_weight_statistics] that [GenerateStats] computed, and no
    feature left out has a larger mean than one printed. *)
Theorem cls_Print_top_features ord pm e display iv d rows :
  classification_accuracy (cls e) = None ->
  cls_Print ord pm e display = POk (iv, Some (d, rows)) ->
  exists e' l, cls_GenerateStats ord e = Ok e'
    /\ feature_weight_statistics e' = Some l
    /\ map fst rows = seq 1 (List.length rows)
    /\ map snd rows = firstn (List.length rows) l
    /\ (forall x y, In x (map snd rows) -> In y (skipn (List.length rows) l) ->
          fw_mean y <= fw_mean x).
Proof.
  intros Hnone H. unfold cls_Print in H. rewrite Hnone in H.
  destruct (cls_GenerateStats ord e) as [e'|err] eqn:G; simpl in H; [|discriminate].
  destruct (pbind (if use_error_bars e' then _ else _) _) as [[iv' table]|err] eqn:P;
    [|discriminate].
  assert (Ht : print_fw_table (feature_weight_statistics e') display = Some (d, rows)).
  { destruct (if use_error_bars e' then _ else _) as [iv0|err0]; simpl in P; [|discriminate].
    destruct (lift (pm e')); simpl in P; [|discriminate].
    injection P as <- <-. injection H as _ <-. reflexivity. }
  destruct (cls_GenerateStats_fws _ _ _ G) as (e0 & B & Hf).
  destruct (base_GenerateStats_Ok_stats _ _ _ B) as (stats & _ & Hs).
  rewrite Hf, Hs in Ht.
  exists e', (sort_by_mean_desc stats). split; [reflexivity|].
  split; [rewrite Hf, Hs; reflexivity|].
  set (l := sort_by_mean_desc stats) in *.
  assert (Hrows : exists k, rows = enumerate_from 1 (firstn k l)).
  { unfold print_fw_table in Ht. destruct l as [|x l']; [discriminate|].
    destruct (Z.eqb _ 0); [discriminate|]. injection Ht as _ <-.
    unfold py_slice_to. destruct (Z.leb 0 _); eexists; reflexivity. }
  destruct Hrows as [k ->].
  rewrite enumerate_from_fst, enumerate_from_snd, enumerate_from_length.
  assert (Hk : firstn (List.length (firstn k l)) l = firstn k l).
  { rewrite length_firstn. destruct (Nat.le_ge_cases k (List.length l)).
    - rewrite Nat.min_l by assumption. reflexivity.
    - rewrite Nat.min_r by assumption. rewrite firstn_all, firstn_all2 by assumption. reflexivity. }
  split; [reflexivity|]. split; [symmetry; exact Hk|].
  intros x y Hx Hy. rewrite <- Hk in Hx.
  exact (sorted_firstn_skipn l _ x y (sort_by_mean_desc_sorted stats) Hx Hy).
Qed.

Lemma print_upto_50_firstn c l :
  (1 <= c <= 50)%nat -> print_upto_50 c l = enumerate_from c (firstn (51 - c) l).
Proof.
  revert c. induction l as [|x l IH]; intros c Hc.
  - rewrite firstn_nil. reflexivity.
  - replace (51 - c)%nat with (S (50 - c)) by lia.
    cbn [print_upto_50 firstn enumerate_from]. f_equal.
    destruct (Nat.leb_spec 50 c).
    + replace (50 - c)%nat with 0%nat by lia. reflexivity.
    + rewrite IH by lia. replace (51 - S c)%nat with (50 - c)%nat by lia. reflexivity.
Qed.

Lemma reg_GenerateStats_fws ord lr sp b e e1 b1 :
  reg_GenerateStats ord lr sp b e = Ok (e1, b1) ->
  exists e0, base_GenerateStats ord e = Ok e0
             /\ feature_weight_statistics e1 = feature_weight_statistics e0.
Proof.
  intros H. destruct (reg_GenerateStats_Ok _ _ _ _ _ _ _ H) as (e0 & diffs & se & B & _ & _ & -> & _).
  exists e0. split; [exact B|reflexivity].
Qed.

(** X9: regression [Print] prints at most 50 feature rows: the
    first 50 entries of [feature_weight_statistics], ranked from 1; when it
    had to run [GenerateStats] first (whatever numpy's mode and scipy's
    results), that list is sorted by non-increasing mean, so the rows are
    the 50 top features. *)
Theorem reg_Print_table ord linregress spearmanr np_raise e rows :
  reg_Print ord linregress spearmanr np_raise e = POk rows ->
  exists l, rows = enumerate_from 1 (firstn 50 l)
    /\ (std_err e = None -> exists e1 np1,
          reg_GenerateStats ord linregress spearmanr np_raise e = Ok (e1, np1)
          /\ feature_weight_statistics e1 = Some l /\ Sorted mean_desc l)
    /\ (forall r, std_err e = Some r -> feature_weight_statistics e = Some l).
Proof.
  unfold reg_Print. destruct (std_err e) as [r|] eqn:Hse; simpl.
  - destruct (feature_weight_statistics e) as [l|] eqn:Hf; intros H; [|discriminate].
    injection H as <-. exists l. rewrite print_upto_50_firstn by lia.
    split; [reflexivity|]. split; [discriminate|]. intros r' _. reflexivity.
  - destruct (reg_GenerateStats ord linregress spearmanr np_raise e) as [[e1 np1]|err] eqn:G;
      simpl; [|discriminate].
    destruct (feature_weight_statistics e1) as [l|] eqn:Hf; intros H; [|discriminate].
    injection H as <-. exists l. rewrite print_upto_50_firstn by lia.
    split; [reflexivity|]. split; [|discriminate].
    intros _. exists e1, np1. split; [reflexivity|]. split; [exact Hf|].
    destruct (reg_GenerateStats_fws _ _ _ _ _ _ _ G) as (e0 & B & Hf0).
    destruct (base_GenerateStats_Ok_stats _ _ _ B) as (stats & _ & Hs).
    rewrite Hf0, Hs in Hf. injection Hf as <-. apply sort_by_mean_desc_sorted.
Qed.

(** ** Argument checks of [NewShuffleSplit] *)

Lemma py2_int_round_bounds x :
  0 <= x ->
  inject_Z (py2_int_round x) <= x + (1 # 2) /\ x + (1 # 2) < inject_Z (py2_int_round x) + 1.
Proof.
  intros Hx. unfold py2_int_round.
  rewrite (proj2 (Qle_bool_iff 0 x) Hx).
  split; [apply Qfloor_le|].
  assert (H := Qlt_floor (x + (1 # 2))). rewrite inject_Z_plus in H. exact H.
Qed.

Lemma shuffle_split_num_features_ok fs nf k :
  (0 <= nf)%Z ->
  shuffle_split_num_features fs nf = Ok k ->
  features_size_valid fs nf /\ (0 <= k <= nf)%Z
  /\ (forall q, fs = FSFloat q -> Qabs (inject_Z k - q * inject_Z nf) <= 1 # 2).
Proof.
  intros Hnf. destruct fs as [q|k'|]; simpl.
  - destruct (Qgt_bool 0 q) eqn:B1; [discriminate|].
    destruct (Qgt_bool q 1) eqn:B2; [discriminate|]. intros H. injection H as <-.
    assert (Hq0 : 0 <= q) by (apply Qnot_lt_le; intros C; apply Qgt_bool_iff in C; congruence).
    assert (Hq1 : q <= 1) by (apply Qnot_lt_le; intros C; apply Qgt_bool_iff in C; congruence).
    assert (Hn : 0 <= inject_Z nf) by (change 0 with (inject_Z 0); rewrite <- Zle_Qle; exact Hnf).
    set (x := q * inject_Z nf).
    assert (Hx0 : 0 <= x) by (apply Qmult_le_0_compat; assumption).
    assert (Hx1 : x <= inject_Z nf).
    { unfold x. setoid_replace (inject_Z nf) with (1 * inject_Z nf) at 2 by ring.
      apply Qmult_le_compat_r; assumption. }
    destruct (py2_int_round_bounds x Hx0) as [L U].
    set (k := py2_int_round x) in *.
    assert (A : Qabs (inject_Z k - x) <= 1 # 2).
    { apply (proj2 (Qabs_Qle_condition _ _)). split; Lqa.lra. }
    split; [split; assumption|]. split; [split|].
    + assert (C : inject_Z (-1) < inject_Z k) by (change (inject_Z (-1)) with (- (1)); Lqa.lra).
      rewrite <- Zlt_Qlt in C. lia.
    + assert (C : inject_Z k < inject_Z (nf + 1)) by (rewrite inject_Z_plus; change (inject_Z 1) with 1; Lqa.lra).
      rewrite <- Zlt_Qlt in C. lia.
    + intros q' E. injection E as <-. exact A.
  - destruct (Z.ltb k' 0 || Z.ltb nf k')%bool eqn:B; [discriminate|]. intros H. injection H as <-.
    apply orb_false_iff in B as [B1 B2]. apply Z.ltb_ge in B1, B2.
    split; [lia|]. split; [lia|]. intros q E; discriminate.
  - discriminate.
Qed.

Lemma shuffle_split_error_bars_ok rs u :
  shuffle_split_error_bars rs = Ok u -> (u = false <-> rs = RSFalsy \/ rs = RSInt 0).
Proof.
  destruct rs as [|k| | |]; simpl; intros H; try (injection H as <-).
  - split; [discriminate|]. intros [E|E]; discriminate.
  - destruct (Z.eqb_spec k 0) as [->|Hk]; injection H as <-.
    + split; [intros _; right; reflexivity|reflexivity].
    + split; [discriminate|]. intros [E|E]; [discriminate|]. injection E as E. contradiction.
  - split; [discriminate|]. intros [E|E]; discriminate.
  - split; [intros _; left; reflexivity|reflexivity].
  - discriminate.
Qed.

(** X10: when [NewShuffleSplit] gets past its argument checks (for
    a feature space with [nf >= 0] features), [features_size] was valid, the
    number of features used lies in [0, nf] and, for a float fraction, is
    [fraction * nf] rounded to the nearest integer; error bars are used
    unless [random_state] is falsy. *)
Theorem NewShuffleSplit_args_ok fs nf rs k u :
  (0 <= nf)%Z ->
  NewShuffleSplit_args fs nf rs = Ok (k, u) ->
  features_size_valid fs nf /\ (0 <= k <= nf)%Z
  /\ (forall q, fs = FSFloat q -> Qabs (inject_Z k - q * inject_Z nf) <= 1 # 2)
  /\ (u = false <-> rs = RSFalsy \/ rs = RSInt 0).
Proof.
  intros Hnf. unfold NewShuffleSplit_args.
  destruct (shuffle_split_num_features fs nf) as [k'|err] eqn:F; [rewrite bind_Ok|discriminate].
  destruct (shuffle_split_error_bars rs) as [u'|err] eqn:U; [rewrite bind_Ok|discriminate].
  intros H. injection H as <- <-.
  destruct (shuffle_split_num_features_ok _ _ _ Hnf F) as (V & B & R).
  split; [exact V|]. split; [exact B|]. split; [exact R|].
  exact (shuffle_split_error_bars_ok _ _ U).
Qed.

(** X11: [NewShuffleSplit]'s argument checks raise only
    [ValueError], and do so exactly when [features_size] is invalid (a
    float outside [0, 1], an int outside [0, nf], any other type) or
    [random_state] is truthy but neither [True], an int nor a
    [RandomState]. *)
Theorem NewShuffleSplit_args_error fs nf rs e :
  NewShuffleSplit_args fs nf rs = Err e
  <-> e = ValueError /\ (~ features_size_valid fs nf \/ rs = RSOtherTruthy).
Proof.
  unfold NewShuffleSplit_args.
  assert (Fv : forall k, shuffle_split_num_features fs nf = Ok k -> features_size_valid fs nf).
  { intros k. destruct fs as [q|k'|]; simpl.
    - destruct (Qgt_bool 0 q) eqn:B1; [discriminate|].
      destruct (Qgt_bool q 1) eqn:B2; [discriminate|]. intros _.
      split; apply Qnot_lt_le; intros C; apply Qgt_bool_iff in C; congruence.
    - destruct (Z.ltb k' 0 || Z.ltb nf k')%bool eqn:B; [discriminate|]. intros _.
      apply orb_false_iff in B as [B1 B2]. apply Z.ltb_ge in B1, B2. lia.
    - discriminate. }
  assert (Fe : forall err, shuffle_split_num_features fs nf = Err err ->
                 err = ValueError /\ ~ features_size_valid fs nf).
  { intros err. destruct fs as [q|k'|]; simpl.
    - destruct (Qgt_bool 0 q) eqn:B1; simpl.
      + intros H. injection H as <-. split; [reflexivity|]. intros [H0 _].
        apply Qgt_bool_iff in B1. apply (Qlt_not_le _ _ B1 H0).
      + destruct (Qgt_bool q 1) eqn:B2; [|discriminate].
        intros H. injection H as <-. split; [reflexivity|]. intros [_ H1].
        apply Qgt_bool_iff in B2. apply (Qlt_not_le _ _ B2 H1).
    - destruct (Z.ltb k' 0 || Z.ltb nf k')%bool eqn:B; [|discriminate].
      intros H. injection H as <-. split; [reflexivity|].
      apply orb_true_iff in B as [B|B]; apply Z.ltb_lt in B; lia.
    - intros H. injection H as <-. split; [reflexivity|]. intros [].
  }
  destruct (shuffle_split_num_features fs nf) as [k|err] eqn:F.
  - rewrite bind_Ok. specialize (Fv k eq_refl).
    destruct rs as [|k'| | |]; simpl.
    + split; [discriminate|]. intros (_ & [C|C]); [contradiction|discriminate].
    + destruct (Z.eqb k' 0); (split; [discriminate|]; intros (_ & [C|C]); [contradiction|discriminate]).
    + split; [discriminate|]. intros (_ & [C|C]); [contradiction|discriminate].
    + split; [discriminate|]. intros (_ & [C|C]); [contradiction|discriminate].
    + split; [intros H; injection H as <-; split; [reflexivity|right; reflexivity]|].
      intros (-> & _). reflexivity.
  - rewrite bind_Err. destruct (Fe err eq_refl) as [-> Hn].
    split; [intros H; injection H as <-; split; [reflexivity|left; exact Hn]|].
    intros (-> & _). reflexivity.
Qed.

(** ** [FeatureWeightsGridSearch] *)

Lemma NoDup_map_inj {A B} (f : A -> B) l :
  (forall x y, f x = f y -> x = y) -> NoDup l -> NoDup (map f l).
Proof.
  intros Hf. induction 1 as [|x l Hx Hnd IH]; simpl; constructor; [|exact IH].
  intros Hin. apply in_map_iff in Hin as (y & Hy & Hin). apply Hf in Hy. subst y. contradiction.
Qed.

Lemma py_range_NoDup a b step ns : py_range a b step = Ok ns -> NoDup ns.
Proof.
  unfold py_range. destruct (Z.eqb_spec step 0) as [|Hs]; [discriminate|].
  intros H. injection H as <-. apply NoDup_map_inj; [|apply seq_NoDup].
  intros x y E. apply Nat2Z.inj. apply (Z.mul_reg_r _ _ step Hs). lia.
Qed.

Section GridSearchProofs.
Variable ord : list string -> list string.
Variable nss : nat -> result Experiment.

Lemma grid_inv0 : grid_inv ord nss 0 grid_state0.
Proof.
  split; [intros j Hj; lia|]. split.
  - intros _. split; [reflexivity|]. intros j e q Hj. lia.
  - intros b E. discriminate.
Qed.

Lemma grid_pass_det j e e' : grid_pass ord nss j = Ok e -> grid_pass ord nss j = Ok e' -> e = e'.
Proof. intros H1 H2. rewrite H1 in H2. injection H2 as <-. reflexivity. Qed.

Lemma grid_inv_step i s exp n :
  grid_inv ord nss i s -> grid_pass ord nss i = Ok exp ->
  grid_inv ord nss (S i)
    (match classification_accuracy (cls exp) with
     | Some a =>
         if Qgt_bool a (gs_max_classification_accuracy s)
         then {| gs_best_exp := Some exp; gs_max_classification_accuracy := a;
                 gs_features_accuracy_dict := n |}
         else {| gs_best_exp := gs_best_exp s;
                 gs_max_classification_accuracy := gs_max_classification_accuracy s;
                 gs_features_accuracy_dict := n |}
     | None =>
         {| gs_best_exp := gs_best_exp s;
            gs_max_classification_accuracy := gs_max_classification_accuracy s;
            gs_features_accuracy_dict := n |}
     end).
Proof.
  intros (Hok & Hnone & Hsome) Hp.
  assert (Hok' : forall j, (j < S i)%nat -> exists e, grid_pass ord nss j = Ok e).
  { intros j Hj. destruct (Nat.eq_dec j i) as [->|Hne]; [exists exp; exact Hp|]. apply Hok. lia. }
  destruct (classification_accuracy (cls exp)) as [a|] eqn:Ha.
  - destruct (Qgt_bool a (gs_max_classification_accuracy s)) eqn:G.
    + apply Qgt_bool_iff in G.
      assert (Hprev : forall j e q, (j < i)%nat -> grid_pass ord nss j = Ok e ->
                        pass_accuracy e = Some q -> q < a).
      { intros j e q Hj He Hq. destruct (gs_best_exp s) as [b|] eqn:Hb.
        - destruct (Hsome b eq_refl) as (k & _ & _ & _ & _ & Hall).
          destruct (Hall j e q Hj He Hq) as [Hle _]. eapply Qle_lt_trans; eassumption.
        - destruct (Hnone eq_refl) as [Hm Hall]. rewrite Hm in G.
          eapply Qle_lt_trans; [exact (Hall j e q Hj He Hq)|exact G]. }
      assert (Hpos : 0 < a).
      { destruct (gs_best_exp s) as [b|] eqn:Hb.
        - destruct (Hsome b eq_refl) as (k & _ & _ & _ & Hp0 & _). eapply Qlt_trans; eassumption.
        - destruct (Hnone eq_refl) as [Hm _]. rewrite Hm in G. exact G. }
      split; [exact Hok'|]. split; [intros E; discriminate|].
      intros b E. injection E as <-. simpl. exists i.
      split; [lia|]. split; [exact Hp|]. split; [exact Ha|]. split; [exact Hpos|].
      intros j e q Hj He Hq. destruct (Nat.eq_dec j i) as [->|Hne].
      * rewrite (grid_pass_det _ _ _ He Hp) in Hq; unfold pass_accuracy in Hq; rewrite Ha in Hq. injection Hq as <-.
        split; [apply Qle_refl|intros C; lia].
      * assert (L := Hprev j e q ltac:(lia) He Hq). split; [apply Qlt_le_weak; exact L|intros _; exact L].
    + assert (Hle : a <= gs_max_classification_accuracy s)
        by (apply Qnot_lt_le; intros C; apply Qgt_bool_iff in C; congruence).
      split; [exact Hok'|]. simpl. split.
      * intros Hb. destruct (Hnone Hb) as [Hm Hall]. split; [exact Hm|].
        intros j e q Hj He Hq. destruct (Nat.eq_dec j i) as [->|Hne].
        -- rewrite (grid_pass_det _ _ _ He Hp) in Hq; unfold pass_accuracy in Hq; rewrite Ha in Hq. injection Hq as <-. rewrite <- Hm. exact Hle.
        -- apply (Hall j e q ltac:(lia) He Hq).
      * intros b Hb. destruct (Hsome b Hb) as (k & Hk & Hpk & Hab & Hp0 & Hall).
        exists k. split; [lia|]. split; [exact Hpk|]. split; [exact Hab|]. split; [exact Hp0|].
        intros j e q Hj He Hq. destruct (Nat.eq_dec j i) as [->|Hne].
        -- rewrite (grid_pass_det _ _ _ He Hp) in Hq; unfold pass_accuracy in Hq; rewrite Ha in Hq. injection Hq as <-.
           split; [exact Hle|intros C; lia].
        -- apply (Hall j e q ltac:(lia) He Hq).
  - split; [exact Hok'|]. simpl. split.
    + intros Hb. destruct (Hnone Hb) as [Hm Hall]. split; [exact Hm|].
      intros j e q Hj He Hq. destruct (Nat.eq_dec j i) as [->|Hne].
      * rewrite (grid_pass_det _ _ _ He Hp) in Hq. unfold pass_accuracy in Hq. congruence.
      * apply (Hall j e q ltac:(lia) He Hq).
    + intros b Hb. destruct (Hsome b Hb) as (k & Hk & Hpk & Hab & Hp0 & Hall).
      exists k. split; [lia|]. split; [exact Hpk|]. split; [exact Hab|]. split; [exact Hp0|].
      intros j e q Hj He Hq. destruct (Nat.eq_dec j i) as [->|Hne].
      * rewrite (grid_pass_det _ _ _ He Hp) in Hq. unfold pass_accuracy in Hq. congruence.
      * apply (Hall j e q ltac:(lia) He Hq).
Qed.

Lemma grid_loop_inv i ns s s' r :
  grid_inv ord nss i s -> grid_loop ord nss i ns s = (s', r) ->
  exists m, (m <= List.length ns)%nat /\ grid_inv ord nss (i + m) s'
    /\ (r = None -> m = List.length ns)
    /\ (forall e, r = Some e -> (m < List.length ns)%nat
          /\ exists e', grid_pass ord nss (i + m) = Err e' /\ e = PyErr e').
Proof.
  revert i s. induction ns as [|n ns IH]; intros i s Hinv H; simpl in H.
  - injection H as <- <-. exists 0%nat. rewrite Nat.add_0_r.
    split; [lia|]. split; [exact Hinv|]. split; [reflexivity|]. intros e E; discriminate.
  - destruct (grid_pass ord nss i) as [exp|err] eqn:Hp.
    + destruct (IH (S i) _ (grid_inv_step i s exp _ Hinv Hp) H) as (m & Hm & Hi & Hn & He).
      exists (S m). simpl. rewrite <- Nat.add_succ_comm. split; [lia|]. split; [exact Hi|].
      split; [intros E; rewrite (Hn E); reflexivity|].
      intros e E. destruct (He e E) as [Hlt He']. split; [lia|]. exact He'.
    + injection H as <- <-. exists 0%nat. rewrite Nat.add_0_r.
      split; [lia|]. split; [exact Hinv|]. split; [intros E; discriminate|].
      intros e E. injection E as <-. split; [simpl; lia|]. exists err. split; [exact Hp|reflexivity].
Qed.

Lemma grid_loop_dict i ns s s' :
  NoDup ns -> grid_loop ord nss i ns s = (s', None) ->
  (forall j n, nth_error ns j = Some n ->
     exists e, grid_pass ord nss (i + j) = Ok e
       /\ dlookup Z.eqb n (gs_features_accuracy_dict s') = Some (pass_accuracy e))
  /\ (forall n, ~ In n ns ->
        dlookup Z.eqb n (gs_features_accuracy_dict s')
        = dlookup Z.eqb n (gs_features_accuracy_dict s)).
Proof.
  intros Hnd. revert i s. induction Hnd as [|n ns Hn Hnd IH]; intros i s H; simpl in H.
  - injection H as <-. split; [intros [|j] m E; discriminate|reflexivity].
  - destruct (grid_pass ord nss i) as [exp|err] eqn:Hp; [|discriminate].
    set (s1 := match classification_accuracy (cls exp) with Some a => _ | None => _ end) in H.
    assert (Hd : gs_features_accuracy_dict s1
                 = dset Z.eqb n (classification_accuracy (cls exp)) (gs_features_accuracy_dict s)).
    { unfold s1. destruct (classification_accuracy (cls exp));
        [destruct (Qgt_bool _ _)|]; reflexivity. }
    destruct (IH (S i) s1 H) as [H1 H2]. split.
    + intros [|j] m E; simpl in E.
      * injection E as <-. exists exp. rewrite Nat.add_0_r. split; [exact Hp|].
        rewrite (H2 n Hn), Hd, (dlookup_dset Z.eqb Z.eqb_eq), Z.eqb_refl. reflexivity.
      * destruct (H1 j m E) as (e & He & Hl). exists e. rewrite <- Nat.add_succ_comm.
        split; [exact He|exact Hl].
    + intros m Hm. rewrite (H2 m (fun I => Hm (or_intror I))), Hd,
        (dlookup_dset Z.eqb Z.eqb_eq).
      destruct (Z.eqb_spec n m) as [->|]; [exfalso; apply Hm; left; reflexivity|reflexivity].
Qed.
End GridSearchProofs.

Lemma grid_pass_ok_err ord nss j e e' :
  grid_pass ord nss j = Ok e -> grid_pass ord nss j = Err e' -> False.
Proof. intros H1 H2. rewrite H1 in H2. discriminate. Qed.

(** X12: when [FeatureWeightsGridSearch] returns, both bounds were
    given, every pass of the loop succeeded, and the experiment returned is
    the first pass's result with the largest accuracy, which is positive:
    no pass has a larger accuracy and every earlier pass a smaller one. *)
Theorem FeatureWeightsGridSearch_best ord nss start stop step best d :
  FeatureWeightsGridSearch ord nss start stop step = POk (best, d) ->
  exists a b ns, start = Some a /\ stop = Some b /\ py_range a b step = Ok ns
  /\ (forall j, (j < List.length ns)%nat -> exists e, grid_pass ord nss j = Ok e)
  /\ exists k q, (k < List.length ns)%nat /\ grid_pass ord nss k = Ok best
     /\ pass_accuracy best = Some q /\ 0 < q
     /\ forall j e q', (j < List.length ns)%nat -> grid_pass ord nss j = Ok e ->
          pass_accuracy e = Some q' -> q' <= q /\ ((j < k)%nat -> q' < q).
Proof.
  unfold FeatureWeightsGridSearch.
  destruct start as [a|]; [|simpl; discriminate]. destruct stop as [b|]; [|simpl; discriminate].
  destruct (py_range a b step) as [ns|err] eqn:R; [|simpl; discriminate].
  destruct (grid_loop ord nss 0 ns grid_state0) as [s r] eqn:L.
  destruct (gs_best_exp s) as [b'|] eqn:B; [|discriminate].
  destruct r as [e|]; [discriminate|]. intros H. injection H as <- _.
  destruct (grid_loop_inv ord nss 0 ns grid_state0 s None (grid_inv0 ord nss) L)
    as (m & Hm & (Hok & _ & Hsome) & Hn & _).
  rewrite (Hn eq_refl) in Hok, Hsome. simpl in Hok, Hsome.
  exists a, b, ns. split; [reflexivity|]. split; [reflexivity|]. split; [exact R|].
  split; [exact Hok|].
  destruct (Hsome b' B) as (k & Hk & Hpk & Hab & Hpos & Hall).
  exists k, (gs_max_classification_accuracy s).
  split; [exact Hk|]. split; [exact Hpk|]. split; [exact Hab|]. split; [exact Hpos|]. exact Hall.
Qed.

(** X13: the [features_accuracy_dict] attached to the returned
    experiment maps each [n_features] of the range to the accuracy of the
    pass that used it, and has no other key. *)
Theorem FeatureWeightsGridSearch_dict ord nss start stop step best d :
  FeatureWeightsGridSearch ord nss start stop step = POk (best, d) ->
  exists a b ns, start = Some a /\ stop = Some b /\ py_range a b step = Ok ns
  /\ (forall j n, nth_error ns j = Some n ->
        exists e, grid_pass ord nss j = Ok e /\ dlookup Z.eqb n d = Some (pass_accuracy e))
  /\ (forall n, ~ In n ns -> dlookup Z.eqb n d = None).
Proof.
  unfold FeatureWeightsGridSearch.
  destruct start as [a|]; [|simpl; discriminate]. destruct stop as [b|]; [|simpl; discriminate].
  destruct (py_range a b step) as [ns|err] eqn:R; [|simpl; discriminate].
  destruct (grid_loop ord nss 0 ns grid_state0) as [s r] eqn:L.
  destruct (gs_best_exp s) as [b'|] eqn:B; [|discriminate].
  destruct r as [e|]; [discriminate|]. intros H. injection H as _ <-.
  destruct (grid_loop_dict ord nss 0 ns grid_state0 s (py_range_NoDup _ _ _ _ R) L) as [H1 H2].
  exists a, b, ns. split; [reflexivity|]. split; [reflexivity|]. split; [exact R|].
  split; [exact H1|]. intros n Hn. rewrite (H2 n Hn). reflexivity.
Qed.

(** X14: [FeatureWeightsGridSearch] with a bound left at its
    default [None], or with a zero step, raises [AttributeError]: the
    [TypeError] or [ValueError] of [xrange] is replaced by the failing
    assignment to [best_exp] in the [finally] clause. *)
Theorem FeatureWeightsGridSearch_bad_range ord nss :
  (forall stop step, FeatureWeightsGridSearch ord nss None stop step = PErr AttributeError)
  /\ (forall a step, FeatureWeightsGridSearch ord nss (Some a) None step = PErr AttributeError)
  /\ (forall a b, FeatureWeightsGridSearch ord nss (Some a) (Some b) 0 = PErr AttributeError).
Proof.
  split; [|split].
  - intros stop step. destruct stop; reflexivity.
  - intros a step. reflexivity.
  - intros a b. reflexivity.
Qed.

(** X15: when no pass of the range yields a positive accuracy
    (in particular for an empty range), [FeatureWeightsGridSearch] raises
    [AttributeError], whatever the passes raised. *)
Theorem FeatureWeightsGridSearch_no_positive ord nss a b step :
  (forall ns, py_range a b step = Ok ns ->
     forall j e q, (j < List.length ns)%nat -> grid_pass ord nss j = Ok e ->
       pass_accuracy e = Some q -> q <= 0) ->
  FeatureWeightsGridSearch ord nss (Some a) (Some b) step = PErr AttributeError.
Proof.
  intros Hall. unfold FeatureWeightsGridSearch.
  destruct (py_range a b step) as [ns|err] eqn:R; [|reflexivity].
  destruct (grid_loop ord nss 0 ns grid_state0) as [s r] eqn:L.
  destruct (grid_loop_inv ord nss 0 ns grid_state0 s r (grid_inv0 ord nss) L)
    as (m & Hm & (_ & _ & Hsome) & _).
  destruct (gs_best_exp s) as [b'|] eqn:B; [|reflexivity].
  exfalso. destruct (Hsome b' eq_refl) as (k & Hk & Hpk & Hab & Hpos & _).
  specialize (Hall ns eq_refl k b' _ ltac:(simpl in Hk; lia) Hpk Hab).
  apply (Qlt_not_le _ _ Hpos Hall).
Qed.

(** X16: when pass [k] raises after passes [0 .. k-1] succeeded,
    [FeatureWeightsGridSearch] raises either that exception or
    [AttributeError]; it re-raises the pass's exception exactly when an
    earlier pass had a positive accuracy. *)
Theorem FeatureWeightsGridSearch_error ord nss a b step ns k e :
  py_range a b step = Ok ns -> (k < List.length ns)%nat ->
  (forall j, (j < k)%nat -> exists e', grid_pass ord nss j = Ok e') ->
  grid_pass ord nss k = Err e ->
  (FeatureWeightsGridSearch ord nss (Some a) (Some b) step = PErr (PyErr e)
   \/ FeatureWeightsGridSearch ord nss (Some a) (Some b) step = PErr AttributeError)
  /\ (FeatureWeightsGridSearch ord nss (Some a) (Some b) step = PErr (PyErr e)
      <-> exists j e' q, (j < k)%nat /\ grid_pass ord nss j = Ok e'
                         /\ pass_accuracy e' = Some q /\ 0 < q).
Proof.
  intros R Hk Hbefore Hpk. unfold FeatureWeightsGridSearch. rewrite R.
  destruct (grid_loop ord nss 0 ns grid_state0) as [s r] eqn:L.
  destruct (grid_loop_inv ord nss 0 ns grid_state0 s r (grid_inv0 ord nss) L)
    as (m & Hm & (Hok & Hnone & Hsome) & Hn & He). simpl in Hok, Hnone, Hsome, He.
  assert (Hmk : m = k /\ r = Some (PyErr e)).
  { destruct r as [e0|].
    - destruct (He e0 eq_refl) as (Hlt & e' & Hpm & ->).
      destruct (Nat.lt_total m k) as [Hlt'|[->|Hgt]].
      + destruct (Hbefore m Hlt') as [x Hx]. exfalso. exact (grid_pass_ok_err _ _ _ _ _ Hx Hpm).
      + rewrite Hpk in Hpm. injection Hpm as ->. split; reflexivity.
      + destruct (Hok k Hgt) as [x Hx]. exfalso. exact (grid_pass_ok_err _ _ _ _ _ Hx Hpk).
    - rewrite (Hn eq_refl) in Hok. destruct (Hok k Hk) as [x Hx].
      exfalso. exact (grid_pass_ok_err _ _ _ _ _ Hx Hpk). }
  destruct Hmk as [-> ->].
  destruct (gs_best_exp s) as [b'|] eqn:B.
  - split; [left; reflexivity|]. split; [|intros _; reflexivity]. intros _.
    destruct (Hsome b' eq_refl) as (k' & Hk' & Hpk' & Hab & Hpos & _).
    exists k', b', (gs_max_classification_accuracy s). auto.
  - split; [right; reflexivity|]. split; [intros E; discriminate|].
    intros (j & e' & q & Hj & Hpj & Hq & Hpos). exfalso.
    destruct (Hnone eq_refl) as [_ Hall].
    apply (Qlt_not_le _ _ Hpos (Hall j e' q Hj Hpj Hq)).
Qed.

Local Open Scope string_scope.

Lemma PredictedValuesGraph_grouped_coords_groups_witness :
  exists grouped,
    PredictedValuesGraph_grouped_coords ["A"; "B"] [0; 1] [0; 1; 0] [0; 1; 1] = POk grouped
    /\ dlookup String.eqb "A" grouped
       = Some (matching_coords [0; 1] 0 (combine [0; 1; 0] [0; 1; 1])).
Proof.
  destruct (PredictedValuesGraph_grouped_coords ["A"; "B"] [0; 1] [0; 1; 0] [0; 1; 1])
    as [g|err] eqn:E; [|vm_compute in E; discriminate].
  exists g. split; [reflexivity|].
  apply (proj1 (PredictedValuesGraph_grouped_coords_groups ["A"; "B"] [0; 1] [0; 1; 0] [0; 1; 1] g
                  ltac:(repeat constructor; simpl; intuition discriminate) E) 0%nat).
  reflexivity.
Defined.

Lemma RankOrderedPredictedValuesGraph_positions_witness :
  exists pts,
    RankOrderedPredictedValuesGraph_points ["A"; "B"] [("A", [(0, 0); (0, 1)]); ("B", [(1, 1)])]
    = POk pts
    /\ List.concat (map fst pts) = map Z.of_nat (seq 1 (List.length (List.concat (map snd pts)))).
Proof.
  destruct (RankOrderedPredictedValuesGraph_points ["A"; "B"]
              [("A", [(0, 0); (0, 1)]); ("B", [(1, 1)])]) as [p|err] eqn:E;
    [|vm_compute in E; discriminate].
  exists p. split; [reflexivity|].
  exact (proj2 (RankOrderedPredictedValuesGraph_positions _ _ _ E)).
Defined.

Lemma AccuracyVersusNumFeaturesGraph_errors_witness :
  AccuracyVersusNumFeaturesGraph_init (POk tt) (fun _ => POk tt) (POk tt) 3 1 None 1
  = PErr NameError.
Proof.
  apply (proj1 (AccuracyVersusNumFeaturesGraph_errors (POk tt) (fun _ => POk tt) (POk tt)
                  3 1 None 1 [1; 2; 3]%Z eq_refl eq_refl) 1%Z [2; 3]%Z eq_refl eq_refl).
Defined.

Lemma print_fw_table_nonneg_witness :
  print_fw_table (Some ex_fw_stats) 1 = Some (1%Z, enumerate_from 1 (firstn 1 ex_fw_stats)).
Proof.
  rewrite (print_fw_table_nonneg (Some ex_fw_stats) 1 ltac:(lia)). reflexivity.
Defined.

Lemma print_fw_table_negative_witness :
  print_fw_table (Some ex_fw_stats) (-1) = Some ((-1)%Z, enumerate_from 1 (firstn 1 ex_fw_stats)).
Proof.
  rewrite (print_fw_table_negative ex_fw_stats (-1) ltac:(lia) ltac:(discriminate)). reflexivity.
Defined.

Lemma cls_Print_top_features_witness :
  exists iv d rows,
    cls_Print py2_dict_order (fun _ => Ok tt) ex_three_splits 1 = POk (iv, Some (d, rows))
    /\ map fst rows = seq 1 (List.length rows).
Proof.
  destruct (cls_Print py2_dict_order (fun _ => Ok tt) ex_three_splits 1)
    as [[iv [[d rows]|]]|err] eqn:E; [|cbv -[sqrt Q2R] in E; discriminate
                                      |cbv -[sqrt Q2R] in E; discriminate].
  exists iv, d, rows. split; [reflexivity|].
  destruct (cls_Print_top_features py2_dict_order (fun _ => Ok tt) ex_three_splits 1 iv d rows
              eq_refl E) as (e' & l & _ & _ & H & _).
  exact H.
Defined.

Lemma reg_Print_table_witness :
  exists rows l,
    reg_Print py2_dict_order scipy_returns scipy_returns false ex_inexact_regression = POk rows
    /\ rows = enumerate_from 1 (firstn 50 l) /\ rows <> [].
Proof.
  destruct (reg_Print py2_dict_order scipy_returns scipy_returns false ex_inexact_regression)
    as [rows|err] eqn:E; [|cbv -[sqrt Q2R] in E; discriminate].
  destruct (reg_Print_table py2_dict_order scipy_returns scipy_returns false ex_inexact_regression
              rows E) as (l & H & _).
  exists rows, l. split; [reflexivity|]. split; [exact H|].
  cbv -[sqrt Q2R] in E. injection E as <-. discriminate.
Defined.

Lemma NewShuffleSplit_args_ok_witness :
  NewShuffleSplit_args (FSFloat (1 # 2)) 10 RSTrue = Ok (5%Z, true)
  /\ Qabs (inject_Z 5 - (1 # 2) * inject_Z 10) <= 1 # 2.
Proof.
  split; [reflexivity|].
  destruct (NewShuffleSplit_args_ok (FSFloat (1 # 2)) 10 RSTrue 5 true ltac:(lia) eq_refl)
    as (_ & _ & H & _).
  exact (H _ eq_refl).
Defined.

Lemma FeatureWeightsGridSearch_best_witness :
  exists best d,
    FeatureWeightsGridSearch py2_dict_order (fun _ => Ok ex_three_splits) (Some 1%Z) (Some 3%Z) 1
    = POk (best, d)
    /\ exists q, pass_accuracy best = Some q /\ 0 < q.
Proof.
  destruct (FeatureWeightsGridSearch py2_dict_order (fun _ => Ok ex_three_splits)
              (Some 1%Z) (Some 3%Z) 1) as [[best d]|err] eqn:E;
    [|cbv -[sqrt Q2R] in E; discriminate].
  exists best, d. split; [reflexivity|].
  destruct (FeatureWeightsGridSearch_best _ _ _ _ _ _ _ E)
    as (a & b & ns & _ & _ & _ & _ & k & q & _ & _ & Hq & Hpos & _).
  exists q. split; assumption.
Defined.

Lemma FeatureWeightsGridSearch_dict_witness :
  exists best d,
    FeatureWeightsGridSearch py2_dict_order (fun _ => Ok ex_three_splits) (Some 1%Z) (Some 3%Z) 1
    = POk (best, d)
    /\ dlookup Z.eqb 5%Z d = None.
Proof.
  destruct (FeatureWeightsGridSearch py2_dict_order (fun _ => Ok ex_three_splits)
              (Some 1%Z) (Some 3%Z) 1) as [[best d]|err] eqn:E;
    [|cbv -[sqrt Q2R] in E; discriminate].
  exists best, d. split; [reflexivity|].
  destruct (FeatureWeightsGridSearch_dict _ _ _ _ _ _ _ E)
    as (a & b & ns & Ha & Hb & R & _ & Hout).
  injection Ha as <-. injection Hb as <-. vm_compute in R. injection R as <-.
  apply Hout. simpl. lia.
Defined.

Lemma FeatureWeightsGridSearch_no_positive_witness :
  FeatureWeightsGridSearch py2_dict_order (fun _ => Ok ex_three_splits) (Some 1%Z) (Some 1%Z) 1
  = PErr AttributeError.
Proof.
  apply FeatureWeightsGridSearch_no_positive.
  intros ns R. vm_compute in R. injection R as <-. simpl. intros j e q Hj. lia.
Defined.

Lemma FeatureWeightsGridSearch_error_witness :
  FeatureWeightsGridSearch py2_dict_order nss_fail_second (Some 1%Z) (Some 3%Z) 1
  = PErr (PyErr ZeroDivisionError).
Proof.
  destruct (grid_pass py2_dict_order nss_fail_second 0) as [e0|err] eqn:E0;
    [|cbv -[sqrt Q2R] in E0; discriminate].
  apply (proj2 (proj2 (FeatureWeightsGridSearch_error py2_dict_order nss_fail_second
                         1 3 1 [1; 2]%Z 1 ZeroDivisionError eq_refl ltac:(simpl; lia)
                         ltac:(intros j Hj; assert (j = 0%nat) as -> by lia; exists e0; exact E0)
                         eq_refl))).
  exists 0%nat, e0.
  destruct (pass_accuracy e0) as [q|] eqn:Q;
    [|cbv -[sqrt Q2R] in E0; injection E0 as <-; discriminate].
  exists q. split; [lia|]. split; [exact E0|]. split; [reflexivity|].
  cbv -[sqrt Q2R] in E0. injection E0 as <-. vm_compute in Q. injection Q as <-.
  reflexivity.
Defined.

Local Close Scope string_scope.

(** X17: the errors of the confidence interval: with no classifications
    Print raises [ZeroDivisionError]; the normal-approximation branch never
    raises (its test makes [acc] and [1 - acc] positive, so the radicand
    [acc (1 - acc) / n] is not negative); only the Wilson branch raises,
    with [ValueError] or [ZeroDivisionError]. *)
Theorem print_interval_errors n acc :
  print_interval 0 acc = Err ZeroDivisionError
  /\ (normal_approx_ok n acc = true ->
      exists ci, print_interval n acc = Ok (NormalApprox, acc, ci))
  /\ (forall x, print_interval n acc = Err x ->
        normal_approx_ok n acc = false /\ (x = ValueError \/ x = ZeroDivisionError)).
Proof.
  split; [|split].
  - unfold print_interval. rewrite normal_approx_ok_0. reflexivity.
  - intros H. eexists. exact (print_interval_normal n acc H).
  - intros x H. destruct (normal_approx_ok n acc) eqn:E.
    + rewrite (print_interval_normal n acc E) in H. discriminate.
    + split; [reflexivity|].
      destruct n as [|n'].
      * unfold print_interval in H. rewrite E in H. injection H as <-. right; reflexivity.
      * destruct (print_interval_wilson (S n') acc _ ltac:(lia) E eq_refl)
          as [[R _]|[[R _]|[R _]]]; rewrite H in R; try discriminate;
          injection R as ->; [right|left]; reflexivity.
Qed.

Lemma np_sub_err a b :
  (forall x, np_sub a b = Err x -> x = ValueError)
  /\ (np_sub a b = Err ValueError
      <-> List.length a <> List.length b /\ List.length a <> 1%nat /\ List.length b <> 1%nat).
Proof.
  unfold np_sub. destruct (Nat.eqb_spec (List.length a) (List.length b)) as [E|E].
  - split; [intros x H; discriminate|]. split; [discriminate|]. intros [H _]. contradiction.
  - destruct a as [|x1 [|x2 a]], b as [|y1 [|y2 b]]; simpl in *;
      (split; [intros x H; first [discriminate | injection H as <-; reflexivity]|]);
      split; intros H; first [discriminate | lia | reflexivity].
Qed.

(** X18: the errors regression [GenerateStats] meets before scipy is
    called.  Once the base-class statistics are computed: ground-truth and
    predicted arrays that numpy cannot broadcast (different lengths, neither
    of length 1) raise [ValueError] whatever numpy's mode; with arrays that
    can be subtracted and a zero classification count, it raises
    [FloatingPointError] in raise mode, and a call in the default mode that
    returns leaves [std_err] NaN (zero residual sum) or infinite, never a
    number. *)
Theorem reg_GenerateStats_errors ord linregress spearmanr e e0 :
  base_GenerateStats ord e = Ok e0 ->
  (List.length (ground_truth_values e0) <> List.length (predicted_values e0)
   /\ List.length (ground_truth_values e0) <> 1%nat
   /\ List.length (predicted_values e0) <> 1%nat ->
   forall np_raise, reg_GenerateStats ord linregress spearmanr np_raise e = Err ValueError)
  /\ (~ (List.length (ground_truth_values e0) <> List.length (predicted_values e0)
         /\ List.length (ground_truth_values e0) <> 1%nat
         /\ List.length (predicted_values e0) <> 1%nat) ->
      num_classifications e0 = 0%nat ->
      reg_GenerateStats ord linregress spearmanr true e = Err FloatingPointError)
  /\ (num_classifications e0 = 0%nat ->
      forall e1 np1, reg_GenerateStats ord linregress spearmanr false e = Ok (e1, np1) ->
      std_err e1 = Some PyNaN \/ std_err e1 = Some PyInf).
Proof.
  intros B.
  destruct (np_sub_err (ground_truth_values e0) (predicted_values e0)) as [Hx Hiff].
  split; [|split].
  - intros C np_raise. unfold reg_GenerateStats. rewrite B, bind_Ok.
    rewrite (proj2 Hiff C). reflexivity.
  - intros NC Hz. unfold reg_GenerateStats. rewrite B, bind_Ok.
    destruct (np_sub (ground_truth_values e0) (predicted_values e0)) as [diffs|err] eqn:D.
    + rewrite bind_Ok. unfold rms_std_err at 1. rewrite Hz. reflexivity.
    + exfalso. pose proof (Hx err eq_refl) as ->. apply NC, Hiff. reflexivity.
  - intros Hz e1 np1 H.
    apply reg_GenerateStats_Ok in H as (e0' & d & se & B' & _ & S & -> & _).
    rewrite B in B'. injection B' as <-. simpl.
    unfold rms_std_err in S. rewrite Hz in S. simpl in S.
    destruct (Qeq_bool _ 0); [injection S as <-; left; reflexivity|].
    destruct (Qgt_bool _ 0); [injection S as <-; right; reflexivity|discriminate].
Qed.

Lemma mapM_Err {A B} (f : A -> result B) ks x :
  mapM f ks = Err x -> exists k, In k ks /\ f k = Err x.
Proof.
  induction ks as [|k ks IH]; simpl; [discriminate|].
  destruct (f k) as [y|err] eqn:Fk.
  - rewrite bind_Ok. destruct (mapM f ks) as [ys|err]; [rewrite bind_Ok; discriminate|].
    rewrite bind_Err. intros H. destruct (IH H) as (k' & Hk' & Hf). exists k'. auto.
  - rewrite bind_Err. intros H. injection H as ->. exists k. auto.
Qed.

Lemma fw_stat_Err nb name fwl x :
  fw_stat nb name fwl = Err x <-> x = ValueError /\ (nb < List.length fwl)%nat.
Proof.
  unfold fw_stat. destruct (Nat.ltb_spec nb (List.length fwl)) as [H|H].
  - split; [intros E; injection E as <-; auto|intros [-> _]; reflexivity].
  - split; [discriminate|intros [_ C]; lia].
Qed.

(** X19: the base-class [GenerateStats] raises only [ValueError], and does
    so exactly when some feature received more weights than there are
    splits (numpy cannot broadcast them into [np.zeros(len(self))]); the
    dict of weight lists is iterated over a permutation of its keys. *)
Theorem base_GenerateStats_ValueError ord e :
  Permutation (ord (discovery_order (individual_results e))) (discovery_order (individual_results e)) ->
  (forall x, base_GenerateStats ord e = Err x -> x = ValueError)
  /\ (base_GenerateStats ord e = Err ValueError
      <-> exists name, In name (discovery_order (individual_results e))
            /\ (List.length (individual_results e)
                < List.length (weights_of name (individual_results e)))%nat).
Proof.
  intros Hp. unfold base_GenerateStats.
  destruct (scrape_values (individual_results e)) as [[n gts] pvs].
  unfold discovery_order in Hp |- *.
  destruct (mapM _ _) as [stats|err] eqn:M.
  - rewrite bind_Ok. split; [intros x H; discriminate|]. split; [discriminate|].
    intros (name & Hin & Hlt). exfalso.
    apply (Permutation_in name (Permutation_sym Hp)) in Hin.
    destruct (mapM_In _ _ _ _ M Hin) as (y & Hy & _).
    rewrite dget_collect in Hy. unfold fw_stat in Hy.
    destruct (Nat.ltb_spec (List.length (individual_results e))
                (List.length (weights_of name (individual_results e)))); [discriminate|lia].
  - rewrite bind_Err. destruct (mapM_Err _ _ _ M) as (k & Hk & Hf).
    rewrite dget_collect in Hf. apply fw_stat_Err in Hf as [-> Hlt].
    split; [intros x H; injection H as <-; reflexivity|].
    split; [intros _|intros _; reflexivity].
    exists k. split; [exact (Permutation_in k Hp Hk)|exact Hlt].
Qed.

Lemma dget_cadd g k c d :
  dget String.eqb 0%nat g (cadd k c d)
  = (dget String.eqb 0%nat g d + if String.eqb k g then c else 0)%nat.
Proof.
  unfold cadd. rewrite !(dget_dlookup String.eqb), (dlookup_dset String.eqb String.eqb_eq).
  destruct (String.eqb_spec k g) as [->|Hne]; [|lia].
  reflexivity.
Qed.

Lemma length_filter_flat_map {A B} (f : B -> bool) (h : A -> list B) l :
  List.length (filter f (flat_map h l)) = list_sum (map (fun a => List.length (filter f (h a))) l).
Proof.
  induction l as [|a l IH]; simpl; [reflexivity|]. rewrite filter_app, length_app, IH. reflexivity.
Qed.

Lemma length_filter_none {A} (f : A -> bool) l :
  (forall x, In x l -> f x = false) -> List.length (filter f l) = 0%nat.
Proof.
  induction l as [|x l IH]; intros H; simpl; [reflexivity|].
  rewrite (H x (or_introl eq_refl)). apply IH. intros; apply H; right; assumption.
Qed.

Lemma batch_row_total train b g :
  NoDup train -> (forall s, In s (b_individual_results b) -> In (predicted_class_name s) train) ->
  list_sum (map (fun p => batch_count b g p) train)
  = List.length (filter (fun s => String.eqb (ground_truth_class_name s) g) (b_individual_results b)).
Proof.
  intros Htr Hs.
  rewrite (list_sum_map_ext (fun p => batch_count b g p) _ train (fun p _ => batch_count_sum b g p)).
  rewrite (list_sum_swap (fun p s => if String.eqb (ground_truth_class_name s) g
                                        && String.eqb (predicted_class_name s) p then 1 else 0)%nat).
  rewrite length_filter_sum. apply list_sum_map_ext. intros s Hin.
  destruct (String.eqb (ground_truth_class_name s) g); cbn [andb].
  - rewrite list_sum_indicator by exact Htr.
    destruct (in_dec string_dec (predicted_class_name s) train) as [|C]; [reflexivity|].
    exfalso. exact (C (Hs s Hin)).
  - apply list_sum_map_zero. reflexivity.
Qed.

Lemma tally_per_class test train bs g :
  dget String.eqb 0%nat g (t_num_per_class (tally_batches test train bs))
  = list_sum (map (fun b => list_sum (map (fun g' => list_sum (map (fun p =>
      if String.eqb g' g then batch_count b g' p else 0%nat) train)) test)) bs).
Proof.
  unfold tally_batches.
  rewrite (tally_additive (fun t => dget String.eqb 0%nat g (t_num_per_class t))
             (fun b g' p => if String.eqb g' g then batch_count b g' p else 0%nat)
             (fun _ => 0%nat)).
  - reflexivity.
  - intros t b g' p. simpl. apply dget_cadd.
  - intros t b. simpl. lia.
Qed.

Lemma tally_correct_per_class test train bs g :
  dget String.eqb 0%nat g (t_num_correct_per_class (tally_batches test train bs))
  = list_sum (map (fun b => list_sum (map (fun g' => list_sum (map (fun p =>
      if String.eqb g' p then (if String.eqb g' g then batch_count b g' p else 0%nat) else 0%nat)
      train)) test)) bs).
Proof.
  unfold tally_batches.
  rewrite (tally_additive (fun t => dget String.eqb 0%nat g (t_num_correct_per_class t))
             (fun b g' p => if String.eqb g' p then (if String.eqb g' g then batch_count b g' p
                                                     else 0%nat) else 0%nat)
             (fun _ => 0%nat)).
  - reflexivity.
  - intros t b g' p. simpl. destruct (String.eqb g' p); [apply dget_cadd|lia].
  - intros t b. simpl. lia.
Qed.

Lemma cls_GenerateStats_class_counts ord e e' :
  cls_GenerateStats ord e = Ok e' ->
  let t := tally_batches (test_class_names e) (training_class_names e) (individual_results e) in
  num_classifications_per_class (cls e') = t_num_per_class t
  /\ num_correct_classifications_per_class (cls e') = t_num_correct_per_class t.
Proof.
  unfold cls_GenerateStats. destruct (base_GenerateStats ord e) as [e0|err] eqn:B;
    [|discriminate].
  destruct (base_GenerateStats_Ok _ _ _ B) as (Hb & Ht & Htr & Hc).
  rewrite bind_Ok, Hb, Ht, Htr.
  destruct (finalize_avg _ _ _ _) as [acpm|err]; [rewrite bind_Ok|discriminate].
  destruct (str_list_eqb (test_class_names e) (training_class_names e)).
  - destruct (similarity _ _ acpm) as [sim|err]; [rewrite bind_Ok, bind_Ok|discriminate].
    destruct (py_fdiv _ _) as [acc|err]; [rewrite bind_Ok|discriminate].
    intros H. injection H as <-. split; reflexivity.
  - rewrite bind_Ok. destruct (py_fdiv _ _) as [acc|err]; [rewrite bind_Ok|discriminate].
    intros H. injection H as <-. split; reflexivity.
Qed.

(** X20: after classification [GenerateStats], when the class-name lists
    are duplicate-free and every Sample Prediction's ground-truth and
    predicted classes are declared, [num_classifications_per_class[g]]
    counts the Sample Predictions of class [g] over all splits and
    [num_correct_classifications_per_class[g]] those of class [g] also
    predicted as [g] (0 for any other name, as a defaultdict reads). *)
Theorem cls_GenerateStats_per_class ord e e' g :
  NoDup (test_class_names e) -> NoDup (training_class_names e) ->
  (forall s, In s (all_samples (individual_results e)) ->
     In (ground_truth_class_name s) (test_class_names e)
     /\ In (predicted_class_name s) (training_class_names e)) ->
  cls_GenerateStats ord e = Ok e' ->
  dget String.eqb 0%nat g (num_classifications_per_class (cls e'))
  = List.length (filter (fun s => String.eqb (ground_truth_class_name s) g)
                  (all_samples (individual_results e)))
  /\ dget String.eqb 0%nat g (num_correct_classifications_per_class (cls e'))
     = List.length (filter (fun s => String.eqb (ground_truth_class_name s) g
                                     && String.eqb (predicted_class_name s) g)
                     (all_samples (individual_results e))).
Proof.
  intros Ht Htr Hs He. destruct (cls_GenerateStats_class_counts _ _ _ He) as [Hpc Hcc].
  set (test := test_class_names e) in *. set (train := training_class_names e) in *.
  unfold all_samples in *. rewrite Hpc, Hcc, tally_per_class, tally_correct_per_class,
    !length_filter_flat_map.
  assert (Hb : forall b s, In b (individual_results e) -> In s (b_individual_results b) ->
             In (ground_truth_class_name s) test /\ In (predicted_class_name s) train).
  { intros b s Hb Hs'. apply Hs. apply in_flat_map. exists b. auto. }
  split; apply list_sum_map_ext; intros b Hbin.
  - rewrite (list_sum_map_ext _ (fun g' => if String.eqb g g'
               then list_sum (map (fun p => batch_count b g' p) train) else 0%nat)).
    + rewrite (list_sum_select (fun g' => list_sum (map (fun p => batch_count b g' p) train)))
        by exact Ht.
      destruct (in_dec string_dec g test) as [Hg|Hg].
      * apply batch_row_total; [exact Htr|]. intros s Hin. exact (proj2 (Hb b s Hbin Hin)).
      * symmetry. apply length_filter_none. intros s Hin.
        destruct (String.eqb_spec (ground_truth_class_name s) g) as [E|E]; [|reflexivity].
        exfalso. apply Hg. rewrite <- E. exact (proj1 (Hb b s Hbin Hin)).
    + intros g' _. rewrite (String.eqb_sym g' g).
      destruct (String.eqb g g'); [reflexivity|apply list_sum_map_zero; reflexivity].
  - rewrite (list_sum_map_ext _ (fun g' => if String.eqb g g'
               then (if in_dec string_dec g' train then batch_count b g' g' else 0%nat) else 0%nat)).
    + rewrite (list_sum_select (fun g' => if in_dec string_dec g' train
                                          then batch_count b g' g' else 0%nat)) by exact Ht.
      destruct (in_dec string_dec g test) as [Hg|Hg];
        [destruct (in_dec string_dec g train) as [Hg'|Hg']; [reflexivity|]|];
        symmetry; apply length_filter_none; intros s Hin;
        destruct (String.eqb_spec (ground_truth_class_name s) g) as [E|E]; try reflexivity;
        destruct (String.eqb_spec (predicted_class_name s) g) as [E'|E']; try reflexivity;
        exfalso; [apply Hg'; rewrite <- E'; exact (proj2 (Hb b s Hbin Hin))
                 |apply Hg; rewrite <- E; exact (proj1 (Hb b s Hbin Hin))].
    + intros g' _. rewrite (String.eqb_sym g g').
      destruct (String.eqb_spec g' g) as [->|Hne].
      * apply (list_sum_select (fun p => batch_count b g p)). exact Htr.
      * apply list_sum_map_zero. intros p _. destruct (String.eqb g' p); reflexivity.
Qed.

(** ** The per-sample grouping of [PerSampleStatistics] *)

Lemma dget_acc_append f r d :
  dget String.eqb [] f (acc_append r d)
  = if String.eqb (source_filepath r) f then dget String.eqb [] f d ++ [r]
    else dget String.eqb [] f d.
Proof.
  induction d as [|[k rs] d IH]; cbn [acc_append dget app].
  - destruct (String.eqb (source_filepath r) f); reflexivity.
  - destruct (String.eqb_spec k (source_filepath r)) as [->|Hne]; cbn [dget app].
    + destruct (String.eqb (source_filepath r) f); reflexivity.
    + rewrite IH. destruct (String.eqb_spec k f) as [->|]; [|reflexivity].
      destruct (String.eqb_spec (source_filepath r) f) as [E|]; [congruence|reflexivity].
Qed.

Lemma acc_append_keys k r d :
  In k (map fst (acc_append r d)) <-> In k (map fst d) \/ k = source_filepath r.
Proof.
  induction d as [|[k' rs] d IH]; simpl.
  - intuition.
  - destruct (String.eqb_spec k' (source_filepath r)) as [->|Hne]; simpl; rewrite ?IH; intuition.
Qed.

Lemma acc_append_NoDup r d :
  NoDup (map fst d) -> NoDup (map fst (acc_append r d)).
Proof.
  induction d as [|[k' rs] d IH]; simpl; intros H.
  - constructor; [intros []|constructor].
  - inversion H as [|? ? Hn Hnd]; subst.
    destruct (String.eqb_spec k' (source_filepath r)) as [->|Hne]; simpl.
    + constructor; assumption.
    + constructor; [|apply IH; exact Hnd].
      rewrite acc_append_keys. intros [C|C]; [contradiction|congruence].
Qed.

Lemma accumulate_gen bs d :
  let d' := fold_left (fun d b => fold_left (fun d r => acc_append r d) (b_individual_results b) d) bs d in
  (NoDup (map fst d) -> NoDup (map fst d'))
  /\ (forall f, dget String.eqb [] f d'
                = dget String.eqb [] f d
                  ++ filter (fun s => String.eqb (source_filepath s) f) (all_samples bs))
  /\ (forall f, In f (map fst d') <-> In f (map fst d) \/ In f (map source_filepath (all_samples bs))).
Proof.
  unfold all_samples. revert d. induction bs as [|b bs IH]; intros d; simpl.
  - split; [auto|]. split; [intros f; rewrite app_nil_r; reflexivity|]. intuition.
  - set (d1 := fold_left (fun d r => acc_append r d) (b_individual_results b) d).
    assert (H1 : (NoDup (map fst d) -> NoDup (map fst d1))
                 /\ (forall f, dget String.eqb [] f d1
                      = dget String.eqb [] f d
                        ++ filter (fun s => String.eqb (source_filepath s) f) (b_individual_results b))
                 /\ (forall f, In f (map fst d1)
                      <-> In f (map fst d) \/ In f (map source_filepath (b_individual_results b)))).
    { unfold d1. clear. generalize (b_individual_results b) as rs. intros rs. revert d.
      induction rs as [|r rs IHr]; intros d; simpl.
      - split; [auto|]. split; [intros f; rewrite app_nil_r; reflexivity|]. intuition.
      - destruct (IHr (acc_append r d)) as (Ha & Hb & Hc). split; [|split].
        + intros H. apply Ha, acc_append_NoDup, H.
        + intros f. rewrite Hb, dget_acc_append.
          destruct (String.eqb (source_filepath r) f); simpl; [rewrite <- app_assoc|]; reflexivity.
        + intros f. rewrite Hc, acc_append_keys. intuition. }
    destruct H1 as (Ha & Hb & Hc). destruct (IH d1) as (Ha' & Hb' & Hc'). split; [|split].
    + intros H. apply Ha', Ha, H.
    + intros f. rewrite Hb', Hb, filter_app, app_assoc. reflexivity.
    + intros f. rewrite Hc', Hc, map_app, in_app_iff. intuition.
Qed.

Lemma accumulate_spec bs :
  NoDup (map fst (accumulate bs))
  /\ (forall f, dget String.eqb [] f (accumulate bs)
                = filter (fun s => String.eqb (source_filepath s) f) (all_samples bs))
  /\ (forall f, In f (map fst (accumulate bs)) <-> In f (map source_filepath (all_samples bs))).
Proof.
  destruct (accumulate_gen bs []) as (Ha & Hb & Hc). unfold accumulate.
  split; [apply Ha; constructor|]. split; [exact Hb|].
  intros f. rewrite Hc. simpl. intuition.
Qed.

Lemma filter_filepath_nonempty f l :
  In f (map source_filepath l) ->
  exists r rs, filter (fun s => String.eqb (source_filepath s) f) l = r :: rs
               /\ source_filepath r = f.
Proof.
  induction l as [|s l IH]; simpl; [intros []|]. intros [E|H].
  - subst f. rewrite String.eqb_refl. eexists _, _. split; reflexivity.
  - destruct (String.eqb_spec (source_filepath s) f) as [E|E].
    + eexists _, _. split; [reflexivity|exact E].
    + exact (IH H).
Qed.

Lemma length_filter_le {A} (f : A -> bool) l : (List.length (filter f l) <= List.length l)%nat.
Proof. induction l as [|x l IH]; simpl; [lia|]. destruct (f x); simpl; lia. Qed.

Lemma Q_of_nat_ratio_bounds h n : (0 < n)%nat -> (h <= n)%nat ->
  0 <= Q_of_nat h / Q_of_nat n <= 1.
Proof.
  intros Hn Hh. pose proof (Q_of_nat_pos n Hn) as P.
  split.
  - apply Qle_shift_div_l; [exact P|]. rewrite Qmult_0_l. unfold Q_of_nat, Qle. simpl. lia.
  - apply Qle_shift_div_r; [exact P|]. rewrite Qmult_1_l. apply Q_of_nat_le. exact Hh.
Qed.

Lemma in_map_pair_stat {A} (stat : string -> A) files f st :
  In (f, st) (map (fun f => (f, stat f)) files) -> In f files /\ st = stat f.
Proof.
  intros H. apply in_map_iff in H as (f' & E & Hin). injection E as <- <-. auto.
Qed.

Lemma map_fst_pair_stat {A} (stat : string -> A) files :
  map fst (map (fun f => (f, stat f)) files) = files.
Proof. rewrite map_map. apply map_id. Qed.

(** X21: classification [PerSampleStatistics] lists one statistic per
    source file, each file once, the files being those of the Sample
    Predictions of all splits; the statistic of file [f] counts the
    predictions of [f] over all splits, takes the ground-truth class of the
    first one, and the fraction of those predicted as that class, which
    lies in [0, 1].  The dict is iterated over a permutation of its keys. *)
Theorem cls_PerSampleStatistics_stats ord e :
  Permutation (ord (map fst (accumulate (individual_results e))))
              (map fst (accumulate (individual_results e))) ->
  exists r, cls_PerSampleStatistics ord e = Ok r
  /\ NoDup (map fst (cps_individual_stats r))
  /\ (forall f, In f (map fst (cps_individual_stats r))
                <-> In f (map source_filepath (all_samples (individual_results e))))
  /\ (forall f n frac mp g, In (f, (n, frac, mp, g)) (cps_individual_stats r) ->
        exists r0 rs,
          filter (fun s => String.eqb (source_filepath s) f) (all_samples (individual_results e))
          = r0 :: rs
          /\ n = List.length (r0 :: rs) /\ g = ground_truth_class_name r0
          /\ frac = Q_of_nat (List.length (filter (fun v => String.eqb v g)
                                             (map predicted_class_name (r0 :: rs))))
                    / Q_of_nat n
          /\ 0 <= frac <= 1).
Proof.
  intros Hp. destruct (accumulate_spec (individual_results e)) as (Hnd & Hget & Hkeys).
  eexists. split; [reflexivity|]. cbn [cps_individual_stats].
  rewrite map_fst_pair_stat. split; [|split].
  - exact (Permutation_NoDup (Permutation_sym Hp) Hnd).
  - intros f. rewrite <- Hkeys. split; apply Permutation_in; [exact Hp|exact (Permutation_sym Hp)].
  - intros f n frac mp g H. apply in_map_pair_stat in H as [Hin Hst].
    apply (Permutation_in f Hp), Hkeys in Hin.
    destruct (filter_filepath_nonempty f _ Hin) as (r0 & rs & Hf & _).
    rewrite Hget, Hf in Hst. unfold cls_sample_stat in Hst. injection Hst as -> -> _ ->.
    exists r0, rs. split; [exact Hf|]. split; [reflexivity|]. split; [reflexivity|].
    split; [reflexivity|].
    assert (Hh := length_filter_le (fun v => String.eqb v (ground_truth_class_name r0))
                    (map predicted_class_name (r0 :: rs))).
    rewrite length_map in Hh.
    apply Q_of_nat_ratio_bounds; [simpl; lia|]. revert Hh. simpl. lia.
Qed.

Lemma fold_left_Qmin_le l x :
  fold_left Qmin l x <= x /\ forall y, In y l -> fold_left Qmin l x <= y.
Proof.
  revert x. induction l as [|y l IH]; intros x; simpl.
  - split; [apply Qle_refl|intros _ []].
  - destruct (IH (Qmin x y)) as [H1 H2]. split.
    + eapply Qle_trans; [exact H1|apply Q.le_min_l].
    + intros y' [<-|Hy]; [eapply Qle_trans; [exact H1|apply Q.le_min_r]|exact (H2 y' Hy)].
Qed.

Lemma fold_left_Qmax_ge l x :
  x <= fold_left Qmax l x /\ forall y, In y l -> y <= fold_left Qmax l x.
Proof.
  revert x. induction l as [|y l IH]; intros x; simpl.
  - split; [apply Qle_refl|intros _ []].
  - destruct (IH (Qmax x y)) as [H1 H2]. split.
    + eapply Qle_trans; [apply Q.le_max_l|exact H1].
    + intros y' [<-|Hy]; [eapply Qle_trans; [apply Q.le_max_r|exact H1]|exact (H2 y' Hy)].
Qed.

Lemma np_min_le l y : In y l -> np_min l <= y.
Proof.
  destruct l as [|x l]; [intros []|]. unfold np_min. intros [<-|Hy].
  - apply (proj1 (fold_left_Qmin_le _ _)).
  - apply (proj2 (fold_left_Qmin_le _ _)). exact Hy.
Qed.

Lemma np_max_ge l y : In y l -> y <= np_max l.
Proof.
  destruct l as [|x l]; [intros []|]. unfold np_max. intros [<-|Hy].
  - apply (proj1 (fold_left_Qmax_ge _ _)).
  - apply (proj2 (fold_left_Qmax_ge _ _)). exact Hy.
Qed.

Lemma Q_of_nat_S n : Q_of_nat (S n) == Q_of_nat n + 1.
Proof. unfold Q_of_nat. rewrite Nat2Z.inj_succ, <- Z.add_1_r, inject_Z_plus. reflexivity. Qed.

(** X22: regression [PerSampleStatistics] lists one statistic per source
    file, each file once, the files being those of the Sample Predictions
    of all splits; the statistic of file [f] counts its predictions over
    all splits, its mean is the mean of those values, and its minimum and
    maximum bound every predicted value of [f].  The dict is
    iterated over a permutation of its keys. *)
Theorem reg_PerSampleStatistics_stats ord e :
  Permutation (ord (map fst (accumulate (individual_results e))))
              (map fst (accumulate (individual_results e))) ->
  exists r, reg_PerSampleStatistics ord e = Ok r
  /\ NoDup (map fst (rps_individual_stats r))
  /\ (forall f, In f (map fst (rps_individual_stats r))
                <-> In f (map source_filepath (all_samples (individual_results e))))
  /\ (forall f n mn mean mx sd, In (f, (n, mn, mean, mx, sd)) (rps_individual_stats r) ->
        exists r0 rs,
          filter (fun s => String.eqb (source_filepath s) f) (all_samples (individual_results e))
          = r0 :: rs
          /\ n = List.length (r0 :: rs)
          /\ mean = np_mean (map predicted_value (r0 :: rs))
          /\ (forall s, In s (r0 :: rs) -> mn <= predicted_value s <= mx)).
Proof.
  intros Hp. destruct (accumulate_spec (individual_results e)) as (Hnd & Hget & Hkeys).
  eexists. split; [reflexivity|]. cbn [rps_individual_stats].
  rewrite map_fst_pair_stat. split; [|split].
  - exact (Permutation_NoDup (Permutation_sym Hp) Hnd).
  - intros f. rewrite <- Hkeys. split; apply Permutation_in; [exact Hp|exact (Permutation_sym Hp)].
  - intros f n mn mean mx sd H. apply in_map_pair_stat in H as [Hin Hst].
    apply (Permutation_in f Hp), Hkeys in Hin.
    destruct (filter_filepath_nonempty f _ Hin) as (r0 & rs & Hf & _).
    rewrite Hget, Hf in Hst. unfold reg_sample_stat in Hst. injection Hst as Hn Hmn Hmean Hmx _.
    assert (Hall : forall s, In s (r0 :: rs) -> mn <= predicted_value s <= mx).
    { intros s Hs. subst mn mx.
      split; [apply (np_min_le (map predicted_value (r0 :: rs)))
             |apply (np_max_ge (map predicted_value (r0 :: rs)))]; apply in_map; exact Hs. }
    exists r0, rs. split; [exact Hf|]. split; [subst n; simpl; rewrite length_map; reflexivity|].
    split; [exact Hmean|exact Hall].
Qed.

(** ** The marginal-probability averages of classification [PerSampleStatistics] *)

Lemma mp_totals_of_fold rs : mp_totals_of rs = fold_left mp_step rs [].
Proof. reflexivity. Qed.

Lemma nth_sum_combine a b i :
  List.length a = List.length b -> (i < List.length a)%nat ->
  nth i (map (fun xy => fst xy + snd xy) (combine a b)) 0 = nth i a 0 + nth i b 0.
Proof.
  intros E Hi.
  transitivity (nth i (map (fun xy => fst xy + snd xy) (combine a b))
                  ((fun xy : Q * Q => fst xy + snd xy) (0, 0))).
  - apply nth_indep. rewrite length_map, length_combine. lia.
  - rewrite (map_nth (fun xy : Q * Q => fst xy + snd xy)), combine_nth by exact E. reflexivity.
Qed.

Lemma mp_fold_sum k rs tot :
  (0 < k)%nat -> List.length tot = k ->
  (forall r, In r rs -> List.length (marginal_probabilities r) = k) ->
  List.length (fold_left mp_step rs tot) = k
  /\ forall i, (i < k)%nat ->
       nth i (fold_left mp_step rs tot) 0
       == nth i tot 0 + Qsum (map (fun r => nth i (marginal_probabilities r) 0) rs).
Proof.
  intros Hk. revert tot. induction rs as [|r rs IH]; intros tot Ht Hall; simpl.
  - split; [exact Ht|]. intros i _. unfold Qsum. simpl. ring.
  - destruct tot as [|x tot']; [simpl in Ht; lia|].
    set (tot := x :: tot') in *.
    assert (Hr := Hall r (or_introl eq_refl)).
    assert (Hl : List.length (mp_step tot r) = k).
    { unfold mp_step, tot. rewrite length_map, length_combine. fold tot. lia. }
    destruct (IH (mp_step tot r) Hl (fun r' H => Hall r' (or_intror H))) as [H1 H2].
    split; [exact H1|]. intros i Hi. rewrite H2 by exact Hi.
    unfold mp_step, tot. rewrite nth_sum_combine by (fold tot; lia). fold tot.
    change (Qsum (nth i (marginal_probabilities r) 0 :: map (fun r => nth i (marginal_probabilities r) 0) rs))
      with (nth i (marginal_probabilities r) 0 + Qsum (map (fun r => nth i (marginal_probabilities r) 0) rs)).
    ring.
Qed.

(** X23: when every Sample Prediction of a file carries [k > 0] marginal
    probabilities, the [mp_avgs] of classification [PerSampleStatistics]
    has [k] entries, entry [i] being the sum of the predictions' [i]-th
    marginal probabilities divided by their number. *)
Theorem cls_sample_stat_mp_avgs rs k :
  (0 < k)%nat -> rs <> [] ->
  (forall r, In r rs -> List.length (marginal_probabilities r) = k) ->
  let '(n, _, mp_avgs, _) := cls_sample_stat rs in
  List.length mp_avgs = k
  /\ forall i, (i < k)%nat ->
       nth i mp_avgs 0
       == Qsum (map (fun r => nth i (marginal_probabilities r) 0) rs) / Q_of_nat (List.length rs).
Proof.
  intros Hk Hne Hall. unfold cls_sample_stat.
  destruct rs as [|r rs]; [congruence|].
  rewrite mp_totals_of_fold. cbn [fold_left]. change (mp_step [] r) with (marginal_probabilities r).
  destruct (mp_fold_sum k rs (marginal_probabilities r) Hk (Hall r (or_introl eq_refl))
              (fun r' H => Hall r' (or_intror H))) as [H1 H2].
  split; [rewrite length_map; exact H1|].
  intros i Hi.
  set (N := Q_of_nat (List.length (r :: rs))).
  replace (nth i (map (fun t => t / N) (fold_left mp_step rs (marginal_probabilities r))) 0)
    with (nth i (map (fun t => t / N) (fold_left mp_step rs (marginal_probabilities r)))
            ((fun t => t / N) 0))
    by (apply nth_indep; rewrite length_map, H1; exact Hi).
  rewrite (map_nth (fun t => t / N)), H2 by exact Hi. reflexivity.
Qed.

(** X24: a Sample Prediction with no marginal probabilities empties the
    running [mp_totals] ([zip] with an empty list), so the totals only
    cover the predictions after the last such one. *)
Theorem mp_totals_of_reset rs1 r rs2 :
  marginal_probabilities r = [] ->
  mp_totals_of (rs1 ++ r :: rs2) = mp_totals_of rs2.
Proof.
  intros Hr. rewrite !mp_totals_of_fold, fold_left_app. cbn [fold_left].
  assert (E : mp_step (fold_left mp_step rs1 []) r = []).
  { destruct (fold_left mp_step rs1 []) as [|x l]; cbn [mp_step]; rewrite Hr;
      [reflexivity|rewrite combine_nil; reflexivity]. }
  rewrite E. reflexivity.
Qed.

(** ** The average class probability matrix of classification [GenerateStats] *)

Lemma insert_str_perm s l : Permutation (insert_str s l) (s :: l).
Proof.
  induction l as [|t l IH]; simpl; [reflexivity|].
  destruct (String.leb s t); [reflexivity|]. rewrite IH. apply perm_swap.
Qed.

Lemma sorted_strings_perm l : Permutation (sorted_strings l) l.
Proof.
  induction l as [|s l IH]; simpl; [reflexivity|].
  rewrite insert_str_perm. apply perm_skip. exact IH.
Qed.

Lemma Qsum_cons x l : Qsum (x :: l) = x + Qsum l.
Proof. reflexivity. Qed.

Lemma Qsum_map_ext {A} (f g : A -> Q) l :
  (forall x, In x l -> f x == g x) -> Qsum (map f l) == Qsum (map g l).
Proof.
  induction l as [|x l IH]; intros H; cbn [map]; [reflexivity|].
  rewrite !Qsum_cons, (H x (or_introl eq_refl)), IH; [reflexivity|].
  intros; apply H; right; assumption.
Qed.

Lemma Qsum_map_zero {A} (f : A -> Q) l :
  (forall x, In x l -> f x == 0) -> Qsum (map f l) == 0.
Proof.
  induction l as [|x l IH]; intros H; cbn [map]; [reflexivity|].
  rewrite Qsum_cons, (H x (or_introl eq_refl)), IH; [reflexivity|].
  intros; apply H; right; assumption.
Qed.

Lemma Qsum_select (f : string -> Q) x l :
  NoDup l ->
  Qsum (map (fun y => if String.eqb x y then f y else 0) l)
  == if in_dec string_dec x l then f x else 0.
Proof.
  induction 1 as [|y l Hy Hnd IH]; cbn [map]; [reflexivity|].
  rewrite Qsum_cons.
  destruct (String.eqb_spec x y) as [->|Hne].
  - rewrite (Qsum_map_zero _ l).
    + destruct (in_dec string_dec y (y :: l)) as [_|Hn]; [ring|].
      exfalso; apply Hn; left; reflexivity.
    + intros w Hw. destruct (String.eqb_spec y w); [subst; contradiction|reflexivity].
  - rewrite IH. destruct (in_dec string_dec x (y :: l)) as [Hin|Hn];
      destruct (in_dec string_dec x l) as [Hin'|Hn'].
    + ring.
    + destruct Hin as [E|E]; [congruence|contradiction].
    + exfalso; apply Hn; right; exact Hin'.
    + ring.
Qed.

Lemma fold_left_additive_Q {A S} (step : S -> A -> S) (M : S -> Q) (d : A -> Q) l s :
  (forall s a, M (step s a) == M s + d a) ->
  M (fold_left step l s) == M s + Qsum (map d l).
Proof.
  intros H. revert s. induction l as [|a l IH]; intros s; cbn [map fold_left].
  - unfold Qsum. simpl. ring.
  - rewrite IH, H, Qsum_cons. ring.
Qed.

Lemma mget_madd_Q k' k c m :
  mget 0 k' (madd_Q k c m) == mget 0 k' m + if pair_eqb k k' then c else 0.
Proof.
  unfold madd_Q. rewrite mget_mset. destruct (pair_eqb k k') eqn:E.
  - apply pair_eqb_eq in E as ->. reflexivity.
  - ring.
Qed.

Lemma tally_acpm test train bs kk :
  mget 0 kk (t_average_class_probability_matrix (tally_batches test train bs))
  == Qsum (map (fun b => Qsum (map (fun g => Qsum (map (fun p =>
       if pair_eqb (g, p) kk then mget 0 (g, p) (b_average_class_probability_matrix b) else 0)
       train)) test)) bs).
Proof.
  unfold tally_batches.
  rewrite (fold_left_additive_Q _ (fun t => mget 0 kk (t_average_class_probability_matrix t))
             (fun b => Qsum (map (fun g => Qsum (map (fun p =>
                if pair_eqb (g, p) kk then mget 0 (g, p) (b_average_class_probability_matrix b)
                else 0) train)) test))).
  - unfold tally0, mget. simpl. ring.
  - intros t b. unfold batch_step.
    rewrite (fold_left_additive_Q _ (fun t => mget 0 kk (t_average_class_probability_matrix t))
               (fun g => Qsum (map (fun p =>
                  if pair_eqb (g, p) kk then mget 0 (g, p) (b_average_class_probability_matrix b)
                  else 0) train))).
    + reflexivity.
    + intros t' g.
      apply (fold_left_additive_Q _ (fun t => mget 0 kk (t_average_class_probability_matrix t))
               (fun p => if pair_eqb (g, p) kk
                         then mget 0 (g, p) (b_average_class_probability_matrix b) else 0)).
      intros t'' p. apply mget_madd_Q.
Qed.

Lemma batch_acpm_select test train (m : Matrix Q) g0 p0 :
  NoDup test -> NoDup train -> In g0 test -> In p0 train ->
  Qsum (map (fun g => Qsum (map (fun p =>
     if pair_eqb (g, p) (g0, p0) then mget 0 (g, p) m else 0) train)) test)
  == mget 0 (g0, p0) m.
Proof.
  intros Ht Htr Hg Hp.
  rewrite (Qsum_map_ext _ (fun g => if String.eqb g0 g then
             Qsum (map (fun p => if String.eqb p0 p then mget 0 (g, p) m else 0) train)
             else 0)).
  - rewrite (Qsum_select (fun g => Qsum (map (fun p =>
               if String.eqb p0 p then mget 0 (g, p) m else 0) train))) by exact Ht.
    destruct (in_dec string_dec g0 test); [|contradiction].
    rewrite (Qsum_select (fun p => mget 0 (g0, p) m)) by exact Htr.
    destruct (in_dec string_dec p0 train); [reflexivity|contradiction].
  - intros g _. unfold pair_eqb. simpl. rewrite (String.eqb_sym g g0).
    destruct (String.eqb g0 g); simpl.
    + apply Qsum_map_ext. intros p _. rewrite (String.eqb_sym p p0). reflexivity.
    + apply Qsum_map_zero. reflexivity.
Qed.

Lemma finalize_row_spec N row cols m m' :
  NoDup cols ->
  foldM (fun m col => v <- py_fdiv (mget 0 (row, col) m) N ;; Ok (mset (row, col) v m)) cols m
  = Ok m' ->
  (forall c, In c cols -> mget 0 (row, c) m' = mget 0 (row, c) m / N)
  /\ (forall k, (forall c, In c cols -> k <> (row, c)) -> mget 0 k m' = mget 0 k m).
Proof.
  intros Hnd. revert m. induction Hnd as [|c0 cols Hc0 Hnd IH]; intros m H; simpl in H.
  - injection H as <-. split; [intros c []|reflexivity].
  - destruct (py_fdiv (mget 0 (row, c0) m) N) as [v|err] eqn:F; [|discriminate].
    rewrite bind_Ok, bind_Ok in H. apply py_fdiv_Ok in F as [_ Hv].
    destruct (IH _ H) as [H1 H2]. split.
    + intros c [<-|Hc].
      * rewrite H2 by (intros c' Hc' E; injection E as ->; contradiction).
        rewrite mget_mset, (proj2 (pair_eqb_eq _ _) eq_refl). exact Hv.
      * rewrite H1 by exact Hc. rewrite mget_mset.
        destruct (pair_eqb (row, c0) (row, c)) eqn:E; [|reflexivity].
        apply pair_eqb_eq in E. injection E as ->. contradiction.
    + intros k Hk. rewrite H2 by (intros c Hc; apply Hk; right; exact Hc).
      rewrite mget_mset. destruct (pair_eqb (row, c0) k) eqn:E; [|reflexivity].
      apply pair_eqb_eq in E. exfalso. exact (Hk c0 (or_introl eq_refl) (eq_sym E)).
Qed.

Lemma finalize_avg_spec nb rows cols m m' :
  NoDup rows -> NoDup cols -> finalize_avg nb rows cols m = Ok m' ->
  (forall r c, In r rows -> In c cols -> mget 0 (r, c) m' = mget 0 (r, c) m / Q_of_nat nb)
  /\ (forall k, (forall r c, In r rows -> In c cols -> k <> (r, c)) -> mget 0 k m' = mget 0 k m).
Proof.
  intros Hnd Hc. unfold finalize_avg. revert m.
  induction Hnd as [|r0 rows Hr0 Hnd IH]; intros m H; simpl in H.
  - injection H as <-. split; [intros r c []|reflexivity].
  - destruct (foldM _ cols m) as [m1|err] eqn:F; [rewrite bind_Ok in H|discriminate].
    destruct (finalize_row_spec _ _ _ _ _ Hc F) as [R1 R2].
    destruct (IH _ H) as [H1 H2]. split.
    + intros r c [<-|Hr] Hcc.
      * rewrite H2 by (intros r' c' Hr' _ E; injection E as -> _; contradiction).
        apply R1, Hcc.
      * rewrite H1 by assumption. rewrite R2; [reflexivity|].
        intros c' _ E. injection E as -> _. contradiction.
    + intros k Hk. rewrite H2 by (intros r c Hr Hcc; apply Hk; [right|]; assumption).
      apply R2. intros c Hcc. apply Hk; [left; reflexivity|exact Hcc].
Qed.

(** X25: after classification [GenerateStats], with duplicate-free class
    lists, the average class probability matrix holds for each test class
    [g] and training class [p] the mean over the splits of the splits'
    [average_class_probability_matrix[g][p]] (0 where a split has none). *)
Theorem cls_GenerateStats_acpm ord e e' g p :
  NoDup (test_class_names e) -> NoDup (training_class_names e) ->
  In g (test_class_names e) -> In p (training_class_names e) ->
  cls_GenerateStats ord e = Ok e' ->
  mget 0 (g, p) (average_class_probability_matrix (cls e'))
  == Qsum (map (fun b => mget 0 (g, p) (b_average_class_probability_matrix b))
               (individual_results e))
     / Q_of_nat (List.length (individual_results e)).
Proof.
  intros Ht Htr Hg Hp He.
  destruct (cls_GenerateStats_Ok _ _ _ He) as (_ & _ & _ & _ & _ & _ & _ & _ & acpm & F & Ha & _).
  cbv zeta in F. rewrite Ha.
  destruct (finalize_avg_spec _ _ _ _ _
              (Permutation_NoDup (Permutation_sym (sorted_strings_perm _)) Ht)
              (Permutation_NoDup (Permutation_sym (sorted_strings_perm _)) Htr) F) as [H1 _].
  rewrite H1 by (apply (Permutation_in _ (Permutation_sym (sorted_strings_perm _))); assumption).
  rewrite tally_acpm.
  apply Qdiv_comp; [|reflexivity].
  apply Qsum_map_ext. intros b _. apply batch_acpm_select; assumption.
Qed.

Local Open Scope string_scope.

Lemma reg_GenerateStats_errors_witness :
  exists e0, base_GenerateStats py2_dict_order ex_broadcast_mismatch = Ok e0
  /\ reg_GenerateStats py2_dict_order scipy_returns scipy_returns false ex_broadcast_mismatch
     = Err ValueError.
Proof.
  destruct (base_GenerateStats py2_dict_order ex_broadcast_mismatch) as [e0|err] eqn:B;
    [|cbv -[sqrt Q2R] in B; discriminate].
  exists e0. split; [reflexivity|].
  apply (proj1 (reg_GenerateStats_errors _ scipy_returns scipy_returns _ _ B)).
  clear -B.
  cbv -[sqrt Q2R] in B. injection B as <-. simpl. lia.
Defined.

Lemma base_GenerateStats_ValueError_witness :
  base_GenerateStats py2_dict_order ex_extra_weights = Err ValueError.
Proof.
  refine (proj2 (proj2 (base_GenerateStats_ValueError py2_dict_order ex_extra_weights _)) _).
  - vm_compute. apply Permutation_refl.
  - exists "f". split; [simpl; left; reflexivity|cbn; lia].
Defined.

Lemma cls_GenerateStats_per_class_witness :
  exists e', cls_GenerateStats py2_dict_order ex_three_splits = Ok e'
  /\ dget String.eqb 0%nat "A" (num_classifications_per_class (cls e')) = 3%nat
  /\ dget String.eqb 0%nat "A" (num_correct_classifications_per_class (cls e')) = 2%nat.
Proof.
  destruct (cls_GenerateStats py2_dict_order ex_three_splits) as [e'|err] eqn:E;
    [|cbv -[sqrt Q2R] in E; discriminate].
  exists e'. split; [reflexivity|].
  destruct (cls_GenerateStats_per_class py2_dict_order ex_three_splits e' "A") as [H1 H2].
  - simpl. solve_nodup.
  - simpl. solve_nodup.
  - simpl. intros s Hs. repeat destruct Hs as [<-|Hs]; try contradiction; simpl; intuition.
  - exact E.
  - rewrite H1, H2. split; reflexivity.
Defined.

Lemma cls_PerSampleStatistics_stats_witness :
  exists r, cls_PerSampleStatistics py2_dict_order ex_three_splits = Ok r
  /\ NoDup (map fst (cps_individual_stats r)).
Proof.
  destruct (cls_PerSampleStatistics_stats py2_dict_order ex_three_splits) as (r & Hr & Hnd & _).
  - vm_compute. first [apply Permutation_refl | apply perm_swap].
  - exists r. split; assumption.
Defined.

Lemma reg_PerSampleStatistics_stats_witness :
  exists r, reg_PerSampleStatistics py2_dict_order ex_three_splits = Ok r
  /\ NoDup (map fst (rps_individual_stats r)).
Proof.
  destruct (reg_PerSampleStatistics_stats py2_dict_order ex_three_splits) as (r & Hr & Hnd & _).
  - vm_compute. first [apply Permutation_refl | apply perm_swap].
  - exists r. split; assumption.
Defined.

Lemma cls_sample_stat_mp_avgs_witness :
  (0 < 2)%nat /\ ex_mp_samples <> []
  /\ let '(n, _, mp_avgs, _) := cls_sample_stat ex_mp_samples in
     List.length mp_avgs = 2%nat
     /\ forall i, (i < 2)%nat ->
          nth i mp_avgs 0
          == Qsum (map (fun r => nth i (marginal_probabilities r) 0) ex_mp_samples)
             / Q_of_nat (List.length ex_mp_samples).
Proof.
  split; [lia|]. split; [discriminate|].
  apply (cls_sample_stat_mp_avgs ex_mp_samples 2); [lia|discriminate|].
  intros r Hr. repeat destruct Hr as [<-|Hr]; try contradiction; reflexivity.
Defined.

Lemma mp_totals_of_reset_witness :
  marginal_probabilities (mk_sample "s2" "A" "A" 0 0) = []
  /\ mp_totals_of (ex_mp_samples ++ mk_sample "s2" "A" "A" 0 0 :: ex_mp_samples)
     = mp_totals_of ex_mp_samples.
Proof.
  split; [reflexivity|]. apply mp_totals_of_reset. reflexivity.
Defined.

Lemma cls_GenerateStats_acpm_witness :
  exists e', cls_GenerateStats py2_dict_order ex_three_splits = Ok e'
  /\ mget 0 ("A", "B") (average_class_probability_matrix (cls e')) == 1 # 4.
Proof.
  destruct (cls_GenerateStats py2_dict_order ex_three_splits) as [e'|err] eqn:E;
    [|cbv -[sqrt Q2R] in E; discriminate].
  exists e'. split; [reflexivity|].
  rewrite (cls_GenerateStats_acpm py2_dict_order ex_three_splits e' "A" "B").
  - vm_compute. reflexivity.
  - simpl. solve_nodup.
  - simpl. solve_nodup.
  - simpl. left. reflexivity.
  - simpl. right. left. reflexivity.
  - exact E.
Defined.

Local Close Scope string_scope.
